(** * StA_Advising: the advising checks of [prototype_script.py]

    A shallow embedding of the honours-advising script and the properties
    of its rule engine.  Python values are modelled as follows.

    - [str] is [string]; the development covers ASCII text, one character
      per [ascii].
    - A pandas data frame is the list of its rows, a row is a record.
    - A cell that may be empty ([nan] in pandas) is an [option string].
    - [set] and [frozenset] are [gset]; the order in which Python iterates
      over a set is not fixed by the language, so it is a parameter of the
      development ([HashOrder]).
    - A [dict] that is iterated is an association list in insertion order.
    - Code that can raise returns an [outcome].
    - List objects that are shared between names live in a [heap]
      (see [Student__init__]). *)

From Stdlib Require Import Ascii.
From stdpp Require Import gmap strings list pretty sorting.

(** ** Python string primitives *)

(** [str.isspace] on ASCII: tab, newline, vertical tab, form feed, carriage
    return, the four separators 28-31, and space. *)
Definition is_space (c : ascii) : bool :=
  let n := Ascii.nat_of_ascii c in
  ((9 <=? n)%nat && (n <=? 13)%nat) || ((28 <=? n)%nat && (n <=? 32)%nat).

Definition is_upper (c : ascii) : bool :=
  let n := Ascii.nat_of_ascii c in (65 <=? n)%nat && (n <=? 90)%nat.

Definition is_digit (c : ascii) : bool :=
  let n := Ascii.nat_of_ascii c in (48 <=? n)%nat && (n <=? 57)%nat.

(** [s.startswith(p)] *)
Fixpoint startswith (s p : string) : bool :=
  match p, s with
  | "", _ => true
  | String a p', String b s' => if Ascii.eqb a b then startswith s' p' else false
  | String _ _, "" => false
  end.

(** [s.endswith(p)] *)
Definition endswith (s p : string) : bool :=
  startswith (String.rev s) (String.rev p).

(** [sub in s] for strings *)
Fixpoint contains (s sub : string) : bool :=
  startswith s sub ||
  match s with
  | "" => false
  | String _ s' => contains s' sub
  end.

(** [s[:-1]] *)
Fixpoint drop_last (s : string) : string :=
  match s with
  | "" => ""
  | String _ "" => ""
  | String c s' => String c (drop_last s')
  end.

(** [s[-1]], which raises [IndexError] on the empty string *)
Fixpoint last_char (s : string) : option ascii :=
  match s with
  | "" => None
  | String c "" => Some c
  | String _ s' => last_char s'
  end.

(** [s[:n]] *)
Fixpoint take_prefix (n : nat) (s : string) : string :=
  match n, s with
  | S k, String c s' => String c (take_prefix k s')
  | _, _ => ""
  end.

Fixpoint lstrip (s : string) : string :=
  match s with
  | "" => ""
  | String c s' => if is_space c then lstrip s' else s
  end.

(** [s.strip()] *)
Definition strip (s : string) : string :=
  String.rev (lstrip (String.rev (lstrip s))).

(** [s.split()]: the maximal runs of non-whitespace characters.  [cur] is
    the run being read, reversed. *)
Fixpoint split_go (cur : option string) (s : string) : list string :=
  match s with
  | "" => option_list (String.rev <$> cur)
  | String a s' =>
      if is_space a
      then option_list (String.rev <$> cur) ++ split_go None s'
      else split_go (Some (String a (default "" cur))) s'
  end.

Definition str_split (s : string) : list string := split_go None s.

(** [s.replace(old, new)]: the non-overlapping occurrences of [old], found
    from the left, are replaced.  [skip] counts the characters of a matched
    occurrence that are still to be passed over. *)
Fixpoint replace_go (old new : string) (skip : nat) (s : string) : string :=
  match s with
  | "" => ""
  | String c s' =>
      match skip with
      | S k => replace_go old new k s'
      | O =>
          if startswith s old
          then new +:+ replace_go old new (String.length old - 1) s'
          else String c (replace_go old new 0 s')
      end
  end.

(** With an empty [old] Python inserts [new] before each character and at
    the end. *)
Fixpoint replace_empty (new s : string) : string :=
  new +:+ match s with
          | "" => ""
          | String c s' => String c (replace_empty new s')
          end.

Definition replace (s old new : string) : string :=
  if String.eqb old "" then replace_empty new s else replace_go old new 0 s.

(** [sep.join(l)] *)
Fixpoint join (sep : string) (l : list string) : string :=
  match l with
  | [] => ""
  | [x] => x
  | x :: l' => x +:+ sep +:+ join sep l'
  end.

(** One match of the pattern [[A-Z]{2}\d{4}] at the head of [s]. *)
Definition match_module_code (s : string) : option string :=
  match s with
  | String a (String b (String d1 (String d2 (String d3 (String d4 _))))) =>
      if is_upper a && is_upper b &&
         is_digit d1 && is_digit d2 && is_digit d3 && is_digit d4
      then Some (String a (String b (String d1 (String d2 (String d3 (String d4 ""))))))
      else None
  | _ => None
  end.

(** [re.findall(r'[A-Z]{2}\d{4}', s)]: the non-overlapping matches, from
    the left. *)
Fixpoint findall_go (skip : nat) (s : string) : list string :=
  match s with
  | "" => []
  | String _ s' =>
      match skip with
      | S k => findall_go k s'
      | O =>
          match match_module_code s with
          | Some m => m :: findall_go 5 s'
          | None => findall_go 0 s'
          end
      end
  end.

Definition findall_module_codes (s : string) : list string := findall_go 0 s.

(** [str(n)] for an integer *)
Definition str_of_int (n : Z) : string := pretty n.

(** The digits of an integer literal: decimal digits, single underscores
    allowed between two digits. *)
Fixpoint digits_value (acc : Z) (after_digit : bool) (s : string) : option Z :=
  match s with
  | "" => if after_digit then Some acc else None
  | String c s' =>
      match Ascii.is_nat c with
      | Some d => digits_value (10 * acc + Z.of_nat d) true s'
      | None =>
          if Ascii.eqb c "_" && after_digit then digits_value acc false s' else None
      end
  end.

(** The whitespace that [int] ignores around a number: tab, newline,
    vertical tab, form feed, carriage return and space.  The separators
    28-31 are whitespace for [str.isspace] but not here. *)
Definition is_int_space (c : ascii) : bool :=
  let n := Ascii.nat_of_ascii c in
  ((9 <=? n)%nat && (n <=? 13)%nat) || (n =? 32)%nat.

Fixpoint int_lstrip (s : string) : string :=
  match s with
  | "" => ""
  | String c s' => if is_int_space c then int_lstrip s' else s
  end.

(** [int(s)] for a string, base 10: surrounding whitespace is ignored, a
    sign is allowed; [None] is Python's [ValueError]. *)
Definition int_of_str (s : string) : option Z :=
  match String.rev (int_lstrip (String.rev (int_lstrip s))) with
  | String "+" s' => digits_value 0 false s'
  | String "-" s' => Z.opp <$> digits_value 0 false s'
  | s' => digits_value 0 false s'
  end.

(** [x in l] for a list of strings *)
Definition mem (x : string) (l : list string) : bool := bool_decide (x ∈ l).

(** [str(b)] for a boolean *)
Definition str_of_bool (b : bool) : string := if b then "True" else "False".

(** ** Joining findings: [merge_list_to_long_string] *)

(** One turn of the loop; the state is [(a_string, first_item_found)]. *)
Definition merge_step (state : string * bool) (item : string) : string * bool :=
  let '(a_string, first_item_found) := state in
  if negb (String.eqb item "None") then
    if first_item_found
    then (a_string +:+ ", " +:+ item, first_item_found)
    else (item, true)
  else state.

Definition merge_list_to_long_string (a_list : list string) : string :=
  let a_string := fst (foldl merge_step ("", false) a_list) in
  if String.eqb a_string "" then "None" else a_string.

(** What the specification says of the result: the entries other than
    ["None"], joined by a comma and a space. *)
Definition joined_findings (a_list : list string) : string :=
  join ", " (filter (λ item, item ≠ "None") a_list).

(** ** Exceptions *)

Inductive exception : Set :=
  | IndexError
  | KeyError
  | ValueError
  | TypeError
  | AttributeError
  | AssertionError
  | UnboundLocalError
  | EvalError.
(** [EvalError] stands for a call of [eval] that raises, or whose argument
    lies outside the expressions this development evaluates (see
    [eval_bool]). *)

Inductive outcome (A : Type) : Type :=
  | Return (a : A)
  | Raise (e : exception).
Arguments Return {A} a.
Arguments Raise {A} e.

#[global] Instance outcome_ret : MRet outcome := λ A a, Return a.
#[global] Instance outcome_bind : MBind outcome := λ A B f m,
  match m with
  | Return a => f a
  | Raise e => Raise e
  end.
#[global] Instance outcome_fmap : FMap outcome := λ A B f m,
  match m with
  | Return a => Return (f a)
  | Raise e => Raise e
  end.

(** [l[i]] for [0 <= i] *)
Definition index {A} (l : list A) (i : nat) : outcome A :=
  match l !! i with
  | Some x => Return x
  | None => Raise IndexError
  end.

(** The loop [for x in l: state = body(state, x)], where the body can raise. *)
Fixpoint for_each {A S} (body : S → A → outcome S) (l : list A) (state : S) : outcome S :=
  match l with
  | [] => Return state
  | x :: l' => state' ← body state x; for_each body l' state'
  end.

(** ** Data frames *)

(** A row of the module catalogue.  The columns Semester, Year and
    Alternate years are filled in for every module; the other three may be
    empty. *)
Module Catalogue.
Record row : Set := {
  Module_code : string;
  Semester : string;
  Year : string;
  Alternate_years : string;
  Prerequisites : option string;
  Antirequisites : option string;
  Timetable : option string
}.
End Catalogue.

(** A row of [honours_module_choices]. *)
Module Choices.
Record row : Set := {
  Honours_year : string;
  Academic_year : string;
  Semester : string;
  Module_code : string
}.
End Choices.

(** A row of a student data file. *)
Module Records.
Record row : Set := {
  Student_ID : Z;
  Year : string;
  Module_code : string;
  Assessment_result : string;
  Programme_name : string;
  Given_names : string;
  Family_name : string;
  Email : string
}.
End Records.

(** [column.unique()] and the keys of a [Counter], in order of first
    appearance. *)
Definition unique (l : list string) : list string :=
  foldl (λ seen x, if mem x seen then seen else seen ++ [x]) [] l.

(** [Counter(l)[x]] *)
Definition count (x : string) (l : list string) : nat :=
  length (filter (λ y, y = x) l).

(** The attributes of a [Student], read off the object (the object itself,
    with the list objects it shares, is [Student__init__] below). *)
Record Student : Set := {
  student_id : Z;
  full_name : string;
  email : string;
  programme_name : string;
  year_of_study : Z;
  expected_honours_years : Z;
  current_honours_year : Z;
  passed_modules : list string;
  passed_honours_modules : list string;
  honours_module_choices : list Choices.row;
  full_module_list : list string;
  all_honours_modules : list string;
  planned_honours_modules : list string
}.

(** ** Iteration order of sets *)

(** Python iterates over a [set] or [frozenset] in an order that depends on
    the hash values of its members: some enumeration of the members, each
    once.  Within one run the same set built the same way is iterated the
    same way, so the order is a function of the set. *)
Class HashOrder : Type := {
  set_iter : ∀ {A} `{Countable A}, gset A → list A;
  set_iter_elements : ∀ {A} `{Countable A} (X : gset A), set_iter X ≡ₚ elements X
}.

(** One possible order. *)
Definition elements_order : HashOrder :=
  {| set_iter := λ A _ _ X, elements X;
     set_iter_elements := λ A _ _ X, reflexivity (elements X) |}.

(** ** Timetable clashes *)

(** [warning_string += item], then [' and '] unless the item is the last:
    the two [enumerate] loops that write the module codes and the timeslots
    of a clash. *)
Definition append_separated (warning_string : string) (items : list string) : string :=
  foldl (λ w '(i, item),
           let w := w +:+ item in
           if (i <? length items - 1)%nat then w +:+ " and " else w)
        warning_string (imap pair items).

(** [set.intersection( *sets)], which needs at least one set. *)
Definition set_intersection (sets : list (gset string)) : outcome (gset string) :=
  match sets with
  | [] => Raise TypeError
  | X :: rest => Return (foldl (∩) X rest)
  end.

(** [module_dictionary[module]] *)
Definition dict_get (module_dictionary : list (string * list string)) (module : string)
  : outcome (list string) :=
  match list_find (λ kv, kv.1 = module) module_dictionary with
  | Some (_, kv) => Return kv.2
  | None => Raise KeyError
  end.

(** [module_dictionary[module] = value]: a key keeps the place of its first
    insertion. *)
Fixpoint dict_set (module_dictionary : list (string * list string))
    (module : string) (value : list string) : list (string * list string) :=
  match module_dictionary with
  | [] => [(module, value)]
  | kv :: rest =>
      if String.eqb kv.1 module then (module, value) :: rest
      else kv :: dict_set rest module value
  end.

Section Timetable.
Context `{HashOrder}.

Definition clash_warning (module_dictionary : list (string * list string))
    (honours_year semester : string) (module_combination : gset string) : outcome string :=
  all_timeslot_sets ← mapM (λ module, list_to_set <$> dict_get module_dictionary module)
                           (set_iter module_combination);
  affected_timeslots ← set_intersection all_timeslot_sets;
  let warning_string :=
    "Clash for " +:+ honours_year +:+ " " +:+ semester +:+ " between modules " in
  let warning_string := append_separated warning_string (set_iter module_combination) in
  let warning_string := warning_string +:+ " at " in
  Return (append_separated warning_string (set_iter affected_timeslots)).

Definition find_clashing_timeslots_and_modules
    (module_dictionary : list (string * list string))
    (honours_year semester : string) : outcome (list string) :=
  let all_timeslots := concat (snd <$> module_dictionary) in
  let duplicate_entries :=
    filter (λ timeslot, 1 < count timeslot all_timeslots) (unique all_timeslots) in
  let clashing_module_codes :=
    (λ timeslot,
       merge_sort String.le
         (fst <$> filter (λ kv, timeslot ∈ kv.2) module_dictionary))
    <$> duplicate_entries in
  let unique_module_clashes : list (gset string) :=
    set_iter (list_to_set (list_to_set <$> clashing_module_codes)) in
  mapM (clash_warning module_dictionary honours_year semester) unique_module_clashes.

End Timetable.

(** ** Evaluating a substituted prerequisite expression *)

(** [eval] is modelled on the expressions the substitution is meant to
    produce: [True], [False], [and], [or], [not] and parentheses, separated
    by blanks.  On any other string [eval_bool] gives [None]. *)
Inductive token : Set := TTrue | TFalse | TAnd | TOr | TNot | TLParen | TRParen.

Definition is_word_char (c : ascii) : bool :=
  let n := Ascii.nat_of_ascii c in
  is_upper c || is_digit c || ((97 <=? n)%nat && (n <=? 122)%nat) || Ascii.eqb c "_".

Definition word_token (w : string) : option token :=
  if String.eqb w "True" then Some TTrue
  else if String.eqb w "False" then Some TFalse
  else if String.eqb w "and" then Some TAnd
  else if String.eqb w "or" then Some TOr
  else if String.eqb w "not" then Some TNot
  else None.

(** [cur] is the word being read, reversed. *)
Definition flush_word (cur : string) (rest : option (list token)) : option (list token) :=
  if String.eqb cur "" then rest
  else t ← word_token (String.rev cur); ts ← rest; Some (t :: ts).

Fixpoint tokenize (cur : string) (s : string) : option (list token) :=
  match s with
  | "" => flush_word cur (Some [])
  | String c s' =>
      if is_word_char c then tokenize (String c cur) s'
      else if Ascii.eqb c " " || Ascii.eqb c "009" then flush_word cur (tokenize "" s')
      else if Ascii.eqb c "(" then flush_word cur ((TLParen ::.) <$> tokenize "" s')
      else if Ascii.eqb c ")" then flush_word cur ((TRParen ::.) <$> tokenize "" s')
      else None
  end.

Inductive level : Set := LOr | LAnd | LNot.

(** Python's grammar: [or_test: and_test ('or' and_test)*],
    [and_test: not_test ('and' not_test)*],
    [not_test: 'not' not_test | atom]. *)
Fixpoint parse (fuel : nat) (lv : level) (ts : list token) : option (bool * list token) :=
  match fuel with
  | O => None
  | S fuel =>
      match lv with
      | LOr =>
          '(b, ts) ← parse fuel LAnd ts;
          match ts with
          | TOr :: ts => '(b', ts) ← parse fuel LOr ts; Some (b || b', ts)
          | _ => Some (b, ts)
          end
      | LAnd =>
          '(b, ts) ← parse fuel LNot ts;
          match ts with
          | TAnd :: ts => '(b', ts) ← parse fuel LAnd ts; Some (b && b', ts)
          | _ => Some (b, ts)
          end
      | LNot =>
          match ts with
          | TNot :: ts => '(b, ts) ← parse fuel LNot ts; Some (negb b, ts)
          | TTrue :: ts => Some (true, ts)
          | TFalse :: ts => Some (false, ts)
          | TLParen :: ts =>
              '(b, ts) ← parse fuel LOr ts;
              match ts with
              | TRParen :: ts => Some (b, ts)
              | _ => None
              end
          | _ => None
          end
      end
  end.

Definition eval_bool (s : string) : option bool :=
  ts ← tokenize "" s;
  match parse (3 * length ts + 3) LOr ts with
  | Some (b, []) => Some b
  | _ => None
  end.

(** ** The catalogue and the checks that read it *)

Section Checks.
Context `{HashOrder}.
(** [module_catalogue], read from [Module_catalogue.xlsx] when the script
    is loaded. *)
Context (module_catalogue : list Catalogue.row).

(** [module_catalogue[module_catalogue['Module code'] == module]] *)
Definition catalogue_entry (module : string) : list Catalogue.row :=
  filter (λ r, Catalogue.Module_code r = module) module_catalogue.

(** The [while] loop of [get_timeslots_for_module]: the remaining words are
    read two at a time. *)
Fixpoint remaining_timeslots (remaining_splits : list string) : outcome (list string) :=
  match remaining_splits with
  | [] => Return []
  | [_] => Raise IndexError
  | a :: b :: rest =>
      let this_timeslot := a +:+ " " +:+ b in
      let this_timeslot :=
        if endswith this_timeslot "," then drop_last this_timeslot else this_timeslot in
      (this_timeslot ::.) <$> remaining_timeslots rest
  end.

Definition get_timeslots_for_module (module : string) : outcome (list string) :=
  let timeslot_entry :=
    match catalogue_entry module with
    | [] => None
    | r :: _ => Catalogue.Timetable r
    end in
  match timeslot_entry with
  | None => Return []
  | Some timeslot_entry =>
      if String.eqb timeslot_entry "10am Wed (odd weeks), 10am Fri (odd weeks)"
      then Return ["10am Wed (odd weeks)"; "10am Fri (odd weeks)"]
      else
        let timeslot_splits := str_split timeslot_entry in
        first_timeslot ← index timeslot_splits 0;
        '(timeslots, remaining_splits) ←
          (if (2 <? length timeslot_splits)%nat &&
              startswith (default "" (timeslot_splits !! 2%nat)) "("
           then
             split4 ← index timeslot_splits 4;
             split5 ← index timeslot_splits 5;
             let second_timeslot := first_timeslot +:+ " " +:+ drop_last split4 in
             let third_timeslot := first_timeslot +:+ " " +:+ split5 in
             let third_timeslot :=
               if endswith third_timeslot "," then drop_last third_timeslot
               else third_timeslot in
             split1 ← index timeslot_splits 1;
             split2 ← index timeslot_splits 2;
             split3 ← index timeslot_splits 3;
             let first_timeslot :=
               first_timeslot +:+ " " +:+ split1 +:+ " " +:+ split2 +:+ " "
                 +:+ drop_last split3 in
             Return ([first_timeslot; second_timeslot; third_timeslot],
                     if (7 <? length timeslot_splits)%nat then drop 6 timeslot_splits else [])
           else
             split1 ← index timeslot_splits 1;
             let first_timeslot := first_timeslot +:+ " " +:+ split1 in
             let first_timeslot :=
               if endswith first_timeslot "," then drop_last first_timeslot
               else first_timeslot in
             Return ([first_timeslot],
                     if (2 <? length timeslot_splits)%nat then drop 2 timeslot_splits else []));
        rest ← remaining_timeslots remaining_splits;
        Return (timeslots ++ rest)
  end.

(** The loop [for _, value in d.items(): for entry in value:
    entry.replace(old, '')].  Each call of [replace] builds a new string
    that the loop drops, so the dictionary comes out as it went in. *)
Definition replace_and_drop (reduced_timeslot_dictionary : list (string * list string))
    (old : string) : list (string * list string) :=
  let _ := (λ kv : string * list string, (λ entry, replace entry old "") <$> kv.2)
             <$> reduced_timeslot_dictionary in
  reduced_timeslot_dictionary.

(** [timeslot_dictionary] for the modules of one semester. *)
Definition timeslot_dictionary_of (semester_modules : list string)
  : outcome (list (string * list string)) :=
  for_each (λ d module,
              these_timeslots ← get_timeslots_for_module module;
              Return (dict_set d module these_timeslots))
           semester_modules [].

(** The body of the two nested loops of [find_timetable_clashes]. *)
Definition semester_clashes (student : Student) (honours_year semester : string)
    (timetable_clashes_list : list string) : outcome (list string) :=
  let semester_modules :=
    Choices.Module_code <$>
      filter (λ r, Choices.Semester r = semester ∧ Choices.Honours_year r = honours_year)
             (honours_module_choices student) in
  timeslot_dictionary ← timeslot_dictionary_of semester_modules;
  clashes ← find_clashing_timeslots_and_modules timeslot_dictionary honours_year semester;
  let timetable_clashes_list := timetable_clashes_list ++ clashes in
  let reduced_timeslot_dictionary := replace_and_drop timeslot_dictionary " (even weeks)" in
  clashes ← find_clashing_timeslots_and_modules timeslot_dictionary honours_year semester;
  let timetable_clashes_list := timetable_clashes_list ++ clashes in
  let reduced_timeslot_dictionary := replace_and_drop timeslot_dictionary " (odd weeks)" in
  clashes ← find_clashing_timeslots_and_modules timeslot_dictionary honours_year semester;
  Return (timetable_clashes_list ++ clashes).

(** The two nested loops: the warnings of all honours years and semesters,
    before duplicates are removed. *)
Definition all_semester_clashes (student : Student) : outcome (list string) :=
  let remaining_honours_years :=
    unique (Choices.Honours_year <$> honours_module_choices student) in
  for_each (λ clashes honours_year,
              for_each (λ clashes semester,
                          semester_clashes student honours_year semester clashes)
                       ["S1"; "S2"] clashes)
           remaining_honours_years [].

Definition find_timetable_clashes (student : Student) : outcome (string * string) :=
  let adviser_recommendations_list : list string := [] in
  timetable_clashes_list ← all_semester_clashes student;
  let timetable_clashes_list := set_iter (list_to_set timetable_clashes_list) in
  Return (merge_list_to_long_string timetable_clashes_list,
          merge_list_to_long_string adviser_recommendations_list).

(** *** Modules that are not running *)

(** The body of the loop of [find_not_running_modules], for one row of the
    student's choices. *)
Definition not_running_step (not_running_modules_list : list string) (row : Choices.row)
  : outcome (list string) :=
  let planned_module_code := Choices.Module_code row in
  let planned_academic_year := Choices.Academic_year row in
  let planned_semester := Choices.Semester row in
  match catalogue_entry planned_module_code with
  | [] => Return not_running_modules_list
  | module_catalogue_entry :: _ =>
      let module_semester := Catalogue.Semester module_catalogue_entry in
      let not_running_modules_list :=
        if negb (String.eqb planned_semester module_semester) &&
           negb (String.eqb module_semester "Full Year")
        then not_running_modules_list ++
               ["Selected module " +:+ planned_module_code +:+ " for Semester " +:+
                planned_semester +:+ " but it is actually running in " +:+ module_semester]
        else not_running_modules_list in
      let module_academic_year := Catalogue.Year module_catalogue_entry in
      let module_is_alternating_entry := Catalogue.Alternate_years module_catalogue_entry in
      module_is_alternating ←
        (if String.eqb module_is_alternating_entry "Yes" then Return true
         else if String.eqb module_is_alternating_entry "No" then Return false
         else Raise ValueError);
      start_year ←
        match int_of_str (take_prefix 4 module_academic_year) with
        | Some n => Return n
        | None => Raise ValueError
        end;
      let list_of_running_academic_years :=
        module_academic_year ::
        ((λ repeat_index : Z,
            if module_is_alternating : bool
            then str_of_int (start_year + 2 * repeat_index) +:+ "/" +:+
                 str_of_int (start_year + 2 * repeat_index + 1)
            else str_of_int (start_year + repeat_index) +:+ "/" +:+
                 str_of_int (start_year + repeat_index + 1))
         <$> [0; 1; 2; 3]%Z) in
      Return (if negb (mem planned_academic_year list_of_running_academic_years)
              then not_running_modules_list ++
                     ["Selected module " +:+ planned_module_code +:+
                      " is not running in academic year " +:+ planned_academic_year]
              else not_running_modules_list)
  end.

Definition find_not_running_modules (student : Student) : outcome (string * string) :=
  let adviser_recommendations_list : list string := [] in
  not_running_modules_list ←
    for_each not_running_step (honours_module_choices student) [];
  Return (merge_list_to_long_string not_running_modules_list,
          merge_list_to_long_string adviser_recommendations_list).

(** *** Prerequisites and antirequisites *)

(** [int(honours_year[-1])] *)
Definition year_number (honours_year : string) : outcome Z :=
  match last_char honours_year with
  | None => Raise IndexError
  | Some c =>
      match int_of_str (String c "") with
      | Some n => Return n
      | None => Raise ValueError
      end
  end.

(** The loop over the student's choices that collects
    [(previously_taken_modules, simultaneously_taken_modules,
    modules_taken_in_same_year)]. *)
Definition taken_modules_step (module year_of_this_module semester_of_this_module : string)
    (year_number_of_this_module : Z)
    (state : list string * list string * list string) (row : Choices.row)
  : outcome (list string * list string * list string) :=
  let '(previously_taken_modules, simultaneously_taken_modules,
        modules_taken_in_same_year) := state in
  year_number ← year_number (Choices.Honours_year row);
  let previously_taken_modules :=
    if (year_number <? year_number_of_this_module)%Z
    then previously_taken_modules ++ [Choices.Module_code row]
    else previously_taken_modules in
  let previously_taken_modules :=
    if String.eqb semester_of_this_module "S2" &&
       (String.eqb (Choices.Honours_year row) year_of_this_module &&
        String.eqb (Choices.Semester row) "S1")
    then previously_taken_modules ++ [Choices.Module_code row]
    else previously_taken_modules in
  let simultaneously_taken_modules :=
    if String.eqb (Choices.Honours_year row) year_of_this_module &&
       String.eqb (Choices.Semester row) semester_of_this_module &&
       negb (String.eqb (Choices.Module_code row) module)
    then simultaneously_taken_modules ++ [Choices.Module_code row]
    else simultaneously_taken_modules in
  let modules_taken_in_same_year :=
    if String.eqb (Choices.Honours_year row) year_of_this_module &&
       negb (String.eqb (Choices.Module_code row) module)
    then modules_taken_in_same_year ++ [Choices.Module_code row]
    else modules_taken_in_same_year in
  Return (previously_taken_modules, simultaneously_taken_modules,
          modules_taken_in_same_year).

(** [prerequisite_list.index(module_code)], [None] when the code is not one
    of the words. *)
Definition list_index (x : string) (l : list string) : option nat :=
  fst <$> list_find (λ y, y = x) l.

(** The body of the loop over the module codes found in the prerequisite
    text: the occurrences of [module_code] in [parsed_prerequisites] are
    replaced by [True] or [False]. *)
Definition substitute_module_code
    (prerequisite_list previously_taken_modules simultaneously_taken_modules : list string)
    (parsed_prerequisites module_code : string) : string :=
  match list_index module_code prerequisite_list with
  | Some location_index =>
      let parsed_prerequisites :=
        if (0 <? location_index)%nat then
          if String.eqb (default "" (prerequisite_list !! (location_index - 1)%nat))
                        "co-requisite"
          then
            let parsed_prerequisites :=
              if mem module_code previously_taken_modules ||
                 mem module_code simultaneously_taken_modules
              then replace parsed_prerequisites module_code "True"
              else replace parsed_prerequisites module_code "False" in
            replace parsed_prerequisites "co-requisite " ""
          else
            if mem module_code previously_taken_modules
            then replace parsed_prerequisites module_code "True"
            else replace parsed_prerequisites module_code "False"
        else parsed_prerequisites in
      if mem module_code previously_taken_modules
      then replace parsed_prerequisites module_code "True"
      else replace parsed_prerequisites module_code "False"
  | None =>
      if mem module_code previously_taken_modules
      then replace parsed_prerequisites module_code "True"
      else replace parsed_prerequisites module_code "False"
  end.

(** The text handed to [eval]. *)
Definition parse_prerequisites
    (prerequisites : string) (previously_taken_modules simultaneously_taken_modules : list string)
  : string :=
  let prerequisite_list := str_split prerequisites in
  let module_codes := findall_module_codes prerequisites in
  foldl (substitute_module_code prerequisite_list previously_taken_modules
           simultaneously_taken_modules)
        prerequisites module_codes.

(** The branch [if isinstance(prerequisites, str) and module != 'MT5867']:
    the findings and the advice it adds. *)
Definition check_prerequisite_text (module prerequisites : string)
    (previously_taken_modules simultaneously_taken_modules : list string)
  : outcome (list string * list string) :=
  let prerequisite_list := str_split prerequisites in
  if (length prerequisite_list =? 1)%nat then
    required_module ← index prerequisite_list 0;
    Return (if negb (mem required_module previously_taken_modules)
            then ["Student is missing prerequisite " +:+ required_module +:+
                  " for module " +:+ module]
            else [], [])
  else if (length prerequisite_list =? 3)%nat then
    Return ([], if String.eqb prerequisites "Letter of agreement"
                then ["Module " +:+ module +:+ " requires a letter of agreement"]
                else [])
  else if String.eqb prerequisites
            "Students must have gained admission onto an MSc programme" then
    Return (["Student cannot take module " +:+ module +:+
             " as this module is only available to Msc students"], [])
  else
    let parsed_prerequisites :=
      parse_prerequisites prerequisites previously_taken_modules
        simultaneously_taken_modules in
    match eval_bool parsed_prerequisites with
    | None => Raise EvalError
    | Some prerequisites_are_met =>
        Return (if negb prerequisites_are_met
                then ["Student is missing prerequisite [" +:+ prerequisites +:+
                      "] for module " +:+ module +:+ " ([" +:+ parsed_prerequisites +:+ "])"]
                else [], [])
    end.

Definition get_missing_prerequisites_for_module (module : string) (student : Student)
  : outcome (string * string) :=
  let rows_of_this_module :=
    filter (λ r, Choices.Module_code r = module) (honours_module_choices student) in
  year_of_this_module ← index (Choices.Honours_year <$> rows_of_this_module) 0;
  year_number_of_this_module ← year_number year_of_this_module;
  semester_of_this_module ← index (Choices.Semester <$> rows_of_this_module) 0;
  '(previously_taken_modules, simultaneously_taken_modules, modules_taken_in_same_year) ←
    for_each (taken_modules_step module year_of_this_module semester_of_this_module
                year_number_of_this_module)
             (honours_module_choices student) (passed_modules student, [], []);
  let prerequisites :=
    match catalogue_entry module with
    | r :: _ => Catalogue.Prerequisites r
    | [] => None
    end in
  '(missed_prerequisites_list, adviser_recommendations_list) ←
    match prerequisites with
    | Some prerequisites =>
        if negb (String.eqb module "MT5867")
        then check_prerequisite_text module prerequisites previously_taken_modules
               simultaneously_taken_modules
        else Return ([], [])
    | None => Return ([], [])
    end;
  let missed_prerequisites_list :=
    if String.eqb module "MT5867" then
      let prerequisites := "two of (MT3505, MT4003, MT4004, MT4512, MT4514, MT4515, MT4526)" in
      let list_of_modules :=
        ["MT3505"; "MT4003"; "MT4004"; "MT4512"; "MT4514"; "MT4515"; "MT4526"] in
      let number_of_matching_modules :=
        size (list_to_set list_of_modules ∩ list_to_set previously_taken_modules
              : gset string) in
      if (number_of_matching_modules <? 2)%nat
      then missed_prerequisites_list ++
             ["Student is missing prerequisite [" +:+ prerequisites +:+ "] for module MT5867"]
      else missed_prerequisites_list
    else missed_prerequisites_list in
  let antirequisites :=
    match catalogue_entry module with
    | r :: _ => Catalogue.Antirequisites r
    | [] => None
    end in
  let missed_prerequisites_list :=
    match antirequisites with
    | Some antirequisites =>
        let anti_module_codes := findall_module_codes antirequisites in
        foldl (λ missed module_code,
                 if mem module_code previously_taken_modules ||
                    mem module_code simultaneously_taken_modules
                 then missed ++ ["Student selected antirequisite " +:+ module_code +:+
                                 " for module " +:+ module]
                 else missed)
              missed_prerequisites_list anti_module_codes
    | None => missed_prerequisites_list
    end in
  Return (merge_list_to_long_string missed_prerequisites_list,
          merge_list_to_long_string adviser_recommendations_list).

Definition find_missing_prerequisites (student : Student) : outcome (string * string) :=
  '(list_of_missed_prerequisites, list_of_recommendations) ←
    for_each (λ '(missed, recommendations) module,
                '(these_missing_prerequisites, these_adviser_recommendations) ←
                  get_missing_prerequisites_for_module module student;
                Return (missed ++ [these_missing_prerequisites],
                        recommendations ++ [these_adviser_recommendations]))
             (planned_honours_modules student) ([], []);
  Return (merge_list_to_long_string list_of_missed_prerequisites,
          merge_list_to_long_string list_of_recommendations).

(** *** Programme requirements *)

(** [frame[frame['Semester'] == semester]] *)
Definition rows_in_semester (semester : string) (data_base : list Choices.row)
  : list Choices.row :=
  filter (λ r, Choices.Semester r = semester) data_base.

(** [frame[frame['Module code'] != code]] *)
Definition rows_without_module (code : string) (data_base : list Choices.row)
  : list Choices.row :=
  filter (λ r, Choices.Module_code r ≠ code) data_base.

(** [frame[frame['Honours year'] == honours_year]] *)
Definition rows_of_year (honours_year : string) (data_base : list Choices.row)
  : list Choices.row :=
  filter (λ r, Choices.Honours_year r = honours_year) data_base.

(** The first loop of [check_for_120_credits_each_year].  Its state is the
    list of findings and the variable [this_data_base], which the second
    loop reads after the first loop has ended. *)
Definition credit_total_step (student : Student)
    (state : list string * list Choices.row) (honours_year : string)
  : list string * list Choices.row :=
  let '(list_of_missed_requirements, _) := state in
  let this_data_base := rows_of_year honours_year (honours_module_choices student) in
  let list_of_missed_requirements :=
    if String.eqb honours_year "Year 1" || String.eqb honours_year "Year 2" then
      if negb (length this_data_base =? 8)%nat
      then list_of_missed_requirements ++ ["Not collecting 120 credits in " +:+ honours_year]
      else list_of_missed_requirements
    else list_of_missed_requirements in
  let list_of_missed_requirements :=
    if String.eqb honours_year "Year 3" && negb (length this_data_base =? 7)%nat
    then list_of_missed_requirements ++ ["Not collecting 120 credits in " +:+ honours_year]
    else list_of_missed_requirements in
  (list_of_missed_requirements, this_data_base).

(** The second loop; [this_data_base] is what the first loop left. *)
Definition credit_split_step (student : Student) (this_data_base : list Choices.row)
    (list_of_adviser_recommendations : list string) (honours_year : string) : list string :=
  if String.eqb honours_year "Year 1" ||
     (String.eqb honours_year "Year 2" && (expected_honours_years student =? 3)%Z) then
    foldl (λ recommendations semester,
             let this_smaller_data_base := rows_in_semester semester this_data_base in
             if negb (length this_smaller_data_base =? 4)%nat
             then recommendations ++ ["Not taking even credit split in " +:+ honours_year]
             else recommendations)
          list_of_adviser_recommendations ["S1"; "S2"]
  else if String.eqb honours_year "Year 2" then
    let this_reduced_data_base := rows_without_module "MT4599" this_data_base in
    let semester_1_modules :=
      Choices.Module_code <$> rows_in_semester "S1" this_reduced_data_base in
    let semester_2_modules :=
      Choices.Module_code <$> rows_in_semester "S1" this_reduced_data_base in
    if negb (length semester_1_modules =? 4)%nat || negb (length semester_2_modules =? 3)%nat
    then list_of_adviser_recommendations ++
           ["Student is taking a high course load in second semester of final honours year"]
    else list_of_adviser_recommendations
  else if String.eqb honours_year "Year 3" then
    let this_reduced_data_base := rows_without_module "MT5599" this_data_base in
    let semester_1_modules :=
      Choices.Module_code <$> rows_in_semester "S1" this_reduced_data_base in
    let semester_2_modules :=
      Choices.Module_code <$> rows_in_semester "S1" this_reduced_data_base in
    if negb (length semester_1_modules =? 3)%nat || negb (length semester_2_modules =? 3)%nat
    then list_of_adviser_recommendations ++
           ["Student is taking uneven course load in final honours year"]
    else list_of_adviser_recommendations
  else list_of_adviser_recommendations.

(** The two lists that [check_for_120_credits_each_year] builds.  When the
    student has no choices neither loop runs and [this_data_base] is never
    read; the empty frame stands for the unbound variable. *)
Definition credit_findings (student : Student) : list string * list string :=
  let honours_years := unique (Choices.Honours_year <$> honours_module_choices student) in
  let '(list_of_missed_requirements, this_data_base) :=
    foldl (credit_total_step student) ([], []) honours_years in
  let list_of_adviser_recommendations :=
    foldl (credit_split_step student this_data_base) [] honours_years in
  (list_of_missed_requirements, list_of_adviser_recommendations).

Definition check_for_120_credits_each_year (student : Student) : string * string :=
  let '(list_of_missed_requirements, list_of_adviser_recommendations) :=
    credit_findings student in
  (merge_list_to_long_string list_of_missed_requirements,
   merge_list_to_long_string list_of_adviser_recommendations).

(** [Student.get_number_of_modules_in_list] *)
Definition get_number_of_modules_in_list (student : Student) (module_list : list string) : nat :=
  size (list_to_set (full_module_list student) ∩ list_to_set module_list : gset string).

(** The sanity check on modules selected twice. *)
Definition duplicate_selection (student : Student) : list string :=
  if negb (size (list_to_set (full_module_list student) : gset string)
           =? length (full_module_list student))%nat then
    let duplicate_entries :=
      filter (λ module, 1 < count module (full_module_list student))
             (unique (full_module_list student)) in
    let warning_string := "Student selected the following modules twice: " in
    [foldl (λ warning_string entry,
              let warning_string := warning_string +:+ entry in
              if negb (String.eqb entry (default "" (last duplicate_entries)))
              then warning_string +:+ ", " else warning_string)
           warning_string duplicate_entries]
  else [].

(** [module not in module_catalogue['Module code'].values] for the planned
    modules that start with MT. *)
Definition unknown_modules (student : Student) : list string :=
  (λ module, "Student is planning to take " +:+ module +:+ " (which does not exist)")
  <$> filter (λ module, startswith module "MT" ∧
                        module ∉ (Catalogue.Module_code <$> module_catalogue))
             (planned_honours_modules student).

Definition is_non_maths (module : string) : bool :=
  negb (contains module "MT2") && negb (contains module "MT3") &&
  negb (contains module "MT4") && negb (contains module "MT5").

(** The final year project: one of MT4598 and MT4599, taken in Year 2. *)
Definition final_year_project (student : Student) : outcome (list string) :=
  let list_of_project_codes := ["MT4598"; "MT4599"] in
  let number_final_year_projects :=
    get_number_of_modules_in_list student list_of_project_codes in
  if negb (number_final_year_projects =? 1)%nat then
    Return ["Student is not taking an allowed final year project"]
  else
    this_year ←
      (if mem "MT4598" (full_module_list student)
       then index (Choices.Honours_year <$>
                     filter (λ r, Choices.Module_code r = "MT4598")
                            (honours_module_choices student)) 0
       else index (Choices.Honours_year <$>
                     filter (λ r, Choices.Module_code r = "MT4599")
                            (honours_module_choices student)) 0);
    Return (if negb (String.eqb this_year "Year 2")
            then ["Student is not taking their final year project in their final year."]
            else []).

(** The rules of the programme Bachelor of Science (Honours) Mathematics. *)
Definition mathematics_requirements (student : Student)
  : outcome (list string * list string) :=
  let '(missed_requirement, adviser_recommendation) :=
    check_for_120_credits_each_year student in
  let list_of_missed_requirements := [missed_requirement] in
  let list_of_adviser_recommendations := [adviser_recommendation] in
  let list_of_MT350X_modules :=
    ["MT3501"; "MT3502"; "MT3503"; "MT3504"; "MT3505"; "MT3506"; "MT3507"; "MT3508"] in
  let number_of_MT350X_modules :=
    get_number_of_modules_in_list student list_of_MT350X_modules in
  let list_of_missed_requirements :=
    if (number_of_MT350X_modules <? 4)%nat
    then list_of_missed_requirements ++
           ["Student is only taking " +:+ str_of_int (Z.of_nat number_of_MT350X_modules) +:+
            "out of MT3501-MT3508"]
    else list_of_missed_requirements in
  let list_of_computing_modules := ["MT3510"; "MT4111"; "MT4112"; "MT4113"] in
  let number_of_computing_modules :=
    get_number_of_modules_in_list student list_of_computing_modules in
  let list_of_missed_requirements :=
    if (number_of_computing_modules =? 0)%nat
    then list_of_missed_requirements ++ ["Student is not taking a computing module"]
    else list_of_missed_requirements in
  project_findings ← final_year_project student;
  let list_of_missed_requirements := list_of_missed_requirements ++ project_findings in
  let unallowed_modules := ["MT4794"; "MT4795"; "MT4796"; "MT4797"] in
  let number_of_unallowed_modules :=
    get_number_of_modules_in_list student unallowed_modules in
  let list_of_missed_requirements :=
    if (0 <? number_of_unallowed_modules)%nat
    then list_of_missed_requirements ++ ["Student is taking a module in MT4794-MT4797"]
    else list_of_missed_requirements in
  let list_of_all_non_maths_modules :=
    filter (λ module, is_non_maths module) (all_honours_modules student) in
  let list_of_missed_requirements :=
    if (2 <? length list_of_all_non_maths_modules)%nat
    then list_of_missed_requirements ++
           ["Student is taking more than 2 modules as dip-down or dip-across, which is not allowed."]
    else list_of_missed_requirements in
  let list_of_4000_and_5000_modules :=
    filter (λ module, contains module "MT4" || contains module "MT5")
           (all_honours_modules student) in
  let list_of_missed_requirements :=
    if (length list_of_4000_and_5000_modules <? 6)%nat
    then list_of_missed_requirements ++
           ["Student is not planning to take enough credits at 4000 level or above"]
    else list_of_missed_requirements in
  let list_of_planned_5000_level_modules :=
    filter (λ module, contains module "MT5") (planned_honours_modules student) in
  let list_of_adviser_recommendations :=
    if (0 <? length list_of_planned_5000_level_modules)%nat
    then list_of_adviser_recommendations ++
           ["Student is planning to take 5000 level modules (which will require permission)"]
    else list_of_adviser_recommendations in
  let list_of_2000_level_modules :=
    filter (λ module, contains module "MT2") (planned_honours_modules student) in
  let list_of_adviser_recommendations :=
    if (0 <? length list_of_2000_level_modules)%nat
    then list_of_adviser_recommendations ++
           ["Student is planning to take 2000 level modules, (which will require permission)"]
    else list_of_adviser_recommendations in
  let list_of_planned_non_maths_modules :=
    filter (λ module, is_non_maths module) (planned_honours_modules student) in
  let list_of_adviser_recommendations :=
    if (0 <? length list_of_planned_non_maths_modules)%nat
    then list_of_adviser_recommendations ++
           ["Student is planning to take non-MT modules, which requires permission"]
    else list_of_adviser_recommendations in
  Return (list_of_missed_requirements, list_of_adviser_recommendations).

Definition find_missing_programme_requirements (student : Student)
  : outcome (string * string) :=
  let list_of_missed_requirements := duplicate_selection student ++ unknown_modules student in
  '(missed, list_of_adviser_recommendations) ←
    (if String.eqb (programme_name student) "Bachelor of Science (Honours) Mathematics"
     then mathematics_requirements student
     else Return (["No programme requirements available"], []));
  let list_of_missed_requirements := list_of_missed_requirements ++ missed in
  Return (merge_list_to_long_string list_of_missed_requirements,
          merge_list_to_long_string list_of_adviser_recommendations).

(** ** The summary of one form *)

(** The one row of the summary data frame. *)
Record Summary : Set := {
  Student_ID : Z;
  Name : string;
  Programme : string;
  Hon_year : Z;
  Unmet_programme_requirements : string;
  Missing_prerequisites : string;
  Modules_not_running : string;
  Timetable_clashes : string;
  Adviser_recommendations : string
}.

(** [process_form_file] once the form has been parsed into a student. *)
Definition process_student (student : Student) : outcome Summary :=
  '(missed_programme_requirements, programme_adviser_recommendations) ←
    find_missing_programme_requirements student;
  '(missed_prerequisites, prerequisite_adviser_recommendations) ←
    find_missing_prerequisites student;
  '(not_running_modules, scheduling_adviser_recommendations) ←
    find_not_running_modules student;
  '(timetable_clashes, timetable_adviser_recommendations) ←
    find_timetable_clashes student;
  let adviser_recommendations :=
    merge_list_to_long_string
      [programme_adviser_recommendations; prerequisite_adviser_recommendations;
       scheduling_adviser_recommendations; timetable_adviser_recommendations] in
  Return {| Student_ID := student_id student;
            Name := full_name student;
            Programme := programme_name student;
            Hon_year := current_honours_year student;
            Unmet_programme_requirements := missed_programme_requirements;
            Missing_prerequisites := missed_prerequisites;
            Modules_not_running := not_running_modules;
            Timetable_clashes := timetable_clashes;
            Adviser_recommendations := adviser_recommendations |}.

End Checks.

(** ** The [Student] object and the lists it shares *)

(** A list object is known by its location; two names are aliases when they
    hold the same location. *)
Definition loc := nat.

(** The list objects, by location. *)
Abbreviation heap := (gmap loc (list string)).

(** A new list object with the given items. *)
Definition alloc (h : heap) (items : list string) : loc * heap :=
  let r := fresh (dom h) in (r, <[r := items]> h).

(** [r += items] on a list: the object at [r] grows in place. *)
Definition extend (h : heap) (r : loc) (items : list string) : heap :=
  alter (λ l, l ++ items) r h.

(** The object that [Student.__init__] fills in; the attributes that are
    lists hold locations. *)
Record StudentObject : Set := {
  self_student_id : Z;
  self_full_name : string;
  self_email : string;
  self_programme_name : string;
  self_year_of_study : Z;
  self_expected_honours_years : Z;
  self_current_honours_year : Z;
  self_passed_modules : loc;
  self_passed_honours_modules : loc;
  self_honours_module_choices : list Choices.row;
  self_full_module_list : loc;
  self_all_honours_modules : loc;
  self_planned_honours_modules : loc
}.

(** [Student.__init__].  The result is [None] only when one of the two
    list arguments is not a location of the heap. *)
Definition Student__init__ (student_id : Z) (full_name email programme_name : string)
    (year_of_study expected_honours_years current_honours_year : Z)
    (passed_modules passed_honours_modules : loc)
    (honours_module_choices : list Choices.row)
    (h : heap) : option (StudentObject * heap) :=
  (* self.full_module_list = self.passed_modules.copy() *)
  passed ← h !! passed_modules;
  let '(full_module_list, h) := alloc h passed in
  (* self.full_module_list += self.honours_module_choices['Module code'].to_list() *)
  let h := extend h full_module_list (Choices.Module_code <$> honours_module_choices) in
  (* self.all_honours_modules = self.passed_honours_modules *)
  let all_honours_modules := passed_honours_modules in
  (* self.all_honours_modules += self.honours_module_choices['Module code'].tolist() *)
  _ ← h !! all_honours_modules;
  let h := extend h all_honours_modules (Choices.Module_code <$> honours_module_choices) in
  (* self.planned_honours_modules = self.honours_module_choices['Module code'].tolist() *)
  let '(planned_honours_modules, h) :=
    alloc h (Choices.Module_code <$> honours_module_choices) in
  Some ({| self_student_id := student_id;
           self_full_name := full_name;
           self_email := email;
           self_programme_name := programme_name;
           self_year_of_study := year_of_study;
           self_expected_honours_years := expected_honours_years;
           self_current_honours_year := current_honours_year;
           self_passed_modules := passed_modules;
           self_passed_honours_modules := passed_honours_modules;
           self_honours_module_choices := honours_module_choices;
           self_full_module_list := full_module_list;
           self_all_honours_modules := all_honours_modules;
           self_planned_honours_modules := planned_honours_modules |}, h).

(** The attributes of a student object as the checks read them. *)
Definition read_student (h : heap) (self : StudentObject) : option Student :=
  passed_modules ← h !! self_passed_modules self;
  passed_honours_modules ← h !! self_passed_honours_modules self;
  full_module_list ← h !! self_full_module_list self;
  all_honours_modules ← h !! self_all_honours_modules self;
  planned_honours_modules ← h !! self_planned_honours_modules self;
  Some {| student_id := self_student_id self;
          full_name := self_full_name self;
          email := self_email self;
          programme_name := self_programme_name self;
          year_of_study := self_year_of_study self;
          expected_honours_years := self_expected_honours_years self;
          current_honours_year := self_current_honours_year self;
          passed_modules := passed_modules;
          passed_honours_modules := passed_honours_modules;
          honours_module_choices := self_honours_module_choices self;
          full_module_list := full_module_list;
          all_honours_modules := all_honours_modules;
          planned_honours_modules := planned_honours_modules |}.

(** What [read_student] gives after [Student.__init__] was called on two
    separate lists, as [parse_excel_form] does (see [new_Student_read]). *)
Definition new_Student (student_id : Z) (full_name email programme_name : string)
    (year_of_study expected_honours_years current_honours_year : Z)
    (passed_modules passed_honours_modules : list string)
    (honours_module_choices : list Choices.row) : Student :=
  let planned := Choices.Module_code <$> honours_module_choices in
  {| student_id := student_id;
     full_name := full_name;
     email := email;
     programme_name := programme_name;
     year_of_study := year_of_study;
     expected_honours_years := expected_honours_years;
     current_honours_year := current_honours_year;
     passed_modules := passed_modules;
     passed_honours_modules := passed_honours_modules ++ planned;
     honours_module_choices := honours_module_choices;
     full_module_list := passed_modules ++ planned;
     all_honours_modules := passed_honours_modules ++ planned;
     planned_honours_modules := planned |}.

(** ** Reading a form *)

(** The value of a spreadsheet cell: empty, an integer, text, or anything
    else (a float, a date).  Boolean cells are not covered. *)
Inductive cell : Set :=
  | CNone
  | CInt (n : Z)
  | CStr (s : string)
  | COther.

(** The part of the active sheet that the script reads: cell D5 and the
    cells of column B, row 1 first.  Rows past the end are empty. *)
Record Form : Set := {
  D5 : cell;
  column_B : list cell
}.

(** The cells read by the [while] loop of [get_modules_under_header]. *)
Fixpoint read_modules (cells : list cell) : outcome (list string) :=
  match cells with
  | [] | CNone :: _ => Return []
  | CInt n :: rest => (strip ("MT" +:+ str_of_int n) ::.) <$> read_modules rest
  | CStr s :: rest => (strip s ::.) <$> read_modules rest
  | COther :: _ => Raise AttributeError
  end.

Definition get_modules_under_header (sheet : Form) (header : string) : outcome (list string) :=
  (* the last row whose cell in column B is text that contains the header *)
  let row_number : option nat :=
    foldl (λ row_number '(i, value),
             match value with
             | CStr s => if contains s header then Some (S i) else row_number
             | _ => row_number
             end)
          None (imap pair (column_B sheet)) in
  match row_number with
  | None => Raise UnboundLocalError
  | Some row_number =>
      let row_number := (row_number + 2)%nat in
      read_modules (drop (row_number - 1) (column_B sheet))
  end.

(** [range(a, b)] *)
Definition range (a b : Z) : list Z := seqZ a (b - a).

(** [column.unique()] has one entry, which is returned. *)
Definition the_only (entries : list string) : outcome string :=
  if (length (unique entries) =? 1)%nat then index (unique entries) 0
  else Raise AssertionError.

(** The years of the programme and of its honours part, by programme name. *)
Definition programme_years (programme_name : string) : option (Z * Z) :=
  if contains programme_name "Bachelor of Science" then Some (4, 2)%Z
  else if contains programme_name "Master in Mathematics" then Some (5, 3)%Z
  else if contains programme_name "Master of Arts (Honours)" then Some (4, 2)%Z
  else if String.eqb "Master in Chemistry (Honours) Chemistry with Mathematics"
            programme_name then Some (5, 3)%Z
  else if String.eqb "Master in Physics (Honours) Mathematics and Theoretical Physics"
            programme_name then Some (5, 3)%Z
  else None.

(** ['20' + str(n) + '/20' + str(n + 1)] *)
Definition calendar_year_string (n : Z) : string :=
  "20" +:+ str_of_int n +:+ "/20" +:+ str_of_int (n + 1).

(** [student_data_base]: the rows of the student in the first data file
    that lists the student ID, [None] when no file does. *)
Definition find_student_data_base (student_id : Z) (data_bases : list (list Records.row))
  : option (list Records.row) :=
  match list_find (λ this_data_base : list Records.row,
                     student_id ∈ (Records.Student_ID <$> this_data_base))
                  data_bases with
  | None => None
  | Some (_, this_data_base) =>
      Some (filter (λ r, Records.Student_ID r = student_id) this_data_base)
  end.

(** [student_data_base['Year'].str.slice(0,4).astype('int')] *)
Definition module_years (student_data_base : list Records.row) : outcome (list Z) :=
  mapM (λ r, match int_of_str (take_prefix 4 (Records.Year r)) with
             | Some n => Return n
             | None => Raise ValueError
             end) student_data_base.

(** [parse_excel_form]: the student (left) or a warning message (right). *)
Definition parse_excel_form (sheet : Form) (data_bases : list (list Records.row))
  : outcome (Student + string) :=
  match D5 sheet with
  | CInt student_id =>
      match find_student_data_base student_id data_bases with
      | None => Return (inr ("contains invalid student ID " +:+ str_of_int student_id))
      | Some student_data_base =>
          data_of_module_years ← module_years student_data_base;
          let earliest_year := foldr Z.min (default 0%Z (head data_of_module_years))
                                     data_of_module_years in
          let year_of_study := (2023 - earliest_year + 1)%Z in
          let data_base_of_passed_modules :=
            filter (λ r, Records.Assessment_result r = "P") student_data_base in
          let passed_modules := Records.Module_code <$> data_base_of_passed_modules in
          programme_name ← the_only (Records.Programme_name <$> student_data_base);
          given_name ← the_only (Records.Given_names <$> student_data_base);
          family_name ← the_only (Records.Family_name <$> student_data_base);
          let full_name := given_name +:+ " " +:+ family_name in
          email ← the_only (Records.Email <$> student_data_base);
          match programme_years programme_name with
          | None =>
              Return (inr ("Do not recognise student programme for parsing: " +:+
                           programme_name))
          | Some (no_of_programme_years, expected_honours_years) =>
              let no_of_programme_years :=
                if mem "EXA120" (Records.Module_code <$> student_data_base)
                then (no_of_programme_years - 1)%Z else no_of_programme_years in
              let no_subhonours_years := (no_of_programme_years - expected_honours_years)%Z in
              let current_honours_year := (year_of_study - no_subhonours_years)%Z in
              let passed_honours_modules :=
                concat ((λ previous_honours_year : Z,
                           let year_difference :=
                             (current_honours_year - previous_honours_year)%Z in
                           let year_number := (23 - year_difference)%Z in
                           Records.Module_code <$>
                             filter (λ r, Records.Year r = calendar_year_string year_number)
                                    data_base_of_passed_modules)
                        <$> range 1 current_honours_year) in
              module_table ←
                for_each (λ module_table (remaining_honours_year : Z),
                   let year_key := "Year " +:+ str_of_int remaining_honours_year in
                   let calendar_year := (22 + remaining_honours_year)%Z in
                   for_each (λ module_table (semester_number : Z),
                      semester_modules ←
                        get_modules_under_header sheet
                          (year_key +:+ " of Honours: Semester " +:+
                           str_of_int semester_number);
                      Return (module_table ++
                        ((λ module,
                            {| Choices.Honours_year := year_key;
                               Choices.Academic_year := calendar_year_string calendar_year;
                               Choices.Semester := "S" +:+ str_of_int semester_number;
                               Choices.Module_code := module |})
                         <$> semester_modules)))
                     [1; 2]%Z module_table)
                  (range current_honours_year (expected_honours_years + 1)) [];
              Return (inl (new_Student student_id full_name email programme_name
                             year_of_study expected_honours_years current_honours_year
                             passed_modules passed_honours_modules module_table))
          end
      end
  | _ => Return (inr "No student ID")
  end.

Section Processing.
Context `{HashOrder} (module_catalogue : list Catalogue.row).

(** The summary row written for a form that could not be parsed. *)
Definition sentinel_summary (warning_message : string) : Summary :=
  {| Student_ID := 0;
     Name := "Unknown";
     Programme := "Unknown";
     Hon_year := 0;
     Unmet_programme_requirements := warning_message;
     Missing_prerequisites := " ";
     Modules_not_running := " ";
     Timetable_clashes := " ";
     Adviser_recommendations := " " |}.

(** [process_form_file]; the sheet and the student data files stand for
    what the script reads from disk. *)
Definition process_form_file (filename : string) (sheet : Form)
    (data_bases : list (list Records.row)) : outcome Summary :=
  student_or_warning ← parse_excel_form sheet data_bases;
  match student_or_warning with
  | inr student_or_warning =>
      warning_message ←
        (if String.eqb student_or_warning "No student ID" then
           Return ("Could not process " +:+ filename +:+
                   ". The file does not contain a valid student ID.")
         else if startswith student_or_warning "contains invalid student ID" then
           Return ("Could not process " +:+ filename +:+ ". The file " +:+ student_or_warning)
         else if startswith student_or_warning
                   "Do not recognise student programme for parsing:" then
           Return ("Could not process " +:+ filename +:+ ". " +:+ student_or_warning)
         else Raise UnboundLocalError);
      Return (sentinel_summary warning_message)
  | inl student => process_student module_catalogue student
  end.

End Processing.

(** ** Folders of forms and the saved summary *)

(** [os.path.join(a, b)] as [posixpath] computes it. *)
Definition path_join (a b : string) : string :=
  if startswith b "/" then b
  else if String.eqb a "" || endswith a "/" then a +:+ b
  else a +:+ "/" +:+ b.

(** An entry of a folder as [os.listdir] names it, with the sheet that
    [openpyxl] reads when the entry is a regular file; [None] is an entry
    that is not a regular file.  Every regular file that the script opens is
    taken to be a workbook. *)
Definition folder_entry : Type := string * option Form.

(** The test that selects the form files of a folder. *)
Definition is_form_file (entry : folder_entry) : bool :=
  bool_decide (is_Some entry.2) &&
  (endswith entry.1 ".xlsx" || endswith entry.1 ".xltx") &&
  negb (startswith entry.1 "~$").

Section Folder.
Context `{HashOrder} (module_catalogue : list Catalogue.row).

(** [process_folder]; the summary data frame is the list of its rows, one
    per form, as [pd.concat] puts them together. *)
Definition process_folder (folder_name : string) (folder_entries : list folder_entry)
    (data_bases : list (list Records.row)) : outcome (list Summary) :=
  let form_files := filter (λ entry, is_form_file entry = true) folder_entries in
  if (length form_files =? 0)%nat then Raise ValueError
  else
    for_each (λ list_of_data_frames (entry : folder_entry),
                match entry.2 with
                | Some sheet =>
                    this_data_frame ←
                      process_form_file module_catalogue
                        (path_join folder_name entry.1) sheet data_bases;
                    Return (list_of_data_frames ++ [this_data_frame])
                | None => Return list_of_data_frames
                end)
             form_files [].

End Folder.

(** [colour_code_passes] *)
Definition colour_code_passes (column : list string) : list string :=
  let passed_colour := "background-color: palegreen;" in
  let failed_colour := "background-color: lightcoral;" in
  (λ value, if String.eqb value "None" then passed_colour else failed_colour) <$> column.

(** [colour_recommendations] *)
Definition colour_recommendations (column : list string) : list string :=
  let recommendation_colour := "background-color: orange;" in
  let default_colour := "" in
  (λ value, if String.eqb value "None" then default_colour else recommendation_colour)
  <$> column.

(** What [save_summary_data_frame] decides before it writes: the name of
    the file, and the styles of the five columns that are coloured, each
    column styled as a whole.  The widths and fonts of the sheet are not
    modelled. *)
Record SavedSummary : Set := {
  saved_filename : string;
  style_Unmet_programme_requirements : list string;
  style_Missing_prerequisites : list string;
  style_Modules_not_running : list string;
  style_Timetable_clashes : list string;
  style_Adviser_recommendations : list string
}.

Definition save_summary_data_frame (data_frame : list Summary) (filename : string)
  : SavedSummary :=
  let filename :=
    if negb (endswith filename ".xlsx") then filename +:+ ".xlsx" else filename in
  {| saved_filename := filename;
     style_Unmet_programme_requirements :=
       colour_code_passes (Unmet_programme_requirements <$> data_frame);
     style_Missing_prerequisites :=
       colour_code_passes (Missing_prerequisites <$> data_frame);
     style_Modules_not_running :=
       colour_code_passes (Modules_not_running <$> data_frame);
     style_Timetable_clashes :=
       colour_code_passes (Timetable_clashes <$> data_frame);
     style_Adviser_recommendations :=
       colour_recommendations (Adviser_recommendations <$> data_frame) |}.

(** ** Auxiliary notions for the statements and proofs *)

(** The text that the loop of [merge_list_to_long_string] adds once a first
    item has been found. *)
Fixpoint continued (items : list string) : string :=
  match items with
  | [] => ""
  | x :: items => ", " +:+ x +:+ continued items
  end.

(** A joined text of two or more findings has a comma, ["None"] has none. *)
Fixpoint has_comma (s : string) : bool :=
  match s with
  | "" => false
  | String c s' => Ascii.eqb c "," || has_comma s'
  end.

(** The number of entries that the credit-load rule asks of a year. *)
Definition required_entries (honours_year : string) : nat :=
  if String.eqb honours_year "Year 3" then 7 else 8.

(** ** Example data *)

Definition choice (honours_year academic_year semester module : string) : Choices.row :=
  {| Choices.Honours_year := honours_year;
     Choices.Academic_year := academic_year;
     Choices.Semester := semester;
     Choices.Module_code := module |}.

Definition catalogue_row (module semester : string)
    (prerequisites antirequisites timetable : option string) : Catalogue.row :=
  {| Catalogue.Module_code := module;
     Catalogue.Semester := semester;
     Catalogue.Year := "2023/2024";
     Catalogue.Alternate_years := "No";
     Catalogue.Prerequisites := prerequisites;
     Catalogue.Antirequisites := antirequisites;
     Catalogue.Timetable := timetable |}.

Definition record_row (year module : string) : Records.row :=
  {| Records.Student_ID := 190012345;
     Records.Year := year;
     Records.Module_code := module;
     Records.Assessment_result := "P";
     Records.Programme_name := "Bachelor of Science (Honours) Mathematics";
     Records.Given_names := "Ada";
     Records.Family_name := "Lovelace";
     Records.Email := "al1@st-andrews.ac.uk" |}.

(** A catalogue for the eight modules of a final honours year. *)
Definition example_catalogue : list Catalogue.row :=
  [ catalogue_row "MT4004" "S1" (Some "MT3502") None
      (Some "10am Mon, 10am Wed, 10am Fri");
    catalogue_row "MT4111" "S1" (Some "MT3501 and co-requisite MT4004") None
      (Some "11am Mon, 11am Wed");
    catalogue_row "MT4512" "S1" (Some "(MT3501 or MT3502) and MT3503") None
      (Some "12pm Mon (odd weeks), Wed, Fri");
    catalogue_row "MT4514" "S1" None None (Some "9am Tue, 9am Thu");
    catalogue_row "MT4515" "S2" (Some "MT4004") None
      (Some "10am Mon, 10am Wed, 10am Fri");
    catalogue_row "MT4526" "S2" None (Some "MT4527") (Some "11am Mon, 11am Wed");
    catalogue_row "MT4606" "S2" None None (Some "12pm Tue");
    catalogue_row "MT4599" "Full Year" None None None ].

(** The record of a student in the fourth year of study. *)
Definition example_data_base : list Records.row :=
  [ record_row "2020/2021" "MT1002"; record_row "2021/2022" "MT2501";
    record_row "2021/2022" "MT2503"; record_row "2022/2023" "MT3501";
    record_row "2022/2023" "MT3502"; record_row "2022/2023" "MT3503";
    record_row "2022/2023" "MT3504"; record_row "2022/2023" "MT3505";
    record_row "2022/2023" "MT3506"; record_row "2022/2023" "MT3510";
    record_row "2022/2023" "MT4003" ].

(** The form of that student: four modules in the first semester of the
    final year, three and the project in the second. *)
Definition example_form : Form :=
  {| D5 := CInt 190012345;
     column_B :=
       [ CNone; CStr "Module choices"; CNone;
         CStr "Year 2 of Honours: Semester 1"; CStr "Module code";
         CStr "MT4004"; CInt 4111; CStr " MT4512"; CStr "MT4514"; CNone;
         CStr "Year 2 of Honours: Semester 2"; CStr "Module code";
         CStr "MT4515"; CStr "MT4526"; CStr "MT4606"; CStr "MT4599" ] |}.

Definition example_student : Student :=
  new_Student 190012345 "Ada Lovelace" "al1@st-andrews.ac.uk"
    "Bachelor of Science (Honours) Mathematics" 4 2 2
    ["MT1002"; "MT2501"; "MT2503"; "MT3501"; "MT3502"; "MT3503"; "MT3504";
     "MT3505"; "MT3506"; "MT3510"; "MT4003"]
    ["MT3501"; "MT3502"; "MT3503"; "MT3504"; "MT3505"; "MT3506"; "MT3510"; "MT4003"]
    [ choice "Year 2" "2024/2025" "S1" "MT4004"; choice "Year 2" "2024/2025" "S1" "MT4111";
      choice "Year 2" "2024/2025" "S1" "MT4512"; choice "Year 2" "2024/2025" "S1" "MT4514";
      choice "Year 2" "2024/2025" "S2" "MT4515"; choice "Year 2" "2024/2025" "S2" "MT4526";
      choice "Year 2" "2024/2025" "S2" "MT4606"; choice "Year 2" "2024/2025" "S2" "MT4599" ].

(** A student in the first honours year with the given choices. *)
Definition first_year_student (choices : list Choices.row) : Student :=
  new_Student 210012345 "Alan Turing" "at2@st-andrews.ac.uk"
    "Bachelor of Science (Honours) Mathematics" 3 2 1
    ["MT1002"; "MT2501"; "MT2503"] [] choices.

Definition seven_choices : list Choices.row :=
  [ choice "Year 1" "2023/2024" "S1" "MT3501"; choice "Year 1" "2023/2024" "S1" "MT3502";
    choice "Year 1" "2023/2024" "S1" "MT3503"; choice "Year 1" "2023/2024" "S1" "MT3504";
    choice "Year 1" "2023/2024" "S2" "MT3505"; choice "Year 1" "2023/2024" "S2" "MT3506";
    choice "Year 1" "2023/2024" "S2" "MT3507" ].

Definition eight_choices : list Choices.row :=
  seven_choices ++ [choice "Year 1" "2023/2024" "S2" "MT3508"].


(** Records of a student on a programme that the script does not know. *)
Definition economics_row (year module programme : string) : Records.row :=
  {| Records.Student_ID := 220012345;
     Records.Year := year;
     Records.Module_code := module;
     Records.Assessment_result := "P";
     Records.Programme_name := programme;
     Records.Given_names := "Grace";
     Records.Family_name := "Hopper";
     Records.Email := "gh3@st-andrews.ac.uk" |}.

Definition economics_form : Form :=
  {| D5 := CInt 220012345; column_B := [CNone; CStr "Module choices"] |}.

(** A catalogue in which MT2000 asks for MT1001 and MT1002, and a student
    who has passed neither and plans MT2000. *)
Definition compound_catalogue : list Catalogue.row :=
  [catalogue_row "MT2000" "S1" (Some "MT1001 and MT1002") None (Some "10am Mon")].

Definition compound_student : Student :=
  new_Student 230012345 "Emmy Noether" "en4@st-andrews.ac.uk"
    "Bachelor of Science (Honours) Mathematics" 3 2 1
    ["MT2501"; "MT2503"] [] [choice "Year 1" "2023/2024" "S1" "MT2000"].

(** The warning for two modules that share one timeslot. *)
Definition clash_text (honours_year semester module_1 module_2 slot : string) : string :=
  "Clash for " +:+ honours_year +:+ " " +:+ semester +:+ " between modules " +:+
  module_1 +:+ " and " +:+ module_2 +:+ " at " +:+ slot.

(** Two modules on Monday at ten, one in odd and one in even weeks. *)
Definition alternating_catalogue : list Catalogue.row :=
  [ catalogue_row "MT4001" "S1" None None (Some "10am Mon (odd weeks), Wed, Fri");
    catalogue_row "MT4002" "S1" None None (Some "10am Mon (even weeks), Tue, Thu") ].

Definition alternating_student : Student :=
  first_year_student
    [ choice "Year 1" "2023/2024" "S1" "MT4001"; choice "Year 1" "2023/2024" "S1" "MT4002" ].

(** Two modules that meet on Monday at ten, and a third that meets neither. *)
Definition monday_catalogue : list Catalogue.row :=
  [ catalogue_row "MT3501" "S1" None None (Some "10am Mon, 11am Tue");
    catalogue_row "MT3502" "S1" None None (Some "10am Mon, 12pm Thu");
    catalogue_row "MT3503" "S1" None None (Some "9am Fri") ].

Definition monday_student : Student :=
  first_year_student
    [ choice "Year 1" "2023/2024" "S1" "MT3501"; choice "Year 1" "2023/2024" "S1" "MT3502";
      choice "Year 1" "2023/2024" "S1" "MT3503" ].

(** A catalogue that lists one timeslot of MT3501 twice. *)
Definition repeated_slot_catalogue : list Catalogue.row :=
  [ catalogue_row "MT3501" "S1" None None (Some "10am Mon, 2pm Tue, 2pm Tue");
    catalogue_row "MT3502" "S1" None None (Some "10am Mon, 12pm Thu") ].

Definition two_module_student : Student :=
  first_year_student
    [ choice "Year 1" "2023/2024" "S1" "MT3501"; choice "Year 1" "2023/2024" "S1" "MT3502" ].

(** A text of capitals and digits that ends in a digit, as every non-empty
    end of a module code is. *)
Fixpoint code_like (d : string) : bool :=
  match d with
  | "" => false
  | String x "" => is_digit x
  | String x d' => (is_upper x || is_digit x) && code_like d'
  end.

(** The module code is one of the words of the prerequisite text, and the
    first such word comes right after the word "co-requisite". *)
Definition corequisite_word (prerequisite_list : list string) (module_code : string) : Prop :=
  ∃ i, list_index module_code prerequisite_list = Some (S i) ∧
       prerequisite_list !! i = Some "co-requisite".


(** ** Auxiliary notions for the further properties *)

(** A word: a non-empty text without whitespace. *)
Fixpoint no_space (w : string) : bool :=
  match w with
  | "" => true
  | String c w' => negb (is_space c) && no_space w'
  end.

Definition is_word (w : string) : bool := negb (String.eqb w "") && no_space w.

(** A timeslot as a time and a day, and the way the catalogue writes the
    timeslots of a module: time and day with a blank between them, the
    timeslots with a comma and a blank between them. *)
Definition timeslot_text (slot : string * string) : string := slot.1 +:+ " " +:+ slot.2.

Definition timetable_text (slots : list (string * string)) : string :=
  join ", " (timeslot_text <$> slots).

(** Time and day are words, the time opens no bracket and the day ends in
    no comma. *)
Definition plain_timeslot (slot : string * string) : Prop :=
  is_word slot.1 = true ∧ is_word slot.2 = true ∧
  startswith slot.1 "(" = false ∧ endswith slot.2 "," = false.

(** The words of [timetable_text]. *)
Fixpoint timetable_words (slots : list (string * string)) : list string :=
  match slots with
  | [] => []
  | [slot] => [slot.1; slot.2]
  | slot :: slots => slot.1 :: (slot.2 +:+ ",") :: timetable_words slots
  end.

(** The timetable entries, by their words, on which the script fails: in
    the form with a bracket after the first timeslot fewer than six words,
    or more than seven and an odd number; otherwise no word or an odd
    number of words. *)
Definition malformed_timetable (timeslot_splits : list string) : bool :=
  if (2 <? length timeslot_splits)%nat &&
     startswith (default "" (timeslot_splits !! 2%nat)) "("
  then (length timeslot_splits <? 6)%nat ||
       ((7 <? length timeslot_splits)%nat && Nat.odd (length timeslot_splits))
  else (length timeslot_splits =? 0)%nat || Nat.odd (length timeslot_splits).

(** The number of timeslots that a well-formed entry gives. *)
Definition number_of_timeslots (timeslot_splits : list string) : nat :=
  if (2 <? length timeslot_splits)%nat &&
     startswith (default "" (timeslot_splits !! 2%nat)) "("
  then if (7 <? length timeslot_splits)%nat
       then 3 + Nat.div2 (length timeslot_splits - 6) else 3
  else Nat.div2 (length timeslot_splits).

(** The way the catalogue and the forms write the academic year that
    starts in the year [y]. *)
Definition academic_year (y : Z) : string := str_of_int y +:+ "/" +:+ str_of_int (y + 1).

(** The academic years, counted from the year of the catalogue, in which a
    module is taken not to run: every year before that of the catalogue;
    for an alternating module the odd years and those after the sixth; for
    any other module the years after the third. *)
Definition outside_running_years (alternating : bool) (k : Z) : bool :=
  (k <? 0)%Z || (if alternating then Z.odd k || (6 <? k)%Z else (3 <? k)%Z).

(** A module that runs every second year from 2023/2024, and a catalogue
    with this module. *)
Definition alternating_years_entry : Catalogue.row :=
  {| Catalogue.Module_code := "MT4001";
     Catalogue.Semester := "S1";
     Catalogue.Year := "2023/2024";
     Catalogue.Alternate_years := "Yes";
     Catalogue.Prerequisites := None;
     Catalogue.Antirequisites := None;
     Catalogue.Timetable := None |}.

Definition alternating_years_catalogue : list Catalogue.row := [alternating_years_entry].

(** The number of the honours year of a chosen row, as the prerequisite
    check reads it off the last character ([0] when that raises). *)
Definition honours_year_number (row : Choices.row) : Z :=
  match year_number (Choices.Honours_year row) with
  | Return n => n
  | Raise _ => 0%Z
  end.

(** The chosen modules that count as taken before the module of the row
    [first]: those of an earlier honours year and, when [first] is in the
    second semester, those of the first semester of its year. *)
Definition chosen_before (first : Choices.row) (choices : list Choices.row)
  : list string :=
  Choices.Module_code <$>
    filter (λ row, (honours_year_number row < honours_year_number first)%Z ∨
                   (Choices.Semester first = "S2" ∧
                    Choices.Honours_year row = Choices.Honours_year first ∧
                    Choices.Semester row = "S1"))
           choices.

(** The other modules chosen for the honours year and semester of [first]. *)
Definition chosen_alongside (first : Choices.row) (choices : list Choices.row)
  : list string :=
  Choices.Module_code <$>
    filter (λ row, Choices.Honours_year row = Choices.Honours_year first ∧
                   Choices.Semester row = Choices.Semester first ∧
                   Choices.Module_code row ≠ Choices.Module_code first)
           choices.

(** The modules of which MT5867 asks for two. *)
Definition MT5867_modules : list string :=
  ["MT3505"; "MT4003"; "MT4004"; "MT4512"; "MT4514"; "MT4515"; "MT4526"].

(** A student who has passed one of the modules that MT5867 asks for and
    chooses MT5867. *)
Definition MT5867_student : Student :=
  new_Student 240012345 "Sofya Kovalevskaya" "sk5@st-andrews.ac.uk"
    "Bachelor of Science (Honours) Mathematics" 4 2 2
    ["MT2501"; "MT2503"; "MT3505"] ["MT3505"]
    [choice "Year 2" "2024/2025" "S2" "MT5867"].

(** A student who chooses MT4526 and, for the same semester, MT4527. *)
Definition antirequisite_student : Student :=
  first_year_student
    [ choice "Year 1" "2023/2024" "S2" "MT4526"; choice "Year 1" "2023/2024" "S2" "MT4527" ].

(** The modules that occur more than once among the passed and the chosen
    modules of a student, in the order of their first occurrence. *)
Definition modules_selected_twice (student : Student) : list string :=
  filter (λ module, 1 < count module (full_module_list student))
         (unique (full_module_list student)).

(** A student who has passed the project MT4599 in an earlier year and
    chooses one more module. *)
Definition project_passed_student : Student :=
  new_Student 250012345 "Mary Cartwright" "mc6@st-andrews.ac.uk"
    "Bachelor of Science (Honours) Mathematics" 4 2 2
    ["MT3501"; "MT4599"] ["MT3501"; "MT4599"]
    [choice "Year 2" "2024/2025" "S1" "MT4004"].

(** A student who has passed MT2501 and chooses it again, and who chooses
    MT3502 for both semesters. *)
Definition repeating_student : Student :=
  first_year_student
    [ choice "Year 1" "2023/2024" "S1" "MT2501"; choice "Year 1" "2023/2024" "S1" "MT3502";
      choice "Year 1" "2023/2024" "S2" "MT3502" ].

(** An entry of the form in the column of module codes: a number, to which
    the script puts MT in front, or a text.  Its cell, and the module code
    that the script reads. *)
Definition module_entry_cell (entry : Z + string) : cell :=
  match entry with
  | inl n => CInt n
  | inr s => CStr s
  end.

Definition module_entry_code (entry : Z + string) : string :=
  match entry with
  | inl n => strip ("MT" +:+ str_of_int n)
  | inr s => strip s
  end.

(** The cell is a text that contains the header. *)
Definition is_header (header : string) (value : cell) : Prop :=
  ∃ s, value = CStr s ∧ contains s header = true.

(** What a row of the choices of a student read from a form looks like,
    for a student in the honours year [current] of [expected]. *)
Definition form_row (current expected : Z) (row : Choices.row) : Prop :=
  ∃ k semester_number : Z,
    (current ≤ k ≤ expected)%Z ∧ (semester_number = 1 ∨ semester_number = 2)%Z ∧
    Choices.Honours_year row = "Year " +:+ str_of_int k ∧
    Choices.Academic_year row = calendar_year_string (22 + k) ∧
    Choices.Semester row = "S" +:+ str_of_int semester_number.

(** A student who chooses four and four modules for Year 1 and, with the
    project, three and five for Year 2. *)
Definition two_year_student : Student :=
  first_year_student
    (eight_choices ++
     [ choice "Year 2" "2024/2025" "S1" "MT4004"; choice "Year 2" "2024/2025" "S1" "MT4111";
       choice "Year 2" "2024/2025" "S1" "MT4512"; choice "Year 2" "2024/2025" "S2" "MT4515";
       choice "Year 2" "2024/2025" "S2" "MT4526"; choice "Year 2" "2024/2025" "S2" "MT4606";
       choice "Year 2" "2024/2025" "S2" "MT4514"; choice "Year 2" "2024/2025" "S2" "MT4599" ]).

(** A heap with the list of passed modules at 0 and the list of passed
    honours modules at 1. *)
Definition two_lists : heap := <[1 := ["MT3501"]]> (<[0 := ["MT2501"; "MT3501"]]> ∅).

(** The row of a form file in the summary of its folder. *)
Definition form_file_row `{HashOrder} (module_catalogue : list Catalogue.row)
    (folder_name : string) (data_bases : list (list Records.row))
    (entry : folder_entry) (row : Summary) : Prop :=
  ∃ sheet, entry.2 = Some sheet ∧
           process_form_file module_catalogue (path_join folder_name entry.1) sheet data_bases
           = Return row.

(** A folder with a directory, a lock file, a text file and two forms
    without a student ID. *)
Definition example_folder : list folder_entry :=
  [ ("old.xlsx", None);
    ("~$a.xlsx", Some {| D5 := CNone; column_B := [] |});
    ("notes.txt", Some {| D5 := CNone; column_B := [] |});
    ("a.xlsx", Some {| D5 := CNone; column_B := [] |});
    ("b.xltx", Some {| D5 := CStr "190012345"; column_B := [] |}) ].

(** The words that join module codes in a prerequisite text. *)
Inductive connective : Set := And | Or.

Definition connective_word (op : connective) : string :=
  match op with
  | And => "and"
  | Or => "or"
  end.

(** The prerequisite text that asks for all, or for one, of a list of
    modules. *)
Definition joined_codes (op : connective) (codes : list string) : string :=
  join (" " +:+ connective_word op +:+ " ") codes.

(** The words of [joined_codes]. *)
Fixpoint joined_words (op : connective) (codes : list string) : list string :=
  match codes with
  | [] => []
  | [code] => [code]
  | code :: codes => code :: connective_word op :: joined_words op codes
  end.

(** All, or one, of the modules are taken. *)
Definition connective_holds {A} (op : connective) (taken : A → bool)
    (codes : list A) : bool :=
  match op with
  | And => forallb taken codes
  | Or => existsb taken codes
  end.

(** A module code, or one of the texts that take its place. *)
Definition is_atom (a : string) : Prop :=
  match_module_code a = Some a ∨ a = "True" ∨ a = "False".

(** The tokens of a text of truth values joined by a connective. *)
Definition connective_token (op : connective) : token :=
  match op with
  | And => TAnd
  | Or => TOr
  end.

Fixpoint joined_tokens (op : connective) (values : list bool) : list token :=
  match values with
  | [] => []
  | [b] => [if b then TTrue else TFalse]
  | b :: values =>
      (if b then TTrue else TFalse) :: connective_token op :: joined_tokens op values
  end.
(** * Properties *)

(** ** Strings *)

Lemma str_app_cons (x : ascii) (a b : string) : String x a +:+ b = String x (a +:+ b).
Proof. reflexivity. Qed.

Lemma str_app_nil_l (b : string) : "" +:+ b = b.
Proof. reflexivity. Qed.

Lemma str_app_assoc (a b c : string) : (a +:+ b) +:+ c = a +:+ (b +:+ c).
Proof.
  induction a as [|x a IH]; [done|]. by rewrite !str_app_cons, IH.
Qed.

Lemma str_app_nil_r (a : string) : a +:+ "" = a.
Proof. induction a as [|x a IH]; [done|]. by rewrite str_app_cons, IH. Qed.

Lemma str_app_eq_nil (a b : string) : a +:+ b = "" → a = "" ∧ b = "".
Proof. destruct a; [done|]. rewrite str_app_cons. discriminate. Qed.

Lemma str_eqb_false (a b : string) : a ≠ b → String.eqb a b = false.
Proof. apply String.eqb_neq. Qed.

(** ** [merge_list_to_long_string] *)

Lemma join_continued (x : string) (items : list string) :
  join ", " (x :: items) = x +:+ continued items.
Proof.
  revert x. induction items as [|y items IH]; intros x.
  - simpl. by rewrite str_app_nil_r.
  - change (join ", " (x :: y :: items)) with (x +:+ ", " +:+ join ", " (y :: items)).
    by rewrite (IH y).
Qed.

Lemma merge_fold_found (a : string) (l : list string) :
  foldl merge_step (a, true) l
  = (a +:+ continued (filter (λ item, item ≠ "None") l), true).
Proof.
  revert a. induction l as [|x l IH]; intros a; simpl.
  - by rewrite str_app_nil_r.
  - destruct (String.eqb_spec x "None") as [->|Hx]; simpl.
    + rewrite filter_cons_False by (intros ?; done). apply IH.
    + rewrite filter_cons_True by done. rewrite IH. simpl.
      by rewrite !str_app_assoc.
Qed.

Lemma merge_fold_start (l : list string) :
  fst (foldl merge_step ("", false) l) = joined_findings l.
Proof.
  unfold joined_findings.
  induction l as [|x l IH]; simpl; [done|].
  destruct (String.eqb_spec x "None") as [->|Hx]; simpl.
  - rewrite filter_cons_False by (intros ?; done). apply IH.
  - rewrite filter_cons_True by done.
    rewrite merge_fold_found, join_continued. done.
Qed.

Lemma merge_list_to_long_string_eq (l : list string) :
  merge_list_to_long_string l
  = if String.eqb (joined_findings l) "" then "None" else joined_findings l.
Proof. unfold merge_list_to_long_string. by rewrite merge_fold_start. Qed.

Lemma filter_not_None_replicate (n : nat) :
  filter (λ item : string, item ≠ "None") (replicate n "None") = [].
Proof.
  induction n as [|n IH]; simpl; [done|].
  rewrite filter_cons_False by (intros ?; done). exact IH.
Qed.

(** C2 (as amended).  [merge_list_to_long_string] gives ["None"] for the
    empty list and for a list whose entries all are ["None"]; in general it
    gives the entries other than ["None"] joined by [", "] in order, except
    that an empty joined text (no entry left, or the single entry [""])
    becomes ["None"]; [["A"; "None"; "B"]] gives ["A, B"]. *)
Theorem merge_list_to_long_string_joined :
  merge_list_to_long_string [] = "None" ∧
  (∀ n, merge_list_to_long_string (replicate n "None") = "None") ∧
  (∀ a_list,
     merge_list_to_long_string a_list
     = if String.eqb (joined_findings a_list) "" then "None"
       else joined_findings a_list) ∧
  merge_list_to_long_string ["A"; "None"; "B"] = "A, B".
Proof.
  split; [done|]. split; [|split; [apply merge_list_to_long_string_eq|done]].
  intros n. rewrite merge_list_to_long_string_eq. unfold joined_findings.
  by rewrite filter_not_None_replicate.
Qed.

(** C2, the claim as stated fails: the list [[""]] is not empty and its
    entry is not ["None"], yet the result is ["None"] and not the joined
    entries. *)
Lemma merge_list_to_long_string_empty_entry :
  [""] ≠ [] ∧ ¬ Forall (λ item, item = "None") [""] ∧
  merge_list_to_long_string [""] ≠ joined_findings [""].
Proof.
  split; [done|]. split; [|done].
  intros Hall. apply Forall_cons in Hall as [Hx _]. discriminate.
Qed.

Lemma has_comma_app (a b : string) : has_comma (a +:+ b) = has_comma a || has_comma b.
Proof.
  induction a as [|x a IH]; [done|].
  rewrite str_app_cons. simpl. rewrite IH. by rewrite orb_assoc.
Qed.

Lemma merge_list_to_long_string_nonempty (l : list string) :
  merge_list_to_long_string l ≠ "".
Proof.
  rewrite merge_list_to_long_string_eq.
  destruct (String.eqb_spec (joined_findings l) ""); [discriminate|done].
Qed.

(** When the merged text is ["None"], no entry is a finding. *)
Lemma merge_list_to_long_string_None_inv (l : list string) (x : string) :
  merge_list_to_long_string l = "None" → x ∈ l → x = "None" ∨ x = "".
Proof.
  rewrite merge_list_to_long_string_eq. unfold joined_findings.
  intros Hm Hx.
  destruct (decide (x = "None")) as [|Hne]; [by left|right].
  assert (Hin : x ∈ filter (λ item : string, item ≠ "None") l)
    by (apply list_elem_of_filter; done).
  destruct (filter (λ item : string, item ≠ "None") l) as [|y [|z rest]] eqn:Hf.
  - by apply elem_of_nil in Hin.
  - apply list_elem_of_singleton in Hin as ->. simpl in Hm.
    destruct (String.eqb_spec y ""); [done|]. congruence.
  - exfalso. rewrite join_continued in Hm.
    assert (Hc : has_comma (y +:+ continued (z :: rest)) = true).
    { rewrite has_comma_app. simpl continued. rewrite has_comma_app.
      simpl. by rewrite orb_true_r. }
    destruct (String.eqb_spec (y +:+ continued (z :: rest)) "") as [He|_].
    + rewrite He in Hc. discriminate.
    + rewrite Hm in Hc. discriminate.
Qed.

Lemma merge_list_to_long_string_finding (l : list string) (x : string) :
  x ∈ l → x ≠ "None" → x ≠ "" → merge_list_to_long_string l ≠ "None".
Proof.
  intros Hx H1 H2 Hm.
  destruct (merge_list_to_long_string_None_inv l x Hm Hx); done.
Qed.

(** ** [unique] *)

Lemma unique_fold_elem (seen l : list string) (x : string) :
  x ∈ foldl (λ seen x, if mem x seen then seen else seen ++ [x]) seen l
  ↔ x ∈ seen ∨ x ∈ l.
Proof.
  revert seen. induction l as [|y l IH]; intros seen; simpl.
  - rewrite elem_of_nil. tauto.
  - rewrite IH, elem_of_cons. unfold mem.
    case_bool_decide as Hy; [|rewrite elem_of_app, list_elem_of_singleton].
    + split; [tauto|]. intros [?|[->|?]]; tauto.
    + tauto.
Qed.

Lemma elem_of_unique (l : list string) (x : string) : x ∈ unique l ↔ x ∈ l.
Proof. unfold unique. rewrite unique_fold_elem, elem_of_nil. tauto. Qed.

Lemma unique_fold_NoDup (seen l : list string) :
  NoDup seen → NoDup (foldl (λ seen x, if mem x seen then seen else seen ++ [x]) seen l).
Proof.
  revert seen. induction l as [|y l IH]; intros seen Hnd; simpl; [done|].
  apply IH. unfold mem. case_bool_decide as Hy; [done|].
  apply NoDup_app. split; [done|]. split; [|apply NoDup_singleton].
  intros z Hz ->%list_elem_of_singleton. done.
Qed.

Lemma NoDup_unique (l : list string) : NoDup (unique l).
Proof. apply unique_fold_NoDup, NoDup_nil_2. Qed.

(** ** [check_for_120_credits_each_year] *)

Section Credits.
Context (student : Student).

Lemma credit_total_step_fst acc db honours_year :
  (credit_total_step student (acc, db) honours_year).1
  = acc ++ (credit_total_step student ([], []) honours_year).1.
Proof.
  unfold credit_total_step.
  repeat (match goal with |- context [if ?b then _ else _] => destruct b end);
    simpl; rewrite <- ?app_assoc, ?app_nil_r; done.
Qed.

Lemma credit_total_step_snd acc db honours_year :
  (credit_total_step student (acc, db) honours_year).2
  = rows_of_year honours_year (honours_module_choices student).
Proof. done. Qed.

Lemma credit_total_fold_fst years acc db :
  (foldl (credit_total_step student) (acc, db) years).1
  = acc ++ (years ≫= λ y, (credit_total_step student ([], []) y).1).
Proof.
  revert acc db. induction years as [|y years IH]; intros acc db.
  - simpl. by rewrite app_nil_r.
  - cbn [foldl].
    destruct (credit_total_step student (acc, db) y) as [acc' db'] eqn:Hstep.
    rewrite IH. rewrite bind_cons, app_assoc. f_equal.
    pose proof (credit_total_step_fst acc db y) as Hs.
    rewrite Hstep in Hs. exact Hs.
Qed.

(** After the first loop [this_data_base] holds the rows of the last
    honours year. *)
Lemma credit_total_fold_snd years acc db :
  (foldl (credit_total_step student) (acc, db) years).2
  = match last years with
    | Some y => rows_of_year y (honours_module_choices student)
    | None => db
    end.
Proof.
  revert acc db. induction years as [|y years IH]; intros acc db; [done|].
  cbn [foldl].
  destruct (credit_total_step student (acc, db) y) as [acc' db'] eqn:Hstep.
  rewrite IH. destruct years as [|z years].
  2: { change (last (y :: z :: years)) with (last (z :: years)).
       destruct (last (z :: years)) eqn:Hl; [done|].
       by apply last_None in Hl. }
  pose proof (credit_total_step_snd acc db y) as Hs.
  rewrite Hstep in Hs. exact Hs.
Qed.

Lemma credit_total_step_elem honours_year y :
  honours_year ∈ ["Year 1"; "Year 2"; "Year 3"] →
  ("Not collecting 120 credits in " +:+ honours_year)
    ∈ (credit_total_step student ([], []) y).1
  ↔ y = honours_year ∧
    length (rows_of_year honours_year (honours_module_choices student))
    ≠ required_entries honours_year.
Proof.
  intros Hy. unfold credit_total_step, required_entries.
  assert (Hmsg : ∀ z, "Not collecting 120 credits in " +:+ honours_year
                      = "Not collecting 120 credits in " +:+ z ↔ z = honours_year).
  { intros z. split; [intros Hz; symmetry; by apply (inj (String.app _)) in Hz|by intros ->]. }
  destruct (String.eqb_spec y "Year 1") as [->|H1];
    [|destruct (String.eqb_spec y "Year 2") as [->|H2];
      [|destruct (String.eqb_spec y "Year 3") as [->|H3]]]; simpl.
  - destruct (Nat.eqb_spec (length (rows_of_year "Year 1" (honours_module_choices student))) 8)
      as [Hn|Hn]; simpl.
    + rewrite elem_of_nil. split; [done|]. intros [<- Hne]. simpl in Hne. lia.
    + rewrite list_elem_of_singleton, Hmsg. split.
      * intros <-. simpl. done.
      * tauto.
  - destruct (Nat.eqb_spec (length (rows_of_year "Year 2" (honours_module_choices student))) 8)
      as [Hn|Hn]; simpl.
    + rewrite elem_of_nil. split; [done|]. intros [<- Hne]. simpl in Hne. lia.
    + rewrite list_elem_of_singleton, Hmsg. split.
      * intros <-. simpl. done.
      * tauto.
  - destruct (Nat.eqb_spec (length (rows_of_year "Year 3" (honours_module_choices student))) 7)
      as [Hn|Hn]; simpl.
    + rewrite elem_of_nil. split; [done|]. intros [<- Hne]. simpl in Hne. lia.
    + rewrite list_elem_of_singleton, Hmsg. split.
      * intros <-. simpl. done.
      * tauto.
  - rewrite elem_of_nil. split; [done|]. intros [-> _].
    rewrite !elem_of_cons, elem_of_nil in Hy. tauto.
Qed.

Lemma rows_of_year_nonempty honours_year :
  honours_year ∈ unique (Choices.Honours_year <$> honours_module_choices student)
  ↔ 0 < length (rows_of_year honours_year (honours_module_choices student)).
Proof.
  rewrite elem_of_unique, list_elem_of_fmap. unfold rows_of_year. split.
  - intros (r & -> & Hr).
    assert (Hin : r ∈ filter (λ r0, Choices.Honours_year r0 = Choices.Honours_year r)
                             (honours_module_choices student))
      by (apply list_elem_of_filter; done).
    destruct (filter _ _); [by apply elem_of_nil in Hin|simpl; lia].
  - intros Hlen.
    destruct (filter _ _) as [|r rest] eqn:Hf; [simpl in Hlen; lia|].
    assert (Hin : r ∈ filter (λ r0, Choices.Honours_year r0 = honours_year)
                             (honours_module_choices student))
      by (rewrite Hf; left).
    apply list_elem_of_filter in Hin as [Hy Hin]. eauto.
Qed.

(** Every advisory of the credit check is one of three texts. *)
Lemma credit_split_step_elem db acc y x :
  x ∈ credit_split_step student db acc y →
  x ∈ acc ∨ x = "Not taking even credit split in " +:+ y
  ∨ x = "Student is taking a high course load in second semester of final honours year"
  ∨ x = "Student is taking uneven course load in final honours year".
Proof.
  unfold credit_split_step. simpl foldl.
  repeat (match goal with |- context [if ?b then _ else _] => destruct b end);
    rewrite ?elem_of_app, ?list_elem_of_singleton; tauto.
Qed.

Lemma credit_split_fold_elem db years acc x :
  x ∈ foldl (credit_split_step student db) acc years →
  x ∈ acc ∨ (∃ y, x = "Not taking even credit split in " +:+ y)
  ∨ x = "Student is taking a high course load in second semester of final honours year"
  ∨ x = "Student is taking uneven course load in final honours year".
Proof.
  revert acc. induction years as [|y years IH]; intros acc; simpl; [tauto|].
  intros Hx. apply IH in Hx as [Hx|Hx]; [|tauto].
  apply credit_split_step_elem in Hx as [Hx|[Hx|Hx]]; [tauto| |tauto].
  right. left. by exists y.
Qed.

End Credits.

Lemma credit_findings_fst (student : Student) :
  (credit_findings student).1
  = unique (Choices.Honours_year <$> honours_module_choices student)
      ≫= λ y, (credit_total_step student ([], []) y).1.
Proof.
  unfold credit_findings.
  destruct (foldl (credit_total_step student) ([], []) _) as [missed db] eqn:Hfold.
  pose proof (credit_total_fold_fst student
    (unique (Choices.Honours_year <$> honours_module_choices student)) [] []) as Hs.
  rewrite Hfold in Hs. exact Hs.
Qed.

Lemma credit_findings_snd (student : Student) :
  (credit_findings student).2
  = let honours_years := unique (Choices.Honours_year <$> honours_module_choices student) in
    foldl (credit_split_step student
             (foldl (credit_total_step student) ([], []) honours_years).2)
          [] honours_years.
Proof.
  unfold credit_findings.
  destruct (foldl (credit_total_step student) ([], []) _) as [missed db] eqn:Hfold.
  done.
Qed.

(** C7 (as amended).  For Year 1, Year 2 and Year 3 the credit-load rule
    puts "Not collecting 120 credits in <year>" among the findings exactly
    when the year has at least one planned entry and the number of its
    entries differs from the required 8, 8 and 7; the text is never among
    the advisories. *)
Theorem credit_load_finding (student : Student) (honours_year : string) :
  honours_year ∈ ["Year 1"; "Year 2"; "Year 3"] →
  let entries := length (rows_of_year honours_year (honours_module_choices student)) in
  (("Not collecting 120 credits in " +:+ honours_year) ∈ (credit_findings student).1
   ↔ 0 < entries ∧ entries ≠ required_entries honours_year) ∧
  ("Not collecting 120 credits in " +:+ honours_year) ∉ (credit_findings student).2.
Proof.
  intros Hy entries. split.
  - rewrite credit_findings_fst, list_elem_of_bind. split.
    + intros (y & Hmsg & Hin).
      apply credit_total_step_elem in Hmsg as [-> Hne]; [|done].
      split; [by apply rows_of_year_nonempty|done].
    + intros [Hpos Hne]. exists honours_year. split.
      * apply credit_total_step_elem; done.
      * by apply rows_of_year_nonempty.
  - rewrite credit_findings_snd. intros Hin.
    apply credit_split_fold_elem in Hin as [Hin|[[y Hin]|[Hin|Hin]]].
    + by apply elem_of_nil in Hin.
    + discriminate.
    + discriminate.
    + discriminate.
Qed.

(** ** The advisory on the final honours year *)

Lemma credit_split_step_mono (student : Student) db acc y x :
  x ∈ acc → x ∈ credit_split_step student db acc y.
Proof.
  intros Hx. unfold credit_split_step. cbn [foldl].
  repeat (match goal with |- context [if ?b then _ else _] => destruct b end);
    rewrite ?elem_of_app; tauto.
Qed.

Lemma credit_split_fold_mono (student : Student) db years acc x :
  x ∈ acc → x ∈ foldl (credit_split_step student db) acc years.
Proof.
  revert acc. induction years as [|y years IH]; intros acc Hx; [done|].
  cbn [foldl]. by apply IH, credit_split_step_mono.
Qed.

(** The test of the final-year branch compares the same number with 4 and
    with 3, so it holds whatever the rows are. *)
Lemma credit_split_step_final_year (student : Student) db acc :
  expected_honours_years student ≠ 3%Z →
  credit_split_step student db acc "Year 2"
  = acc ++ ["Student is taking a high course load in second semester of final honours year"].
Proof.
  intros Hexp. unfold credit_split_step.
  replace (expected_honours_years student =? 3)%Z with false
    by (symmetry; by apply Z.eqb_neq).
  cbn [String.eqb Ascii.eqb Bool.eqb orb andb].
  set (n := length (Choices.Module_code <$> _)).
  destruct (Nat.eqb_spec n 4) as [->|]; [done|].
  done.
Qed.

Lemma final_year_advisory_in_fold (student : Student) db years acc :
  expected_honours_years student ≠ 3%Z →
  "Year 2" ∈ years →
  "Student is taking a high course load in second semester of final honours year"
    ∈ foldl (credit_split_step student db) acc years.
Proof.
  intros Hexp. revert acc.
  induction years as [|y years IH]; intros acc Hin.
  - by apply elem_of_nil in Hin.
  - cbn [foldl]. apply elem_of_cons in Hin as [<-|Hin].
    + apply credit_split_fold_mono.
      rewrite credit_split_step_final_year by done.
      apply elem_of_app. right. by apply list_elem_of_singleton.
    + by apply IH.
Qed.

(** The split check of every year reads the rows that the first loop left
    in [this_data_base]: those of the last honours year. *)
Lemma credit_findings_advice (student : Student) :
  let honours_years := unique (Choices.Honours_year <$> honours_module_choices student) in
  (credit_findings student).2
  = foldl (credit_split_step student
             (match last honours_years with
              | Some y => rows_of_year y (honours_module_choices student)
              | None => []
              end))
          [] honours_years.
Proof. rewrite credit_findings_snd. cbv zeta. by rewrite credit_total_fold_snd. Qed.

(** C8.  For a student on a two-year honours programme who has planned
    entries in Year 2, the advisory on the final honours year is emitted
    whatever the split of the entries over the semesters is, also when the
    split is the expected 4 + 3; the advice returned by the credit check is
    then never ["None"]. *)
Theorem final_year_advisory_unconditional (student : Student) :
  expected_honours_years student ≠ 3%Z →
  "Year 2" ∈ (Choices.Honours_year <$> honours_module_choices student) →
  "Student is taking a high course load in second semester of final honours year"
    ∈ (credit_findings student).2 ∧
  (check_for_120_credits_each_year student).2 ≠ "None".
Proof.
  intros Hexp Hyear.
  assert (Hmsg :
    "Student is taking a high course load in second semester of final honours year"
      ∈ (credit_findings student).2).
  { rewrite credit_findings_snd. cbv zeta.
    apply final_year_advisory_in_fold; [done|]. by apply elem_of_unique. }
  split; [exact Hmsg|].
  unfold check_for_120_credits_each_year.
  destruct (credit_findings student) as [missed advice]. cbn [snd] in *.
  eapply merge_list_to_long_string_finding; [exact Hmsg|done..].
Qed.

(** ** The end-to-end report *)

(** The rules of the programme keep the project findings among the missed
    requirements and the advisory of the credit check among the advice. *)
Lemma mathematics_requirements_inv (student : Student) missed advice :
  mathematics_requirements student = Return (missed, advice) →
  ∃ project_findings,
    final_year_project student = Return project_findings ∧
    (∀ x, x ∈ project_findings → x ∈ missed) ∧
    (check_for_120_credits_each_year student).2 ∈ advice.
Proof.
  unfold mathematics_requirements.
  destruct (check_for_120_credits_each_year student) as [missed_requirement advisory].
  destruct (final_year_project student) as [project_findings|e];
    cbv beta iota zeta delta [mbind outcome_bind mret outcome_ret]; [|discriminate].
  intros [= <- <-]. exists project_findings. split; [done|]. split.
  - intros x Hx.
    repeat (match goal with |- context [if ?b then _ else _] => destruct b end);
      rewrite ?elem_of_app; tauto.
  - cbn [snd].
    repeat (match goal with |- context [if ?b then _ else _] => destruct b end);
      repeat (apply elem_of_app; left); left.
Qed.

(** Without a project finding, the project is one of the choices of Year 2. *)
Lemma final_year_project_nil (student : Student) :
  final_year_project student = Return [] →
  "Year 2" ∈ (Choices.Honours_year <$> honours_module_choices student).
Proof.
  unfold final_year_project.
  destruct (negb _); [discriminate|].
  assert (Hsub : ∀ code y rest,
    Choices.Honours_year <$>
      filter (λ r, Choices.Module_code r = code) (honours_module_choices student)
    = y :: rest →
    y ∈ (Choices.Honours_year <$> honours_module_choices student)).
  { intros code y rest Heq.
    assert (Hy : y ∈ Choices.Honours_year <$>
                   filter (λ r, Choices.Module_code r = code)
                          (honours_module_choices student))
      by (rewrite Heq; left).
    apply list_elem_of_fmap in Hy as (r & -> & Hr).
    apply list_elem_of_filter in Hr as [_ Hr].
    apply list_elem_of_fmap. eauto. }
  destruct (mem "MT4598" (full_module_list student)).
  - destruct (Choices.Honours_year <$> filter _ _) as [|y rest] eqn:Heq;
      [discriminate|].
    cbv beta iota zeta delta [index mbind outcome_bind mret outcome_ret lookup list_lookup].
    destruct (String.eqb_spec y "Year 2") as [->|]; [|discriminate].
    intros _. eapply Hsub, Heq.
  - destruct (Choices.Honours_year <$> filter _ _) as [|y rest] eqn:Heq;
      [discriminate|].
    cbv beta iota zeta delta [index mbind outcome_bind mret outcome_ret lookup list_lookup].
    destruct (String.eqb_spec y "Year 2") as [->|]; [|discriminate].
    intros _. eapply Hsub, Heq.
Qed.

(** A project finding is a text other than [""] and ["None"]. *)
Lemma final_year_project_elem (student : Student) project_findings x :
  final_year_project student = Return project_findings →
  x ∈ project_findings → x ≠ "None" ∧ x ≠ "".
Proof.
  unfold final_year_project.
  destruct (negb _).
  { intros [= <-] ->%list_elem_of_singleton. done. }
  destruct (if mem "MT4598" (full_module_list student) then _ else _) as [y|e];
    cbv beta iota zeta delta [mbind outcome_bind mret outcome_ret]; [|discriminate].
  destruct (negb _); intros [= <-].
  - intros ->%list_elem_of_singleton. done.
  - intros Hx. by apply elem_of_nil in Hx.
Qed.

Section Report.
Context `{HashOrder} (module_catalogue : list Catalogue.row).

(** On the implemented programme, with its two honours years: when the
    programme findings are ["None"], the merged advice is not. *)
Lemma programme_advice_not_None (student : Student)
    (missed_programme programme_advice a2 b2 c2 : string) :
  programme_name student = "Bachelor of Science (Honours) Mathematics" →
  expected_honours_years student ≠ 3%Z →
  find_missing_programme_requirements module_catalogue student
  = Return (missed_programme, programme_advice) →
  missed_programme = "None" →
  merge_list_to_long_string [programme_advice; a2; b2; c2] ≠ "None".
Proof.
  intros Hprog Hexp Hfind Hnone.
  unfold find_missing_programme_requirements in Hfind. rewrite Hprog in Hfind.
  cbn [String.eqb Ascii.eqb Bool.eqb] in Hfind.
  destruct (mathematics_requirements student) as [[missed advice]|e] eqn:Hmaths;
    cbv beta iota zeta delta [mbind outcome_bind mret outcome_ret] in Hfind;
    [|discriminate].
  injection Hfind as <- <-.
  apply mathematics_requirements_inv in Hmaths as (project & Hproject & Hsub & Hadv).
  assert (project = []) as ->.
  { destruct project as [|x rest]; [done|]. exfalso.
    assert (Hx : x ∈ x :: rest) by left.
    destruct (final_year_project_elem _ _ _ Hproject Hx) as [Hx1 Hx2].
    destruct (merge_list_to_long_string_None_inv _ x Hnone); [|done..].
    apply elem_of_app. right. by apply Hsub. }
  apply final_year_project_nil in Hproject.
  assert (Hmsg :
    "Student is taking a high course load in second semester of final honours year"
      ∈ (credit_findings student).2).
  { rewrite credit_findings_snd. cbv zeta.
    apply final_year_advisory_in_fold; [done|]. by apply elem_of_unique. }
  assert (Hcredit : (check_for_120_credits_each_year student).2 ≠ "None").
  { unfold check_for_120_credits_each_year.
    destruct (credit_findings student) as [l1 l2]. cbn [snd] in *.
    eapply merge_list_to_long_string_finding; [exact Hmsg|done..]. }
  assert (Hcredit' : (check_for_120_credits_each_year student).2 ≠ "").
  { unfold check_for_120_credits_each_year.
    destruct (credit_findings student) as [l1 l2]. cbn [snd].
    apply merge_list_to_long_string_nonempty. }
  eapply merge_list_to_long_string_finding.
  - left.
  - eapply merge_list_to_long_string_finding; [exact Hadv|done..].
  - apply merge_list_to_long_string_nonempty.
Qed.

(** C1.  On the implemented programme, with its two honours years, a report
    without unmet programme requirements never has the adviser
    recommendations equal to ["None"]: the project has to be planned in
    Year 2, and then the advisory on the final honours year is emitted. *)
Theorem complete_record_still_advised (student : Student) (summary : Summary) :
  programme_name student = "Bachelor of Science (Honours) Mathematics" →
  expected_honours_years student ≠ 3%Z →
  process_student module_catalogue student = Return summary →
  Unmet_programme_requirements summary = "None" →
  Adviser_recommendations summary ≠ "None".
Proof.
  intros Hprog Hexp. unfold process_student.
  destruct (find_missing_programme_requirements module_catalogue student)
    as [[missed_programme programme_advice]|e] eqn:Hfind;
    cbv beta iota zeta delta [mbind outcome_bind mret outcome_ret]; [|discriminate].
  destruct (find_missing_prerequisites module_catalogue student) as [[a1 a2]|e];
    [|discriminate].
  destruct (find_not_running_modules module_catalogue student) as [[b1 b2]|e];
    [|discriminate].
  destruct (find_timetable_clashes module_catalogue student) as [[c1 c2]|e];
    [|discriminate].
  intros [= <-]. cbn [Unmet_programme_requirements Adviser_recommendations].
  intros Hnone. by eapply programme_advice_not_None.
Qed.

End Report.

(** The example form is read into the example student. *)
Lemma example_form_parsed :
  parse_excel_form example_form [example_data_base] = Return (inl example_student).
Proof. vm_compute. reflexivity. Qed.

(** C7 at a Year 1 of seven entries: the finding is emitted. *)
Lemma credit_load_finding_seven :
  "Year 1" ∈ ["Year 1"; "Year 2"; "Year 3"] ∧
  let student := first_year_student seven_choices in
  let entries := length (rows_of_year "Year 1" (honours_module_choices student)) in
  (("Not collecting 120 credits in " +:+ "Year 1") ∈ (credit_findings student).1
   ↔ 0 < entries ∧ entries ≠ required_entries "Year 1") ∧
  ("Not collecting 120 credits in " +:+ "Year 1") ∉ (credit_findings student).2.
Proof.
  assert (Hy : "Year 1" ∈ ["Year 1"; "Year 2"; "Year 3"]) by left.
  split; [exact Hy|].
  exact (credit_load_finding (first_year_student seven_choices) "Year 1" Hy).
Defined.

(** C7, the claim as stated fails: a student with eight entries in Year 1
    and none in Year 2 has a number of Year 2 entries that differs from 8,
    and no finding for Year 2. *)
Lemma credit_load_no_finding_for_empty_year :
  let student := first_year_student eight_choices in
  length (rows_of_year "Year 2" (honours_module_choices student)) ≠ 8 ∧
  "Not collecting 120 credits in Year 2" ∉ (credit_findings student).1.
Proof.
  split; [vm_compute; lia|].
  assert (Hnil : (credit_findings (first_year_student eight_choices)).1 = [])
    by (vm_compute; reflexivity).
  rewrite Hnil. apply not_elem_of_nil.
Qed.

(** C8 at the example student, whose final year has the expected four
    modules in the first semester and three besides the project in the
    second: the advisory is emitted all the same. *)
Lemma final_year_advisory_on_expected_split :
  expected_honours_years example_student ≠ 3%Z ∧
  "Year 2" ∈ (Choices.Honours_year <$> honours_module_choices example_student) ∧
  (let final_year :=
     rows_without_module "MT4599"
       (rows_of_year "Year 2" (honours_module_choices example_student)) in
   length (rows_in_semester "S1" final_year) = 4 ∧
   length (rows_in_semester "S2" final_year) = 3) ∧
  "Student is taking a high course load in second semester of final honours year"
    ∈ (credit_findings example_student).2 ∧
  (check_for_120_credits_each_year example_student).2 ≠ "None".
Proof.
  assert (Hexp : expected_honours_years example_student ≠ 3%Z) by (vm_compute; discriminate).
  assert (Hyear : "Year 2" ∈ (Choices.Honours_year <$> honours_module_choices example_student))
    by (vm_compute; left).
  split; [exact Hexp|]. split; [exact Hyear|]. split; [by vm_compute|].
  exact (final_year_advisory_unconditional example_student Hexp Hyear).
Defined.

(** C1 at the example student: no unmet requirement, no missing
    prerequisite, every module running, no clash, and yet a recommendation. *)
Lemma complete_record_still_advised_example :
  programme_name example_student = "Bachelor of Science (Honours) Mathematics" ∧
  expected_honours_years example_student ≠ 3%Z ∧
  (let summary :=
     {| Student_ID := 190012345;
        Name := "Ada Lovelace";
        Programme := "Bachelor of Science (Honours) Mathematics";
        Hon_year := 2;
        Unmet_programme_requirements := "None";
        Missing_prerequisites := "None";
        Modules_not_running := "None";
        Timetable_clashes := "None";
        Adviser_recommendations :=
          "Student is taking a high course load in second semester of final honours year" |} in
   @process_student elements_order example_catalogue example_student = Return summary ∧
   Unmet_programme_requirements summary = "None" ∧
   Adviser_recommendations summary ≠ "None").
Proof.
  assert (Hprog : programme_name example_student
                  = "Bachelor of Science (Honours) Mathematics") by reflexivity.
  assert (Hexp : expected_honours_years example_student ≠ 3%Z) by (vm_compute; discriminate).
  split; [exact Hprog|]. split; [exact Hexp|]. cbv zeta.
  assert (Hrun : @process_student elements_order example_catalogue example_student
                 = Return
                     {| Student_ID := 190012345;
                        Name := "Ada Lovelace";
                        Programme := "Bachelor of Science (Honours) Mathematics";
                        Hon_year := 2;
                        Unmet_programme_requirements := "None";
                        Missing_prerequisites := "None";
                        Modules_not_running := "None";
                        Timetable_clashes := "None";
                        Adviser_recommendations :=
                          "Student is taking a high course load in second semester of final honours year" |})
    by (vm_compute; reflexivity).
  split; [exact Hrun|]. split; [reflexivity|].
  exact (@complete_record_still_advised elements_order example_catalogue
           example_student _ Hprog Hexp Hrun eq_refl).
Defined.

(** ** [Student.__init__] and the shared list *)

Lemma alloc_fresh (h : heap) (items : list string) (r : loc) :
  is_Some (h !! r) → (alloc h items).1 ≠ r.
Proof.
  intros Hr Heq. unfold alloc in Heq. cbn [fst] in Heq.
  apply (is_fresh (dom h)). rewrite Heq. by apply elem_of_dom.
Qed.

Lemma alloc_lookup_old (h : heap) (items : list string) (r : loc) :
  is_Some (h !! r) → (alloc h items).2 !! r = h !! r.
Proof.
  intros Hr. unfold alloc. cbn [snd fst].
  apply lookup_insert_ne. by apply (alloc_fresh h items r).
Qed.

Lemma alloc_lookup_new (h : heap) (items : list string) :
  (alloc h items).2 !! (alloc h items).1 = Some items.
Proof. unfold alloc. cbn [snd fst]. apply lookup_insert_eq. Qed.

Lemma extend_lookup (h : heap) (r : loc) (items old : list string) :
  h !! r = Some old → extend h r items !! r = Some (old ++ items).
Proof. intros Hr. unfold extend. by rewrite lookup_alter_eq, Hr. Qed.

Lemma extend_lookup_ne (h : heap) (r r' : loc) (items : list string) :
  r ≠ r' → extend h r items !! r' = h !! r'.
Proof. intros Hne. unfold extend. by apply lookup_alter_ne. Qed.

Section Constructor.
Context (student_id : Z) (full_name email programme_name : string)
        (year_of_study expected_honours_years current_honours_year : Z)
        (passed_modules passed_honours_modules : loc)
        (honours_module_choices : list Choices.row)
        (h : heap) (passed honours : list string).
Context (Hpassed : h !! passed_modules = Some passed)
        (Hhonours : h !! passed_honours_modules = Some honours).

(** The constructor returns, and this is what it leaves in the heap. *)
Lemma Student__init___run :
  let planned := Choices.Module_code <$> honours_module_choices in
  ∃ self h',
    Student__init__ student_id full_name email programme_name year_of_study
      expected_honours_years current_honours_year passed_modules passed_honours_modules
      honours_module_choices h = Some (self, h') ∧
    self_passed_modules self = passed_modules ∧
    self_passed_honours_modules self = passed_honours_modules ∧
    self_all_honours_modules self = passed_honours_modules ∧
    self_honours_module_choices self = honours_module_choices ∧
    h' !! passed_honours_modules = Some (honours ++ planned) ∧
    h' !! self_full_module_list self = Some (passed ++ planned) ∧
    h' !! self_planned_honours_modules self = Some planned ∧
    (passed_modules ≠ passed_honours_modules → h' !! passed_modules = Some passed).
Proof.
  intros planned. unfold Student__init__. rewrite Hpassed. cbn [mbind option_bind].
  destruct (alloc h passed) as [full h1] eqn:Halloc.
  assert (Hfull : full ≠ passed_honours_modules).
  { change full with ((full, h1).1). rewrite <- Halloc.
    apply alloc_fresh. by rewrite Hhonours. }
  assert (Hfull' : full ≠ passed_modules).
  { change full with ((full, h1).1). rewrite <- Halloc.
    apply alloc_fresh. by rewrite Hpassed. }
  assert (H1 : h1 !! passed_honours_modules = Some honours).
  { change h1 with ((full, h1).2). rewrite <- Halloc.
    rewrite alloc_lookup_old by (by rewrite Hhonours). done. }
  assert (H1' : h1 !! passed_modules = Some passed).
  { change h1 with ((full, h1).2). rewrite <- Halloc.
    rewrite alloc_lookup_old by (by rewrite Hpassed). done. }
  assert (H1f : h1 !! full = Some passed).
  { pose proof (alloc_lookup_new h passed) as Hn. by rewrite Halloc in Hn. }
  fold planned.
  rewrite extend_lookup_ne, H1 by done. cbn [mbind option_bind].
  set (h3 := extend (extend h1 full planned) passed_honours_modules planned).
  assert (H3 : h3 !! passed_honours_modules = Some (honours ++ planned)).
  { unfold h3. apply extend_lookup. by rewrite extend_lookup_ne. }
  assert (H3f : h3 !! full = Some (passed ++ planned)).
  { unfold h3. rewrite extend_lookup_ne by done. by apply extend_lookup. }
  destruct (alloc h3 planned) as [planned_loc h4] eqn:Halloc4.
  assert (H4 : ∀ r, is_Some (h3 !! r) → h4 !! r = h3 !! r).
  { intros r Hr. change h4 with ((planned_loc, h4).2). rewrite <- Halloc4.
    by apply alloc_lookup_old. }
  eexists _, _. split; [reflexivity|]. cbn.
  repeat split.
  - rewrite H4 by (by rewrite H3). done.
  - rewrite H4 by (by rewrite H3f). done.
  - pose proof (alloc_lookup_new h3 planned) as Hn. by rewrite Halloc4 in Hn.
  - intros Hne. rewrite H4.
    + unfold h3. by rewrite !extend_lookup_ne.
    + unfold h3. rewrite !extend_lookup_ne by done. by rewrite H1'.
Qed.

End Constructor.

(** On two separate lists the object reads as [new_Student]. *)
Lemma new_Student_read (student_id : Z) (full_name email programme_name : string)
    (year_of_study expected_honours_years current_honours_year : Z)
    (passed_modules passed_honours_modules : loc)
    (honours_module_choices : list Choices.row)
    (h : heap) (passed honours : list string) :
  h !! passed_modules = Some passed →
  h !! passed_honours_modules = Some honours →
  passed_modules ≠ passed_honours_modules →
  ∃ self h',
    Student__init__ student_id full_name email programme_name year_of_study
      expected_honours_years current_honours_year passed_modules passed_honours_modules
      honours_module_choices h = Some (self, h') ∧
    read_student h' self
    = Some (new_Student student_id full_name email programme_name year_of_study
              expected_honours_years current_honours_year passed honours
              honours_module_choices).
Proof.
  intros Hpassed Hhonours Hne.
  destruct (Student__init___run student_id full_name email programme_name year_of_study
              expected_honours_years current_honours_year passed_modules
              passed_honours_modules honours_module_choices h passed honours
              Hpassed Hhonours)
    as (self & h' & Hrun & Hs1 & Hs2 & Hs3 & Hs4 & Hh1 & Hh2 & Hh3 & Hh4).
  exists self, h'. split; [exact Hrun|].
  unfold read_student. rewrite Hs1, Hs2, Hs3, Hh1, Hh2, Hh3, (Hh4 Hne).
  cbn [mbind option_bind]. unfold new_Student. f_equal.
  unfold Student__init__ in Hrun. rewrite Hpassed in Hrun.
  cbn [mbind option_bind] in Hrun.
  destruct (alloc h passed) as [full h1].
  destruct (extend h1 full _ !! passed_honours_modules); [|discriminate].
  cbn [mbind option_bind] in Hrun.
  destruct (alloc _ _) as [planned_loc h4].
  injection Hrun as <- _. reflexivity.
Qed.

(** C10.  [Student.__init__] binds [all_honours_modules] to the list object
    that was passed as [passed_honours_modules] and appends every planned
    module code to it: afterwards the caller's list holds the planned
    choices too, and whatever is appended later through one of the two
    attributes shows through the other. *)
Theorem Student__init___extends_passed_honours_modules
    (student_id : Z) (full_name email programme_name : string)
    (year_of_study expected_honours_years current_honours_year : Z)
    (passed_modules passed_honours_modules : loc)
    (honours_module_choices : list Choices.row)
    (h : heap) (passed honours : list string) :
  h !! passed_modules = Some passed →
  h !! passed_honours_modules = Some honours →
  ∃ self h',
    Student__init__ student_id full_name email programme_name year_of_study
      expected_honours_years current_honours_year passed_modules passed_honours_modules
      honours_module_choices h = Some (self, h') ∧
    self_passed_honours_modules self = passed_honours_modules ∧
    self_all_honours_modules self = self_passed_honours_modules self ∧
    h' !! passed_honours_modules
    = Some (honours ++ (Choices.Module_code <$> honours_module_choices)) ∧
    (∀ r planned_now,
       r ∈ honours_module_choices →
       h' !! self_passed_honours_modules self = Some planned_now →
       Choices.Module_code r ∈ planned_now) ∧
    (∀ items,
       extend h' (self_all_honours_modules self) items !! self_passed_honours_modules self
       = Some (honours ++ (Choices.Module_code <$> honours_module_choices) ++ items)).
Proof.
  intros Hpassed Hhonours.
  destruct (Student__init___run student_id full_name email programme_name year_of_study
              expected_honours_years current_honours_year passed_modules
              passed_honours_modules honours_module_choices h passed honours
              Hpassed Hhonours)
    as (self & h' & Hrun & Hs1 & Hs2 & Hs3 & Hs4 & Hh1 & Hh2 & Hh3 & Hh4).
  exists self, h'. split; [exact Hrun|]. split; [exact Hs2|].
  split; [by rewrite Hs2, Hs3|]. split; [exact Hh1|]. split.
  - intros r planned_now Hr. rewrite Hs2, Hh1. intros [= <-].
    apply elem_of_app. right. apply list_elem_of_fmap. eauto.
  - intros items. rewrite Hs2, Hs3.
    rewrite (extend_lookup _ _ _ _ Hh1). by rewrite <- app_assoc.
Qed.

(** C10 on a heap with the two lists of a student who has passed MT3501 in
    the honours years and plans MT4004. *)
Lemma Student__init___example :
  let h : heap := {[ 0 := ["MT1002"; "MT3501"]; 1 := ["MT3501"] ]} in
  let choices := [choice "Year 2" "2024/2025" "S1" "MT4004"] in
  h !! 0 = Some ["MT1002"; "MT3501"] ∧
  h !! 1 = Some ["MT3501"] ∧
  ∃ self h',
    Student__init__ 190012345 "Ada Lovelace" "al1@st-andrews.ac.uk"
      "Bachelor of Science (Honours) Mathematics" 4 2 2 0 1 choices h = Some (self, h') ∧
    self_passed_honours_modules self = 1 ∧
    self_all_honours_modules self = self_passed_honours_modules self ∧
    h' !! 1 = Some (["MT3501"] ++ (Choices.Module_code <$> choices)) ∧
    (∀ r planned_now,
       r ∈ choices →
       h' !! self_passed_honours_modules self = Some planned_now →
       Choices.Module_code r ∈ planned_now) ∧
    (∀ items,
       extend h' (self_all_honours_modules self) items !! self_passed_honours_modules self
       = Some (["MT3501"] ++ (Choices.Module_code <$> choices) ++ items)).
Proof.
  intros h choices.
  assert (H0 : h !! 0 = Some ["MT1002"; "MT3501"]) by reflexivity.
  assert (H1 : h !! 1 = Some ["MT3501"]) by reflexivity.
  split; [exact H0|]. split; [exact H1|].
  exact (Student__init___extends_passed_honours_modules 190012345 "Ada Lovelace"
           "al1@st-andrews.ac.uk" "Bachelor of Science (Honours) Mathematics" 4 2 2 0 1
           choices h _ _ H0 H1).
Defined.

(** ** Forms that cannot be parsed *)

Lemma startswith_app_l (a s p : string) :
  String.length p ≤ String.length a → startswith (a +:+ s) p = startswith a p.
Proof.
  revert p. induction a as [|d a IH]; intros [|c p] Hlen; try done.
  - by destruct s.
  - cbn in Hlen. lia.
  - rewrite str_app_cons. cbn [startswith].
    destruct (Ascii.eqb c d); [apply IH; cbn in Hlen; lia|done].
Qed.


Section Sentinel.
Context `{HashOrder} (module_catalogue : list Catalogue.row).
Context (filename : string) (sheet : Form) (data_bases : list (list Records.row)).




End Sentinel.




(** A student who is listed with two programme names stops at the
    assertion on the programme entries, whether or not the names are
    recognised: the records are taken to be corrupt, and the run ends. *)
Lemma two_programme_names_assertion :
  let records :=
    [ economics_row "2021/2022" "EC1001" "Bachelor of Arts (Honours) Economics";
      economics_row "2022/2023" "EC2001" "Bachelor of Arts (Honours) Economics and Finance" ] in
  @process_form_file elements_order example_catalogue "c.xlsx" economics_form [records]
  = Raise AssertionError.
Proof. by vm_compute. Qed.

(** ** Prerequisite texts of three words *)

(** C3.  A prerequisite text of three words other than "Letter of
    agreement" is taken by the branch that looks for a letter of agreement:
    it is never evaluated, and no finding and no advice come of it,
    whatever the student has taken. *)
Theorem three_word_prerequisite_unchecked (module prerequisites : string)
    (previously_taken_modules simultaneously_taken_modules : list string) :
  length (str_split prerequisites) = 3 →
  prerequisites ≠ "Letter of agreement" →
  check_prerequisite_text module prerequisites previously_taken_modules
    simultaneously_taken_modules = Return ([], []).
Proof.
  intros Hwords Hletter. unfold check_prerequisite_text.
  rewrite Hwords. cbn [Nat.eqb].
  by rewrite (str_eqb_false _ _ Hletter).
Qed.

(** C3 at the text "MT1001 and MT1002": a student who has passed neither
    module and plans MT2000, which asks for both, gets no finding. *)
Lemma compound_prerequisite_unchecked :
  length (str_split "MT1001 and MT1002") = 3 ∧
  "MT1001 and MT1002" ≠ "Letter of agreement" ∧
  (∀ module previously_taken_modules simultaneously_taken_modules,
     check_prerequisite_text module "MT1001 and MT1002" previously_taken_modules
       simultaneously_taken_modules = Return ([], [])) ∧
  ("MT1001" ∉ passed_modules compound_student) ∧
  ("MT1002" ∉ passed_modules compound_student) ∧
  get_missing_prerequisites_for_module compound_catalogue "MT2000" compound_student
  = Return ("None", "None").
Proof.
  assert (Hwords : length (str_split "MT1001 and MT1002") = 3) by reflexivity.
  assert (Hletter : "MT1001 and MT1002" ≠ "Letter of agreement") by discriminate.
  split; [exact Hwords|]. split; [exact Hletter|]. split.
  - intros module previously_taken_modules simultaneously_taken_modules.
    exact (three_word_prerequisite_unchecked module "MT1001 and MT1002"
             previously_taken_modules simultaneously_taken_modules Hwords Hletter).
  - split; [|split]; [| |by vm_compute].
    + intros Hin. vm_compute in Hin.
      repeat (apply elem_of_cons in Hin as [Hin|Hin]; [discriminate|]).
      by apply elem_of_nil in Hin.
    + intros Hin. vm_compute in Hin.
      repeat (apply elem_of_cons in Hin as [Hin|Hin]; [discriminate|]).
      by apply elem_of_nil in Hin.
Defined.

(** ** Counting timeslots *)

Lemma count_app (t : string) (l1 l2 : list string) :
  count t (l1 ++ l2) = count t l1 + count t l2.
Proof. unfold count. by rewrite filter_app, length_app. Qed.

Lemma count_not_elem (t : string) (l : list string) : t ∉ l → count t l = 0.
Proof.
  unfold count. induction l as [|x l IH]; intros Hx; [done|].
  apply not_elem_of_cons in Hx as [Hne Hx].
  rewrite filter_cons_False by congruence. by apply IH.
Qed.

Lemma count_NoDup (t : string) (l : list string) : NoDup l → count t l ≤ 1.
Proof.
  unfold count. induction 1 as [|x l Hx Hnd IH]; [simpl; lia|].
  destruct (decide (x = t)) as [->|Hne].
  - rewrite filter_cons_True by done. cbn [length].
    fold (count t l). rewrite count_not_elem by done. lia.
  - rewrite filter_cons_False by done. exact IH.
Qed.

Lemma count_elem (t : string) (l : list string) : NoDup l → t ∈ l → count t l = 1.
Proof.
  unfold count. induction 1 as [|x l Hx Hnd IH]; intros Hin.
  - by apply elem_of_nil in Hin.
  - destruct (decide (x = t)) as [->|Hne].
    + rewrite filter_cons_True by done. cbn [length].
      fold (count t l). by rewrite count_not_elem.
    + rewrite filter_cons_False by done.
      apply elem_of_cons in Hin as [->|Hin]; [done|]. by apply IH.
Qed.

Lemma count_pos_elem (t : string) (l : list string) : 0 < count t l → t ∈ l.
Proof.
  intros Hpos. destruct (decide (t ∈ l)) as [|Hn]; [done|].
  rewrite count_not_elem in Hpos by done. lia.
Qed.

Lemma filter_none (P : string → Prop) `{∀ x, Decision (P x)} (l : list string) :
  (∀ y, y ∈ l → ¬ P y) → filter P l = [].
Proof.
  induction l as [|y l IH]; intros HP; [done|].
  rewrite filter_cons_False by (apply HP; left).
  apply IH. intros z Hz. apply HP. by right.
Qed.

(** A filter that keeps one member of a list without repetition. *)
Lemma filter_only (P : string → Prop) `{∀ x, Decision (P x)} (l : list string) (x : string) :
  NoDup l → x ∈ l → (∀ y, y ∈ l → P y ↔ y = x) → filter P l = [x].
Proof.
  induction 1 as [|y l Hy Hnd IH]; intros Hin HP.
  - by apply elem_of_nil in Hin.
  - destruct (decide (y = x)) as [->|Hne].
    + rewrite filter_cons_True by (apply HP; [left|done]).
      f_equal. apply filter_none.
      intros z Hz HPz. apply HP in HPz; [|by right]. by subst.
    + rewrite filter_cons_False by (intros HPy; apply HP in HPy; [done|left]).
      apply elem_of_cons in Hin as [->|Hin]; [done|].
      apply IH; [done|]. intros z Hz. apply HP. by right.
Qed.

(** ** Iterating over small sets *)

Section SmallSets.
Context `{HashOrder}.

Lemma set_iter_empty {A} `{Countable A} : set_iter (∅ : gset A) = [].
Proof.
  apply Permutation_nil_r. rewrite set_iter_elements. by rewrite elements_empty.
Qed.

Lemma set_iter_singleton {A} `{Countable A} (x : A) : set_iter ({[x]} : gset A) = [x].
Proof.
  apply Permutation_singleton_r. rewrite set_iter_elements.
  by rewrite elements_singleton.
Qed.

Lemma set_iter_pair {A} `{Countable A} (x y : A) :
  x ≠ y →
  set_iter ({[x]} ∪ {[y]} : gset A) = [x; y] ∨ set_iter ({[x]} ∪ {[y]} : gset A) = [y; x].
Proof.
  intros Hne.
  assert (Hperm : set_iter ({[x]} ∪ {[y]} : gset A) ≡ₚ [x; y]).
  { rewrite set_iter_elements.
    rewrite elements_union_singleton by (by apply not_elem_of_singleton).
    by rewrite elements_singleton. }
  destruct (set_iter ({[x]} ∪ {[y]} : gset A)) as [|a [|b [|c l]]].
  - by apply Permutation_nil_l in Hperm.
  - apply Permutation_length in Hperm. discriminate.
  - assert (Ha : a ∈ [x; y]) by (rewrite <- Hperm; left).
    assert (Hb : b ∈ [x; y]) by (rewrite <- Hperm; right; left).
    assert (Hnd : NoDup [a; b]).
    { rewrite Hperm. apply NoDup_cons. split; [by rewrite list_elem_of_singleton|].
      apply NoDup_singleton. }
    apply NoDup_cons in Hnd as [Hab _]. rewrite list_elem_of_singleton in Hab.
    rewrite !elem_of_cons, elem_of_nil in Ha, Hb.
    destruct Ha as [->|[->|[]]], Hb as [->|[->|[]]]; auto; done.
  - apply Permutation_length in Hperm. discriminate.
Qed.

End SmallSets.

(** ** The clash detector on a dictionary *)

Lemma append_separated_one (w a : string) : append_separated w [a] = w +:+ a.
Proof. reflexivity. Qed.

Lemma append_separated_two (w a b : string) :
  append_separated w [a; b] = w +:+ a +:+ " and " +:+ b.
Proof. unfold append_separated. cbn. by rewrite !str_app_assoc. Qed.

Section ClashDetector.
Context `{HashOrder}.

(** Without a timeslot that is listed twice there is no warning. *)
Lemma find_clashing_no_repeat (module_dictionary : list (string * list string))
    (honours_year semester : string) :
  NoDup (concat (snd <$> module_dictionary)) →
  find_clashing_timeslots_and_modules module_dictionary honours_year semester = Return [].
Proof.
  intros Hnd. unfold find_clashing_timeslots_and_modules.
  rewrite (filter_none (λ timeslot, 1 < count timeslot _)).
  - cbn [fmap list_fmap list_to_set foldr]. by rewrite set_iter_empty.
  - intros t _ Hcount. pose proof (count_NoDup t _ Hnd). lia.
Qed.

Context (module_a module_b slot : string) (slots_a slots_b : list string)
        (others : list (string * list string)).
Context (Hab : module_a ≠ module_b)
        (Hnd_a : NoDup slots_a) (Hnd_b : NoDup slots_b)
        (Hslot_a : slot ∈ slots_a) (Hslot_b : slot ∈ slots_b)
        (Honly : ∀ t, t ∈ slots_a → t ∈ slots_b → t = slot)
        (Hnd_others : NoDup (concat (snd <$> others)))
        (Hothers : ∀ t, t ∈ concat (snd <$> others) → (t ∉ slots_a) ∧ (t ∉ slots_b)).

Let module_dictionary := (module_a, slots_a) :: (module_b, slots_b) :: others.

Lemma shared_slot_not_in_others : slot ∉ concat (snd <$> others).
Proof. intros Hin. by destruct (Hothers slot Hin). Qed.

Lemma shared_slot_duplicate :
  filter (λ timeslot, 1 < count timeslot (concat (snd <$> module_dictionary)))
         (unique (concat (snd <$> module_dictionary)))
  = [slot].
Proof.
  apply filter_only.
  - apply NoDup_unique.
  - apply elem_of_unique. unfold module_dictionary. cbn [fmap list_fmap concat snd].
    apply elem_of_app. by left.
  - intros t _. unfold module_dictionary. cbn [fmap list_fmap concat snd].
    rewrite !count_app. split.
    + intros Hcount.
      destruct (decide (t ∈ slots_a)) as [Ha|Ha];
        destruct (decide (t ∈ slots_b)) as [Hb|Hb]; [by apply Honly| | |].
      * assert (Ho : t ∉ concat (snd <$> others))
          by (intros Ho; by destruct (Hothers t Ho)).
        rewrite (count_elem t slots_a), (count_not_elem t slots_b),
          (count_not_elem t _ Ho) in Hcount by done. lia.
      * assert (Ho : t ∉ concat (snd <$> others))
          by (intros Ho; by destruct (Hothers t Ho)).
        rewrite (count_not_elem t slots_a), (count_elem t slots_b),
          (count_not_elem t _ Ho) in Hcount by done. lia.
      * rewrite (count_not_elem t slots_a), (count_not_elem t slots_b) in Hcount by done.
        pose proof (count_NoDup t _ Hnd_others). lia.
    + intros ->. rewrite (count_elem slot slots_a), (count_elem slot slots_b) by done. lia.
Qed.

Lemma shared_slot_modules :
  fst <$> filter (λ kv : string * list string, slot ∈ kv.2) module_dictionary
  = [module_a; module_b].
Proof.
  unfold module_dictionary.
  rewrite filter_cons_True by done. rewrite filter_cons_True by done.
  assert (Hnone : filter (λ kv : string * list string, slot ∈ kv.2) others = []).
  { induction others as [|[m ts] rest IH]; [done|].
    cbn [fmap list_fmap concat snd] in Hnd_others, Hothers.
    rewrite filter_cons_False.
    - apply IH.
      + by apply NoDup_app in Hnd_others as (_ & _ & ?).
      + intros t Ht. apply Hothers. apply elem_of_app. by right.
    - cbn [snd]. intros Hin.
      destruct (Hothers slot); [apply elem_of_app; by left|done]. }
  by rewrite Hnone.
Qed.

Lemma dict_get_a : dict_get module_dictionary module_a = Return slots_a.
Proof.
  unfold dict_get, module_dictionary. cbn [list_find fst].
  by rewrite decide_True.
Qed.

Lemma dict_get_b : dict_get module_dictionary module_b = Return slots_b.
Proof.
  unfold dict_get, module_dictionary. cbn [list_find fst].
  rewrite decide_False by done. cbn [fmap option_fmap option_map list_find fst].
  by rewrite decide_True.
Qed.

Lemma shared_slots : (list_to_set slots_a ∩ list_to_set slots_b : gset string) = {[slot]}.
Proof.
  apply set_eq. intros t.
  rewrite elem_of_intersection, !elem_of_list_to_set, elem_of_singleton.
  split; [intros [? ?]; by apply Honly|by intros ->].
Qed.

(** With one timeslot shared by two modules, and by them only, there is one
    warning; it names the two modules, in the order in which the set of the
    two is iterated, and the timeslot. *)
Lemma find_clashing_one_shared (honours_year semester module_1 module_2 : string) :
  set_iter ({[module_a]} ∪ {[module_b]} : gset string) = [module_1; module_2] →
  find_clashing_timeslots_and_modules module_dictionary honours_year semester
  = Return [clash_text honours_year semester module_1 module_2 slot].
Proof.
  intros Hiter. unfold find_clashing_timeslots_and_modules.
  rewrite shared_slot_duplicate. cbn [fmap list_fmap].
  rewrite shared_slot_modules.
  assert (Hset : (list_to_set (merge_sort String.le [module_a; module_b]) : gset string)
                 = {[module_a]} ∪ {[module_b]}).
  { apply set_eq. intros m.
    rewrite elem_of_list_to_set, merge_sort_Permutation.
    rewrite elem_of_union, !elem_of_singleton, !elem_of_cons, elem_of_nil. tauto. }
  rewrite Hset. rewrite list_to_set_singleton_L, set_iter_singleton.
  cbn [mapM]. unfold clash_warning, clash_text. rewrite Hiter.
  destruct (set_iter_pair module_a module_b Hab) as [Hpair|Hpair];
    rewrite Hiter in Hpair; injection Hpair as -> ->.
  - cbn [mapM]. rewrite dict_get_a, dict_get_b.
    cbn [mbind outcome_bind mret outcome_ret fmap outcome_fmap set_intersection foldl].
    rewrite shared_slots, set_iter_singleton.
    rewrite append_separated_two, append_separated_one.
    by rewrite !str_app_assoc.
  - cbn [mapM]. rewrite dict_get_a, dict_get_b.
    cbn [mbind outcome_bind mret outcome_ret fmap outcome_fmap set_intersection foldl].
    rewrite (comm_L (∩)), shared_slots, set_iter_singleton.
    rewrite append_separated_two, append_separated_one.
    by rewrite !str_app_assoc.
Qed.

End ClashDetector.

(** ** The clash detector on a student *)

Lemma merge_list_to_long_string_single (x : string) :
  x ≠ "None" → x ≠ "" → merge_list_to_long_string [x] = x.
Proof.
  intros H1 H2. rewrite merge_list_to_long_string_eq. unfold joined_findings.
  rewrite filter_cons_True by done. cbn [filter list_filter join].
  by rewrite (str_eqb_false _ _ H2).
Qed.

Lemma unique_constant (l : list string) (a : string) :
  l ≠ [] → (∀ x, x ∈ l → x = a) → unique l = [a].
Proof.
  intros Hne Hall.
  pose proof (NoDup_unique l) as Hnd.
  assert (Hall' : ∀ x, x ∈ unique l → x = a)
    by (intros x Hx; apply Hall; by apply elem_of_unique).
  assert (Hne' : unique l ≠ []).
  { destruct l as [|y l]; [done|]. intros Hnil.
    assert (Hy : y ∈ unique (y :: l)) by (apply elem_of_unique; left).
    rewrite Hnil in Hy. by apply elem_of_nil in Hy. }
  destruct (unique l) as [|y [|z rest]]; [done| |].
  - f_equal. apply Hall'. left.
  - exfalso. apply NoDup_cons in Hnd as [Hy _]. apply Hy.
    rewrite (Hall' y) by left. rewrite (Hall' z) by (right; left). left.
Qed.

Section OneGroup.
Context `{HashOrder} (module_catalogue : list Catalogue.row).
Context (student : Student) (honours_year semester : string)
        (timeslot_dictionary : list (string * list string)) (clashes : list string).
Context (Hsemester : semester = "S1" ∨ semester = "S2")
        (Hrows : honours_module_choices student ≠ [])
        (Hgroup : ∀ r, r ∈ honours_module_choices student →
                    Choices.Honours_year r = honours_year ∧ Choices.Semester r = semester)
        (Hdictionary :
           timeslot_dictionary_of module_catalogue
             (Choices.Module_code <$> honours_module_choices student)
           = Return timeslot_dictionary)
        (Hclashes :
           find_clashing_timeslots_and_modules timeslot_dictionary honours_year semester
           = Return clashes).

Lemma group_rows_same_semester :
  filter (λ r, Choices.Semester r = semester ∧ Choices.Honours_year r = honours_year)
         (honours_module_choices student)
  = honours_module_choices student.
Proof.
  revert Hgroup. generalize (honours_module_choices student).
  induction l as [|r l IH]; intros Hall; [done|].
  rewrite filter_cons_True by (destruct (Hall r); [left|done]).
  f_equal. apply IH. intros r' Hr'. apply Hall. by right.
Qed.

Lemma group_rows_other_semester (other : string) :
  other ≠ semester →
  filter (λ r, Choices.Semester r = other ∧ Choices.Honours_year r = honours_year)
         (honours_module_choices student)
  = [].
Proof.
  intros Hother. revert Hgroup. generalize (honours_module_choices student).
  induction l as [|r l IH]; intros Hall; [done|].
  rewrite filter_cons_False.
  - apply IH. intros r' Hr'. apply Hall. by right.
  - intros [Hsem _]. destruct (Hall r) as [_ Hr]; [left|]. congruence.
Qed.

Lemma semester_clashes_group (collected : list string) :
  semester_clashes module_catalogue student honours_year semester collected
  = Return (collected ++ clashes ++ clashes ++ clashes).
Proof.
  unfold semester_clashes. rewrite group_rows_same_semester, Hdictionary.
  cbn [mbind outcome_bind]. rewrite Hclashes. cbn [mbind outcome_bind].
  by rewrite <- !app_assoc.
Qed.

Lemma semester_clashes_other (other : string) (collected : list string) :
  other ≠ semester →
  semester_clashes module_catalogue student honours_year other collected
  = Return collected.
Proof.
  intros Hother. unfold semester_clashes.
  rewrite group_rows_other_semester by done.
  cbn [fmap list_fmap timeslot_dictionary_of for_each mbind outcome_bind].
  rewrite find_clashing_no_repeat by apply NoDup_nil_2.
  cbn [mbind outcome_bind]. by rewrite !app_nil_r.
Qed.

(** The three passes over the one group give the same warnings three times. *)
Lemma all_semester_clashes_group :
  all_semester_clashes module_catalogue student = Return (clashes ++ clashes ++ clashes).
Proof.
  unfold all_semester_clashes.
  rewrite (unique_constant _ honours_year).
  - cbn [for_each mbind outcome_bind].
    destruct Hsemester as [Hs|Hs].
    + rewrite <- Hs at 1. rewrite semester_clashes_group. cbn [mbind outcome_bind].
      rewrite semester_clashes_other by (rewrite Hs; discriminate). done.
    + rewrite semester_clashes_other by (rewrite Hs; discriminate).
      cbn [mbind outcome_bind]. rewrite <- Hs at 1. rewrite semester_clashes_group. done.
  - destruct (honours_module_choices student); [done|discriminate].
  - intros y (r & -> & Hr)%list_elem_of_fmap. by destruct (Hgroup r Hr).
Qed.

Lemma find_timetable_clashes_group :
  find_timetable_clashes module_catalogue student
  = Return (merge_list_to_long_string
              (set_iter (list_to_set (clashes ++ clashes ++ clashes) : gset string)),
            "None").
Proof.
  unfold find_timetable_clashes. by rewrite all_semester_clashes_group.
Qed.

End OneGroup.

(** ** Timetable clashes of one group of modules *)

Section Group.
Context `{HashOrder} (module_catalogue : list Catalogue.row).

Lemma timeslot_dictionary_of_two (module_a module_b : string)
    (slots_a slots_b : list string) :
  module_a ≠ module_b →
  get_timeslots_for_module module_catalogue module_a = Return slots_a →
  get_timeslots_for_module module_catalogue module_b = Return slots_b →
  timeslot_dictionary_of module_catalogue [module_a; module_b]
  = Return [(module_a, slots_a); (module_b, slots_b)].
Proof.
  intros Hab Ha Hb. unfold timeslot_dictionary_of. cbn [for_each].
  rewrite Ha. cbn [mbind outcome_bind dict_set]. rewrite Hb.
  cbn [mbind outcome_bind dict_set fst]. by rewrite (str_eqb_false _ _ Hab).
Qed.

Lemma timeslot_dictionary_of_three (module_a module_b module_c : string)
    (slots_a slots_b slots_c : list string) :
  module_a ≠ module_b → module_a ≠ module_c → module_b ≠ module_c →
  get_timeslots_for_module module_catalogue module_a = Return slots_a →
  get_timeslots_for_module module_catalogue module_b = Return slots_b →
  get_timeslots_for_module module_catalogue module_c = Return slots_c →
  timeslot_dictionary_of module_catalogue [module_a; module_b; module_c]
  = Return [(module_a, slots_a); (module_b, slots_b); (module_c, slots_c)].
Proof.
  intros Hab Hac Hbc Ha Hb Hc. unfold timeslot_dictionary_of. cbn [for_each].
  rewrite Ha. cbn [mbind outcome_bind dict_set]. rewrite Hb.
  cbn [mbind outcome_bind dict_set fst]. rewrite (str_eqb_false _ _ Hab).
  rewrite Hc. cbn [mbind outcome_bind dict_set fst].
  by rewrite (str_eqb_false _ _ Hac), (str_eqb_false _ _ Hbc).
Qed.

Lemma clash_text_finding (honours_year semester module_1 module_2 slot : string) :
  clash_text honours_year semester module_1 module_2 slot ≠ "None" ∧
  clash_text honours_year semester module_1 module_2 slot ≠ "".
Proof. split; discriminate. Qed.

(** One warning, found by each of the three passes, is reported once. *)
Lemma find_timetable_clashes_one_warning (student : Student)
    (honours_year semester : string) (timeslot_dictionary : list (string * list string))
    (module_1 module_2 slot : string) :
  semester = "S1" ∨ semester = "S2" →
  honours_module_choices student ≠ [] →
  (∀ r, r ∈ honours_module_choices student →
     Choices.Honours_year r = honours_year ∧ Choices.Semester r = semester) →
  timeslot_dictionary_of module_catalogue
    (Choices.Module_code <$> honours_module_choices student) = Return timeslot_dictionary →
  find_clashing_timeslots_and_modules timeslot_dictionary honours_year semester
  = Return [clash_text honours_year semester module_1 module_2 slot] →
  find_timetable_clashes module_catalogue student
  = Return (clash_text honours_year semester module_1 module_2 slot, "None").
Proof.
  intros Hsem Hrows Hgroup Hdict Hclash.
  rewrite (find_timetable_clashes_group module_catalogue student honours_year semester
             timeslot_dictionary _ Hsem Hrows Hgroup Hdict Hclash).
  set (w := clash_text honours_year semester module_1 module_2 slot).
  assert (Hset : (list_to_set ([w] ++ [w] ++ [w]) : gset string) = {[w]}).
  { apply set_eq. intros x.
    rewrite elem_of_list_to_set, !elem_of_app, !list_elem_of_singleton, elem_of_singleton.
    tauto. }
  rewrite Hset, set_iter_singleton.
  destruct (clash_text_finding honours_year semester module_1 module_2 slot).
  by rewrite merge_list_to_long_string_single.
Qed.

End Group.

(** C5 (as amended).  Two modules of one honours year and semester whose
    timeslot lists name no timeslot twice and share one timeslot, and no
    other: the detector returns one warning, which names the two modules
    (in one or the other order) and the timeslot.  A third module of the
    group whose list names no timeslot twice and shares none with the two
    adds nothing.  The warnings of the three passes are reported once each:
    the reported list has no repetition. *)
Theorem one_shared_timeslot_one_warning `{HashOrder}
    (module_catalogue : list Catalogue.row) (honours_year semester : string)
    (module_a module_b slot : string) (slots_a slots_b : list string) :
  semester = "S1" ∨ semester = "S2" →
  module_a ≠ module_b →
  get_timeslots_for_module module_catalogue module_a = Return slots_a →
  get_timeslots_for_module module_catalogue module_b = Return slots_b →
  NoDup slots_a → NoDup slots_b →
  slot ∈ slots_a → slot ∈ slots_b →
  (∀ t, t ∈ slots_a → t ∈ slots_b → t = slot) →
  (∃ warning,
     (warning = clash_text honours_year semester module_a module_b slot ∨
      warning = clash_text honours_year semester module_b module_a slot) ∧
     find_clashing_timeslots_and_modules
       [(module_a, slots_a); (module_b, slots_b)] honours_year semester
     = Return [warning] ∧
     (∀ student year_a year_b,
        honours_module_choices student
        = [choice honours_year year_a semester module_a;
           choice honours_year year_b semester module_b] →
        find_timetable_clashes module_catalogue student = Return (warning, "None")) ∧
     (∀ student year_a year_b year_c module_c slots_c,
        module_c ≠ module_a → module_c ≠ module_b →
        get_timeslots_for_module module_catalogue module_c = Return slots_c →
        NoDup slots_c →
        (∀ t, t ∈ slots_c → (t ∉ slots_a) ∧ (t ∉ slots_b)) →
        honours_module_choices student
        = [choice honours_year year_a semester module_a;
           choice honours_year year_b semester module_b;
           choice honours_year year_c semester module_c] →
        find_clashing_timeslots_and_modules
          [(module_a, slots_a); (module_b, slots_b); (module_c, slots_c)]
          honours_year semester
        = Return [warning] ∧
        find_timetable_clashes module_catalogue student = Return (warning, "None"))) ∧
  (∀ student collected,
     all_semester_clashes module_catalogue student = Return collected →
     ∃ reported,
       NoDup reported ∧ (∀ w, w ∈ reported ↔ w ∈ collected) ∧
       find_timetable_clashes module_catalogue student
       = Return (merge_list_to_long_string reported, "None")).
Proof.
  intros Hsem Hab Ha Hb Hnd_a Hnd_b Hslot_a Hslot_b Honly. split.
  - (* the order in which the set of the two modules is iterated *)
    assert (Hiter : ∃ module_1 module_2,
      (module_1 = module_a ∧ module_2 = module_b ∨
       module_1 = module_b ∧ module_2 = module_a) ∧
      set_iter ({[module_a]} ∪ {[module_b]} : gset string) = [module_1; module_2]).
    { destruct (set_iter_pair module_a module_b Hab) as [Hp|Hp]; eauto 10. }
    destruct Hiter as (module_1 & module_2 & Horder & Hiter).
    exists (clash_text honours_year semester module_1 module_2 slot).
    assert (Htwo :
      find_clashing_timeslots_and_modules
        [(module_a, slots_a); (module_b, slots_b)] honours_year semester
      = Return [clash_text honours_year semester module_1 module_2 slot]).
    { apply find_clashing_one_shared; try done; [apply NoDup_nil_2|].
      intros t Ht. by apply elem_of_nil in Ht. }
    split; [|split; [exact Htwo|split]].
    + destruct Horder as [[-> ->]|[-> ->]]; tauto.
    + intros student year_a year_b Hchoices.
      eapply (find_timetable_clashes_one_warning module_catalogue student
                honours_year semester); [done|..|exact Htwo].
      * by rewrite Hchoices.
      * rewrite Hchoices. intros r Hr.
        rewrite !elem_of_cons, elem_of_nil in Hr. destruct Hr as [->|[->|[]]]; done.
      * rewrite Hchoices. cbn [fmap list_fmap choice Choices.Module_code].
        by apply timeslot_dictionary_of_two.
    + intros student year_a year_b year_c module_c slots_c Hca Hcb Hc Hnd_c Hdis Hchoices.
      assert (Hthree :
        find_clashing_timeslots_and_modules
          [(module_a, slots_a); (module_b, slots_b); (module_c, slots_c)]
          honours_year semester
        = Return [clash_text honours_year semester module_1 module_2 slot]).
      { apply find_clashing_one_shared; try done.
        - cbn [fmap list_fmap concat snd]. by rewrite app_nil_r.
        - cbn [fmap list_fmap concat snd]. intros t Ht.
          rewrite app_nil_r in Ht. by apply Hdis. }
      split; [exact Hthree|].
      eapply (find_timetable_clashes_one_warning module_catalogue student
                honours_year semester); [done|..|exact Hthree].
      * by rewrite Hchoices.
      * rewrite Hchoices. intros r Hr.
        rewrite !elem_of_cons, elem_of_nil in Hr. destruct Hr as [->|[->|[->|[]]]]; done.
      * rewrite Hchoices. cbn [fmap list_fmap choice Choices.Module_code].
        apply timeslot_dictionary_of_three; done.
  - intros student collected Hcollected.
    exists (set_iter (list_to_set collected : gset string)). split; [|split].
    + rewrite set_iter_elements. apply NoDup_elements.
    + intros w. rewrite set_iter_elements, elem_of_elements. apply elem_of_list_to_set.
    + unfold find_timetable_clashes. by rewrite Hcollected.
Qed.

(** C5 at the timeslot "10am Mon": MT3501 and MT3502 meet then, MT3503
    meets neither; one warning is reported, with or without MT3503. *)
Lemma monday_timeslot_one_warning :
  let slots_a := ["10am Mon"; "11am Tue"] in
  let slots_b := ["10am Mon"; "12pm Thu"] in
  let warning := "Clash for Year 1 S1 between modules MT3501 and MT3502 at 10am Mon" in
  ("S1" = "S1" ∨ "S1" = "S2") ∧ "MT3501" ≠ "MT3502" ∧
  get_timeslots_for_module monday_catalogue "MT3501" = Return slots_a ∧
  get_timeslots_for_module monday_catalogue "MT3502" = Return slots_b ∧
  NoDup slots_a ∧ NoDup slots_b ∧ "10am Mon" ∈ slots_a ∧ "10am Mon" ∈ slots_b ∧
  (∀ t, t ∈ slots_a → t ∈ slots_b → t = "10am Mon") ∧
  @find_clashing_timeslots_and_modules elements_order
    [("MT3501", slots_a); ("MT3502", slots_b)] "Year 1" "S1" = Return [warning] ∧
  @find_timetable_clashes elements_order monday_catalogue two_module_student
  = Return (warning, "None") ∧
  @find_clashing_timeslots_and_modules elements_order
    [("MT3501", slots_a); ("MT3502", slots_b); ("MT3503", ["9am Fri"])] "Year 1" "S1"
  = Return [warning] ∧
  @find_timetable_clashes elements_order monday_catalogue monday_student
  = Return (warning, "None").
Proof.
  intros slots_a slots_b warning.
  assert (Hsem : "S1" = "S1" ∨ "S1" = "S2") by (by left).
  assert (Hab : "MT3501" ≠ "MT3502") by discriminate.
  assert (Ha : get_timeslots_for_module monday_catalogue "MT3501" = Return slots_a)
    by reflexivity.
  assert (Hb : get_timeslots_for_module monday_catalogue "MT3502" = Return slots_b)
    by reflexivity.
  assert (Hnd_a : NoDup slots_a) by (apply (bool_decide_unpack _); by vm_compute).
  assert (Hnd_b : NoDup slots_b) by (apply (bool_decide_unpack _); by vm_compute).
  assert (Hin_a : "10am Mon" ∈ slots_a) by left.
  assert (Hin_b : "10am Mon" ∈ slots_b) by left.
  assert (Honly : ∀ t, t ∈ slots_a → t ∈ slots_b → t = "10am Mon").
  { intros t Hta Htb. unfold slots_a, slots_b in *.
    apply elem_of_cons in Hta as [->|Hta]; [done|].
    apply list_elem_of_singleton in Hta as ->.
    apply elem_of_cons in Htb as [?|Htb]; [done|].
    apply list_elem_of_singleton in Htb. done. }
  refine (conj Hsem (conj Hab (conj Ha (conj Hb (conj Hnd_a (conj Hnd_b
            (conj Hin_a (conj Hin_b (conj Honly _))))))))).
  destruct (@one_shared_timeslot_one_warning elements_order monday_catalogue "Year 1" "S1"
              "MT3501" "MT3502" "10am Mon" slots_a slots_b
              Hsem Hab Ha Hb Hnd_a Hnd_b Hin_a Hin_b Honly)
    as [(found & Horder & Htwo & Hstudent & Hthird) _].
  assert (found = warning) as ->.
  { assert (Hrun : @find_clashing_timeslots_and_modules elements_order
                     [("MT3501", slots_a); ("MT3502", slots_b)] "Year 1" "S1"
                   = Return [warning]) by (by vm_compute).
    rewrite Hrun in Htwo. by injection Htwo. }
  split; [exact Htwo|]. split.
  - exact (Hstudent two_module_student "2023/2024" "2023/2024" eq_refl).
  - apply (Hthird monday_student "2023/2024" "2023/2024" "2023/2024" "MT3503" ["9am Fri"]);
      [discriminate|discriminate|reflexivity| | |reflexivity].
    + apply NoDup_singleton.
    + intros t Ht. apply list_elem_of_singleton in Ht as ->. unfold slots_a, slots_b.
      split; intros Hin; repeat (apply elem_of_cons in Hin as [Hin|Hin]; [discriminate|]);
        by apply elem_of_nil in Hin.
Defined.

(** C5, the claim as stated fails: the two lists share "10am Mon" and no
    other timeslot, but the first names "2pm Tue" twice, and the detector
    returns two warnings. *)
Lemma repeated_timeslot_two_warnings :
  let slots_a := ["10am Mon"; "2pm Tue"; "2pm Tue"] in
  let slots_b := ["10am Mon"; "12pm Thu"] in
  get_timeslots_for_module repeated_slot_catalogue "MT3501" = Return slots_a ∧
  get_timeslots_for_module repeated_slot_catalogue "MT3502" = Return slots_b ∧
  (∀ t, t ∈ slots_a → t ∈ slots_b → t = "10am Mon") ∧
  @find_clashing_timeslots_and_modules elements_order
    [("MT3501", slots_a); ("MT3502", slots_b)] "Year 1" "S1"
  = Return ["Clash for Year 1 S1 between modules MT3501 and MT3502 at 10am Mon";
            "Clash for Year 1 S1 between modules MT3501 at 10am Mon and 2pm Tue"] ∧
  @find_timetable_clashes elements_order repeated_slot_catalogue two_module_student
  = Return ("Clash for Year 1 S1 between modules MT3501 and MT3502 at 10am Mon, " +:+
            "Clash for Year 1 S1 between modules MT3501 at 10am Mon and 2pm Tue", "None").
Proof.
  intros slots_a slots_b.
  split; [reflexivity|]. split; [reflexivity|]. split; [|split; by vm_compute].
  intros t Hta Htb. unfold slots_a, slots_b in *.
  apply elem_of_cons in Htb as [->|Htb]; [done|].
  apply list_elem_of_singleton in Htb as ->.
  apply elem_of_cons in Hta as [?|Hta]; [done|].
  apply elem_of_cons in Hta as [?|Hta]; [done|].
  apply list_elem_of_singleton in Hta. done.
Qed.

(** C6, the claim as stated fails: MT4001 meets on Monday at ten in odd
    weeks and MT4002 on Monday at ten in even weeks, both in Semester 1 of
    Year 1, and no clash is reported. *)
Lemma odd_and_even_weeks_not_reported :
  get_timeslots_for_module alternating_catalogue "MT4001"
  = Return ["10am Mon (odd weeks)"; "10am Wed"; "10am Fri"] ∧
  get_timeslots_for_module alternating_catalogue "MT4002"
  = Return ["10am Mon (even weeks)"; "10am Tue"; "10am Thu"] ∧
  (Choices.Module_code <$> honours_module_choices alternating_student) = ["MT4001"; "MT4002"] ∧
  @find_timetable_clashes elements_order alternating_catalogue alternating_student
  = Return ("None", "None").
Proof. repeat split; by vm_compute. Qed.

(** ** Replacing module codes *)

Lemma startswith_nil (s : string) : startswith s "" = true.
Proof. by destruct s. Qed.

Lemma startswith_cons (x y : ascii) (s p : string) :
  startswith (String x s) (String y p) = Ascii.eqb y x && startswith s p.
Proof. cbn [startswith]. by destruct (Ascii.eqb y x). Qed.

Lemma contains_cons (x : ascii) (s sub : string) :
  contains (String x s) sub = startswith (String x s) sub || contains s sub.
Proof. reflexivity. Qed.

(** A text in which [old] does not occur is left as it is. *)
Lemma replace_go_absent (old new s : string) :
  contains s old = false → replace_go old new 0 s = s.
Proof.
  induction s as [|x s IH]; [done|].
  rewrite contains_cons. intros [Hhead Htail]%orb_false_elim.
  cbn [replace_go]. rewrite Hhead. by rewrite IH.
Qed.

Lemma replace_absent (s old new : string) :
  old ≠ "" → contains s old = false → replace s old new = s.
Proof.
  intros Hold Habsent. unfold replace.
  rewrite (str_eqb_false _ _ Hold). by apply replace_go_absent.
Qed.

Lemma code_like_tail (x : ascii) (d : string) :
  code_like (String x d) = true → d = "" ∨ code_like d = true.
Proof.
  destruct d as [|y d]; [by left|]. cbn [code_like].
  intros [_ H]%andb_true_iff. by right.
Qed.

(** A code-like text does not begin where [True] or [False], or one of
    their ends, begins. *)
Lemma code_like_not_in_bool (b : bool) (w r d : string) :
  w ≠ "" → (∃ pre, str_of_bool b = pre +:+ w) →
  code_like d = true → startswith (w +:+ r) d = false.
Proof.
  intros Hw [pre Hpre] Hd.
  assert (Hcases : w = "True" ∨ w = "rue" ∨ w = "ue" ∨ w = "e" ∨
                   w = "False" ∨ w = "alse" ∨ w = "lse" ∨ w = "se").
  { destruct b; cbn [str_of_bool] in Hpre.
    - do 4 (destruct pre as [|? pre];
            [rewrite str_app_nil_l in Hpre; subst; auto 10|];
            rewrite str_app_cons in Hpre; injection Hpre as ? Hpre).
      symmetry in Hpre. by apply str_app_eq_nil in Hpre as [_ ?].
    - do 5 (destruct pre as [|? pre];
            [rewrite str_app_nil_l in Hpre; subst; auto 10|];
            rewrite str_app_cons in Hpre; injection Hpre as ? Hpre).
      symmetry in Hpre. by apply str_app_eq_nil in Hpre as [_ ?]. }
  destruct d as [|d0 d]; [done|].
  assert (Hd0 : is_upper d0 || is_digit d0 = true).
  { destruct d as [|d1 d]; cbn [code_like] in Hd.
    - by rewrite Hd, orb_true_r.
    - by apply andb_true_iff in Hd as [? _]. }
  assert (Hsecond : ∀ c : ascii,
            is_upper c || is_digit c = false → is_digit d0 = false →
            ∀ rest, startswith (String c rest) d = false).
  { intros c Hc Hdig rest. destruct d as [|d1 d].
    - cbn [code_like] in Hd. congruence.
    - cbn [code_like] in Hd. apply andb_true_iff in Hd as [_ Hd].
      assert (Hd1 : is_upper d1 || is_digit d1 = true).
      { destruct d as [|d2 d]; cbn [code_like] in Hd.
        - by rewrite Hd, orb_true_r.
        - by apply andb_true_iff in Hd as [? _]. }
      rewrite startswith_cons.
      destruct (Ascii.eqb_spec d1 c) as [->|]; [congruence|done]. }
  destruct Hcases as [->|[->|[->|[->|[->|[->|[->| ->]]]]]]];
    rewrite !str_app_cons, startswith_cons;
    match goal with
    | |- Ascii.eqb d0 ?c && _ = false =>
        destruct (Ascii.eqb_spec d0 c) as [->|]; [|done]
    end; cbn [andb];
    first [ discriminate Hd0 | by apply Hsecond ].
Qed.

Lemma module_code_shape (c : string) :
  match_module_code c = Some c →
  ∃ a c', c = String a c' ∧ code_like c' = true ∧ code_like c = true ∧ c' ≠ "".
Proof.
  unfold match_module_code.
  destruct c as [|a [|b [|d1 [|d2 [|d3 [|d4 rest]]]]]]; try discriminate.
  destruct (is_upper a && is_upper b && is_digit d1 && is_digit d2 && is_digit d3
            && is_digit d4) eqn:Hshape; [|discriminate].
  intros [= <-].
  apply andb_true_iff in Hshape as [Hshape H4].
  apply andb_true_iff in Hshape as [Hshape H3].
  apply andb_true_iff in Hshape as [Hshape H2].
  apply andb_true_iff in Hshape as [Hshape H1].
  apply andb_true_iff in Hshape as [Ha Hb].
  exists a, (String b (String d1 (String d2 (String d3 (String d4 ""))))).
  split; [done|]. cbn [code_like].
  rewrite Ha, Hb, H1, H2, H3, H4. cbn. by rewrite !orb_true_r.
Qed.

Section ReplaceCode.
Context (c : string) (b : bool) (Hcode : match_module_code c = Some c).

(** Where the text after the replacement begins like a code, the text
    before it did. *)
Lemma replace_go_code_prefix (s d : string) :
  code_like d = true →
  startswith (replace_go c (str_of_bool b) 0 s) d = true → startswith s d = true.
Proof.
  revert d. induction s as [|x s IH]; intros d Hd.
  - by destruct d.
  - cbn [replace_go]. destruct (startswith (String x s) c) eqn:Hmatch.
    + rewrite (code_like_not_in_bool b (str_of_bool b) _ d); [done| |by exists ""|done].
      by destruct b.
    + destruct d as [|d0 d]; [done|]. rewrite !startswith_cons.
      intros [Hx Hrest]%andb_true_iff. rewrite Hx. cbn [andb].
      destruct (code_like_tail d0 d Hd) as [->|Hd']; [apply startswith_nil|].
      by apply IH.
Qed.

Lemma contains_after_word (w r : string) :
  (∀ pre w', w = pre +:+ w' → w' ≠ "" → startswith (w' +:+ r) c = false) →
  contains r c = false → contains (w +:+ r) c = false.
Proof.
  intros Hw Hr. induction w as [|x w IH]; [done|].
  rewrite str_app_cons, contains_cons. apply orb_false_intro.
  - rewrite <- str_app_cons. by apply (Hw "").
  - apply IH. intros pre w' -> Hw'. by apply (Hw (String x pre)).
Qed.

(** After the replacement the code does not occur any more. *)
Lemma replace_go_code_gone (s : string) (skip : nat) :
  contains (replace_go c (str_of_bool b) skip s) c = false.
Proof.
  destruct (module_code_shape c Hcode) as (a & c' & Hc & Hc' & Hlike & Hne).
  revert skip. induction s as [|x s IH]; intros skip.
  - cbn. rewrite Hc. reflexivity.
  - cbn [replace_go]. destruct skip as [|skip]; [|apply IH].
    destruct (startswith (String x s) c) eqn:Hmatch.
    + apply contains_after_word; [|apply IH].
      intros pre w' Hpre Hw'. apply (code_like_not_in_bool b); eauto.
    + rewrite contains_cons. apply orb_false_intro; [|apply IH].
      rewrite Hc in Hmatch |- *. rewrite startswith_cons in Hmatch |- *.
      destruct (Ascii.eqb a x); [|done]. cbn [andb] in *.
      destruct (startswith (replace_go (String a c') (str_of_bool b) 0 s) c') eqn:Hafter;
        [|done].
      rewrite <- Hc in Hafter.
      apply replace_go_code_prefix in Hafter; [|done]. congruence.
Qed.

Lemma module_code_nonempty : c ≠ "".
Proof. destruct (module_code_shape c Hcode) as (a & c' & -> & _). discriminate. Qed.

Lemma replace_code_gone (s : string) : contains (replace s c (str_of_bool b)) c = false.
Proof.
  unfold replace. rewrite (str_eqb_false _ _ module_code_nonempty).
  apply replace_go_code_gone.
Qed.

Lemma replace_code_twice (s : string) (b' : bool) :
  replace (replace s c (str_of_bool b)) c (str_of_bool b') = replace s c (str_of_bool b).
Proof. apply replace_absent; [apply module_code_nonempty|apply replace_code_gone]. Qed.

End ReplaceCode.

(** The codes that the pattern finds are module codes. *)
Lemma findall_go_module_code (s : string) (skip : nat) (c : string) :
  c ∈ findall_go skip s → match_module_code c = Some c.
Proof.
  revert skip. induction s as [|x s IH]; intros skip; cbn [findall_go].
  - intros Hin. by apply elem_of_nil in Hin.
  - destruct skip as [|skip]; [|apply IH].
    destruct (match_module_code (String x s)) as [m|] eqn:Hm; [|apply IH].
    intros [->|Hin]%elem_of_cons; [|by apply IH in Hin].
    unfold match_module_code in Hm |- *.
    destruct s as [|b [|d1 [|d2 [|d3 [|d4 rest]]]]]; try discriminate.
    destruct (is_upper x && is_upper b && is_digit d1 && is_digit d2 && is_digit d3
              && is_digit d4) eqn:Hshape; [|discriminate].
    injection Hm as <-. by rewrite Hshape.
Qed.

Lemma replace_str_of_bool (s c : string) (b : bool) :
  (if b then replace s c "True" else replace s c "False") = replace s c (str_of_bool b).
Proof. by destruct b. Qed.

(** C4 (as amended).  In the general evaluation of a prerequisite text,
    each turn of the loop over the codes found by the pattern replaces all
    occurrences of the code by one value.  When the code is a word of the
    text and the first such word comes right after the word "co-requisite",
    the value is [True] exactly when the code is among the previously or the
    concurrently taken modules, and no occurrence is left for the later
    steps of the turn, which delete "co-requisite " and replace again (to no
    effect, unless the deletion has put a new occurrence together).  In
    every other case the value is [True] exactly when the code is among the
    previously taken modules. *)
Theorem substitution_by_qualifier (prerequisites : string)
    (previously_taken_modules simultaneously_taken_modules : list string)
    (parsed_prerequisites module_code : string) :
  module_code ∈ findall_module_codes prerequisites →
  let prerequisite_list := str_split prerequisites in
  let before := bool_decide (module_code ∈ previously_taken_modules) in
  let before_or_with :=
    bool_decide (module_code ∈ previously_taken_modules ++ simultaneously_taken_modules) in
  (corequisite_word prerequisite_list module_code →
     let substituted := replace parsed_prerequisites module_code (str_of_bool before_or_with) in
     contains substituted module_code = false ∧
     substitute_module_code prerequisite_list previously_taken_modules
       simultaneously_taken_modules parsed_prerequisites module_code
     = replace (replace substituted "co-requisite " "") module_code (str_of_bool before) ∧
     (contains (replace substituted "co-requisite " "") module_code = false →
      substitute_module_code prerequisite_list previously_taken_modules
        simultaneously_taken_modules parsed_prerequisites module_code
      = replace substituted "co-requisite " "")) ∧
  (¬ corequisite_word prerequisite_list module_code →
     substitute_module_code prerequisite_list previously_taken_modules
       simultaneously_taken_modules parsed_prerequisites module_code
     = replace parsed_prerequisites module_code (str_of_bool before)).
Proof.
  intros Hfound prerequisite_list before before_or_with.
  apply findall_go_module_code in Hfound as Hcode.
  assert (Hunion : mem module_code previously_taken_modules ||
                   mem module_code simultaneously_taken_modules = before_or_with).
  { unfold mem, before_or_with.
    apply eq_bool_prop_intro. rewrite orb_True, !bool_decide_spec, elem_of_app. tauto. }
  unfold substitute_module_code. fold prerequisite_list.
  rewrite Hunion. fold (mem module_code previously_taken_modules).
  change (mem module_code previously_taken_modules) with before.
  rewrite !replace_str_of_bool. split.
  - intros (i & Hindex & Hword). rewrite Hindex. cbn [Nat.ltb Nat.leb].
    rewrite Nat.sub_1_r. cbn [Nat.pred]. rewrite Hword. cbn [default from_option].
    rewrite String.eqb_refl, ?replace_str_of_bool.
    split; [by apply replace_code_gone|]. split; [done|].
    intros Hgone. apply replace_absent; [by apply module_code_nonempty|done].
  - intros Hnot. destruct (list_index module_code prerequisite_list) as [[|i]|] eqn:Hindex.
    + by rewrite ?replace_str_of_bool.
    + cbn [Nat.ltb Nat.leb]. rewrite Nat.sub_1_r. cbn [Nat.pred].
      destruct (String.eqb_spec (default "" (prerequisite_list !! i)) "co-requisite")
        as [Hword|Hword].
      * exfalso. apply Hnot. exists i. split; [done|].
        destruct (prerequisite_list !! i); [by cbn in Hword; subst|discriminate].
      * rewrite ?replace_str_of_bool. by apply replace_code_twice.
    + by rewrite ?replace_str_of_bool.
Qed.

(** C4 at the text "MT2501 and co-requisite MT2503", for a student who has
    passed MT2501 and takes MT2503 alongside. *)
Lemma substitution_by_qualifier_example :
  let prerequisites := "MT2501 and co-requisite MT2503" in
  "MT2503" ∈ findall_module_codes prerequisites ∧
  corequisite_word (str_split prerequisites) "MT2503" ∧
  ¬ corequisite_word (str_split prerequisites) "MT2501" ∧
  substitute_module_code (str_split prerequisites) ["MT2501"] ["MT2503"]
    "True and co-requisite MT2503" "MT2503" = "True and True" ∧
  parse_prerequisites prerequisites ["MT2501"] ["MT2503"] = "True and True" ∧
  parse_prerequisites prerequisites ["MT2501"] [] = "True and False".
Proof.
  intros prerequisites.
  assert (Hfound : "MT2503" ∈ findall_module_codes prerequisites) by (right; left).
  assert (Hword : corequisite_word (str_split prerequisites) "MT2503")
    by (exists 2; split; reflexivity).
  assert (Hnot : ¬ corequisite_word (str_split prerequisites) "MT2501")
    by (intros (i & Hi & _); discriminate).
  split; [exact Hfound|]. split; [exact Hword|]. split; [exact Hnot|].
  split; [|split; reflexivity].
  destruct (substitution_by_qualifier prerequisites ["MT2501"] ["MT2503"]
              "True and co-requisite MT2503" "MT2503" Hfound) as [Hqualified _].
  destruct (Hqualified Hword) as (_ & _ & Hresult).
  rewrite Hresult; reflexivity.
Defined.

(** C4, the claim as stated fails: in "MT2501 and (MT2502 or co-requisite
    MT2503)" the code MT2503 comes right after the qualifier and the student
    takes MT2503 alongside, but the code is followed by a bracket, is not a
    word of the text, and is replaced by [False]. *)
Lemma corequisite_before_bracket :
  let prerequisites := "MT2501 and (MT2502 or co-requisite MT2503)" in
  str_split prerequisites = ["MT2501"; "and"; "(MT2502"; "or"; "co-requisite"; "MT2503)"] ∧
  "MT2503" ∈ ["MT2501"] ++ ["MT2503"] ∧
  parse_prerequisites prerequisites ["MT2501"] ["MT2503"]
  = "True and (False or co-requisite False)".
Proof.
  split; [reflexivity|]. split; [|reflexivity]. right. left.
Qed.

(** ** Students as the forms give them *)

(** A student read from a form has the programme name of the records and
    the honours years that go with it. *)
Lemma parse_excel_form_programme (sheet : Form) (data_bases : list (list Records.row))
    (student : Student) :
  parse_excel_form sheet data_bases = Return (inl student) →
  ∃ years, programme_years (programme_name student) = Some (years, expected_honours_years student).
Proof.
  unfold parse_excel_form.
  destruct (D5 sheet) as [|student_id| |]; try discriminate.
  destruct (find_student_data_base student_id data_bases) as [rows|]; [|discriminate].
  destruct (module_years rows) as [years|]; cbn [mbind outcome_bind]; [|discriminate].
  destruct (the_only (Records.Programme_name <$> rows)) as [programme|];
    cbn [mbind outcome_bind]; [|discriminate].
  destruct (the_only (Records.Given_names <$> rows)) as [given|];
    cbn [mbind outcome_bind]; [|discriminate].
  destruct (the_only (Records.Family_name <$> rows)) as [family|];
    cbn [mbind outcome_bind]; [|discriminate].
  destruct (the_only (Records.Email <$> rows)) as [mail|];
    cbn [mbind outcome_bind]; [|discriminate].
  destruct (programme_years programme) as [[n expected]|] eqn:Hprogramme; [|discriminate].
  destruct (for_each _ _ _) as [module_table|]; cbn [mbind outcome_bind]; [|discriminate].
  intros [= <-]. cbn [programme_name expected_honours_years new_Student]. eauto.
Qed.

Lemma parse_excel_form_mathematics (sheet : Form) (data_bases : list (list Records.row))
    (student : Student) :
  parse_excel_form sheet data_bases = Return (inl student) →
  programme_name student = "Bachelor of Science (Honours) Mathematics" →
  expected_honours_years student = 2%Z.
Proof.
  intros Hparse Hprogramme.
  destruct (parse_excel_form_programme sheet data_bases student Hparse) as [years Hyears].
  rewrite Hprogramme in Hyears. by injection Hyears.
Qed.

(** Every form of a student of the implemented programme: when no programme
    requirement is unmet, there is a recommendation to the adviser. *)
Lemma processed_form_still_advised `{HashOrder} (module_catalogue : list Catalogue.row)
    (filename : string) (sheet : Form) (data_bases : list (list Records.row))
    (summary : Summary) :
  process_form_file module_catalogue filename sheet data_bases = Return summary →
  Programme summary = "Bachelor of Science (Honours) Mathematics" →
  Unmet_programme_requirements summary = "None" →
  Adviser_recommendations summary ≠ "None".
Proof.
  unfold process_form_file.
  destruct (parse_excel_form sheet data_bases) as [[student|warning]|] eqn:Hparse;
    cbn [mbind outcome_bind]; [| |discriminate].
  - intros Hrun Hprogramme Hnone.
    assert (Hname : programme_name student = "Bachelor of Science (Honours) Mathematics").
    { unfold process_student in Hrun.
      destruct (find_missing_programme_requirements _ _) as [[? ?]|];
        cbn [mbind outcome_bind] in Hrun; [|discriminate].
      destruct (find_missing_prerequisites _ _) as [[? ?]|];
        cbn [mbind outcome_bind] in Hrun; [|discriminate].
      destruct (find_not_running_modules _ _) as [[? ?]|];
        cbn [mbind outcome_bind] in Hrun; [|discriminate].
      destruct (find_timetable_clashes _ _) as [[? ?]|];
        cbn [mbind outcome_bind] in Hrun; [|discriminate].
      injection Hrun as <-. exact Hprogramme. }
    assert (Hexp : expected_honours_years student ≠ 3%Z).
    { rewrite (parse_excel_form_mathematics sheet data_bases student Hparse Hname). lia. }
    revert Hnone. generalize dependent summary. intros summary Hrun _ Hnone.
    unfold process_student in Hrun.
    destruct (find_missing_programme_requirements module_catalogue student)
      as [[missed_programme programme_advice]|e] eqn:Hfind;
      cbn [mbind outcome_bind] in Hrun; [|discriminate].
    destruct (find_missing_prerequisites module_catalogue student) as [[a1 a2]|];
      cbn [mbind outcome_bind] in Hrun; [|discriminate].
    destruct (find_not_running_modules module_catalogue student) as [[b1 b2]|];
      cbn [mbind outcome_bind] in Hrun; [|discriminate].
    destruct (find_timetable_clashes module_catalogue student) as [[c1 c2]|];
      cbn [mbind outcome_bind] in Hrun; [|discriminate].
    injection Hrun as <-.
    cbn [Unmet_programme_requirements Adviser_recommendations] in *.
    eapply programme_advice_not_None; eauto.
  - destruct (if String.eqb warning "No student ID" then _ else _) as [message|];
      cbn [mbind outcome_bind]; [|discriminate].
    intros [= <-]. discriminate.
Qed.

(** On a programme without implemented rules the programme findings are
    never ["None"]. *)
Lemma other_programme_finding `{HashOrder} (module_catalogue : list Catalogue.row)
    (student : Student) (missed advice : string) :
  programme_name student ≠ "Bachelor of Science (Honours) Mathematics" →
  find_missing_programme_requirements module_catalogue student = Return (missed, advice) →
  missed ≠ "None".
Proof.
  intros Hprog. unfold find_missing_programme_requirements.
  rewrite (str_eqb_false _ _ Hprog). cbn [mbind outcome_bind].
  intros [= <- _].
  eapply (merge_list_to_long_string_finding _ "No programme requirements available");
    [|done..].
  apply elem_of_app. right. left.
Qed.

(** * Further properties *)

(** ** More on strings *)

Lemma startswith_refl (s : string) : startswith s s = true.
Proof. induction s as [|x s IH]; [done|]. simpl. by rewrite Ascii.eqb_refl. Qed.

Lemma startswith_app (a b : string) : startswith (a +:+ b) a = true.
Proof.
  induction a as [|x a IH]; [by destruct b|].
  rewrite str_app_cons. simpl. by rewrite Ascii.eqb_refl.
Qed.

Lemma contains_startswith (s x : string) : startswith s x = true → contains s x = true.
Proof. intros Hs. destruct s; cbn [contains]; by rewrite Hs. Qed.

Lemma contains_refl_app (x b : string) : contains (x +:+ b) x = true.
Proof. apply contains_startswith, startswith_app. Qed.

Lemma contains_app_r (a b x : string) :
  contains b x = true → contains (a +:+ b) x = true.
Proof.
  intros Hb. induction a as [|c a IH]; [done|].
  rewrite str_app_cons. simpl. rewrite IH. apply orb_true_r.
Qed.

Lemma contains_nil (x : string) : x ≠ "" → contains "" x = false.
Proof. by destruct x. Qed.

(** ** Merging merged findings *)

Lemma contains_continued (items : list string) (x : string) :
  x ∈ items → contains (continued items) x = true.
Proof.
  induction items as [|y items IH]; [by intros ?%elem_of_nil|].
  intros [->|Hx]%elem_of_cons; cbn [continued].
  - apply (contains_app_r ", "). apply contains_refl_app.
  - apply (contains_app_r ", "), contains_app_r. by apply IH.
Qed.

Lemma contains_join (items : list string) (x : string) :
  x ∈ items → contains (join ", " items) x = true.
Proof.
  destruct items as [|y items]; [by intros ?%elem_of_nil|].
  rewrite join_continued.
  intros [->|Hx]%elem_of_cons.
  - apply contains_refl_app.
  - by apply contains_app_r, contains_continued.
Qed.

(** X1.  No finding is lost: every entry other than ["None"] can be read in
    the merged text. *)
Theorem merge_list_to_long_string_keeps_findings (a_list : list string) (item : string) :
  item ∈ a_list → item ≠ "None" →
  contains (merge_list_to_long_string a_list) item = true.
Proof.
  intros Hin Hne.
  assert (Hc : contains (joined_findings a_list) item = true).
  { apply contains_join. by apply list_elem_of_filter. }
  rewrite merge_list_to_long_string_eq.
  destruct (String.eqb_spec (joined_findings a_list) "") as [He|]; [|done].
  rewrite He in Hc. destruct item; [done|discriminate].
Qed.

(** X1 at the list of A, None and B: B can be read in the merged text. *)
Lemma merge_list_to_long_string_keeps_findings_example :
  "B" ∈ ["A"; "None"; "B"] ∧ "B" ≠ "None" ∧
  contains (merge_list_to_long_string ["A"; "None"; "B"]) "B" = true.
Proof.
  assert (Hin : "B" ∈ ["A"; "None"; "B"]) by (do 2 right; left).
  assert (Hne : "B" ≠ "None") by discriminate.
  exact (conj Hin (conj Hne
           (merge_list_to_long_string_keeps_findings ["A"; "None"; "B"] "B" Hin Hne))).
Defined.

Lemma join_app_nonempty (sep : string) (l1 l2 : list string) :
  l1 ≠ [] → l2 ≠ [] → join sep (l1 ++ l2) = join sep l1 +:+ sep +:+ join sep l2.
Proof.
  intros H1 H2. induction l1 as [|x l1 IH]; [done|].
  destruct l1 as [|y l1].
  - destruct l2; [done|]. reflexivity.
  - change (join sep ((x :: y :: l1) ++ l2))
      with (x +:+ sep +:+ join sep ((y :: l1) ++ l2)).
    rewrite IH by done.
    change (join sep (x :: y :: l1)) with (x +:+ sep +:+ join sep (y :: l1)).
    by rewrite !str_app_assoc.
Qed.

Lemma join_concat (sep : string) (ls : list (list string)) :
  Forall (λ l, l ≠ []) ls → join sep (join sep <$> ls) = join sep (concat ls).
Proof.
  induction 1 as [|l ls Hl Hls IH]; [done|].
  destruct ls as [|l' ls].
  - simpl. by rewrite app_nil_r.
  - change (join sep (join sep <$> l :: l' :: ls))
      with (join sep l +:+ sep +:+ join sep (join sep <$> l' :: ls)).
    rewrite IH. cbn [concat].
    rewrite (join_app_nonempty sep l) ; [done|done|].
    apply Forall_cons in Hls as [Hl' _]. destruct l'; [done|discriminate].
Qed.

(** The joined text of one or more findings, none of them empty, is
    neither empty nor ["None"]. *)
Lemma joined_findings_proper (l : list string) :
  "" ∉ l → filter (λ item, item ≠ "None") l ≠ [] →
  joined_findings l ≠ "" ∧ joined_findings l ≠ "None".
Proof.
  intros Hempty Hf. unfold joined_findings.
  destruct (filter (λ item : string, item ≠ "None") l) as [|y [|z rest]] eqn:Hfilter;
    [done| |].
  - assert (Hy : y ∈ filter (λ item : string, item ≠ "None") l) by (rewrite Hfilter; left).
    apply list_elem_of_filter in Hy as [Hy1 Hy2]. simpl.
    split; [|done]. by intros ->.
  - rewrite join_continued.
    assert (Hc : has_comma (y +:+ continued (z :: rest)) = true).
    { rewrite has_comma_app. simpl continued. rewrite has_comma_app.
      simpl. by rewrite orb_true_r. }
    split; intros He; rewrite He in Hc; discriminate.
Qed.

Lemma merge_list_to_long_string_proper (l : list string) :
  "" ∉ l →
  merge_list_to_long_string l
  = if decide (filter (λ item, item ≠ "None") l = []) then "None" else joined_findings l.
Proof.
  intros Hempty. rewrite merge_list_to_long_string_eq.
  destruct (decide _) as [He|Hne].
  - unfold joined_findings. by rewrite He.
  - destruct (joined_findings_proper l Hempty Hne) as [H1 _].
    by rewrite (str_eqb_false _ _ H1).
Qed.

Lemma filter_merged (ls : list (list string)) :
  "" ∉ concat ls →
  filter (λ item, item ≠ "None") (merge_list_to_long_string <$> ls)
  = join ", " <$>
      filter (λ l, l ≠ []) (filter (λ item : string, item ≠ "None") <$> ls).
Proof.
  induction ls as [|l ls IH]; [done|].
  cbn [concat fmap list_fmap]. intros Hempty.
  assert (Hl : "" ∉ l) by (intros ?; apply Hempty, elem_of_app; by left).
  assert (Hls : "" ∉ concat ls) by (intros ?; apply Hempty, elem_of_app; by right).
  rewrite (merge_list_to_long_string_proper l Hl).
  destruct (decide (filter (λ item : string, item ≠ "None") l = [])) as [He|Hne].
  - rewrite filter_cons_False by (intros ?; done).
    rewrite (filter_cons_False (λ l, l ≠ [])) by (intros ?; done).
    by apply IH.
  - destruct (joined_findings_proper l Hl Hne) as [_ H2].
    rewrite filter_cons_True by done.
    rewrite (filter_cons_True (λ l, l ≠ [])) by done.
    cbn [fmap list_fmap]. f_equal. by apply IH.
Qed.

Lemma concat_filter_nonempty (ls : list (list string)) :
  concat (filter (λ l, l ≠ []) ls) = concat ls.
Proof.
  induction ls as [|l ls IH]; [done|].
  destruct l as [|x l].
  - rewrite filter_cons_False by (intros ?; done). exact IH.
  - rewrite filter_cons_True by done. cbn [concat]. by rewrite IH.
Qed.

Lemma filter_concat (P : string → Prop) `{∀ x, Decision (P x)} (ls : list (list string)) :
  filter P (concat ls) = concat (filter P <$> ls).
Proof.
  induction ls as [|l ls IH]; [done|].
  cbn [concat fmap list_fmap]. by rewrite filter_app, IH.
Qed.

(** X2.  Merging texts that are themselves merged gives the same text as
    merging all their entries at once, as long as no entry is empty. This is
    how the findings of the single modules, and the recommendations of the
    four checks, end up in one text. *)
Theorem merge_list_to_long_string_flat (lists : list (list string)) :
  "" ∉ concat lists →
  merge_list_to_long_string (merge_list_to_long_string <$> lists)
  = merge_list_to_long_string (concat lists).
Proof.
  intros Hempty.
  rewrite !merge_list_to_long_string_eq.
  assert (Hj : joined_findings (merge_list_to_long_string <$> lists)
               = joined_findings (concat lists)).
  { unfold joined_findings at 1. rewrite filter_merged by done.
    rewrite join_concat by (apply Forall_forall; by intros l [? _]%list_elem_of_filter).
    rewrite concat_filter_nonempty. unfold joined_findings.
    by rewrite filter_concat. }
  by rewrite Hj.
Qed.

(** X2 at three lists, one of them empty. *)
Lemma merge_list_to_long_string_flat_example :
  ("" ∉ concat [["A"; "None"]; []; ["B"; "C"]]) ∧
  merge_list_to_long_string ["A"; "None"; "B, C"] = "A, B, C".
Proof.
  assert (Hempty : "" ∉ concat [["A"; "None"]; []; ["B"; "C"]]).
  { cbn. rewrite !elem_of_cons, elem_of_nil. intros [|[|[|[|[]]]]]; discriminate. }
  split; [exact Hempty|].
  exact (merge_list_to_long_string_flat [["A"; "None"]; []; ["B"; "C"]] Hempty).
Defined.

(** ** Reading the timetable column *)

Lemma rev_app_rev_app (w a b : string) :
  String.rev_app (String.rev_app w a) b = String.rev_app a (w +:+ b).
Proof.
  revert a b. induction w as [|x w IH]; intros a b; [done|].
  cbn [String.rev_app]. rewrite IH. by rewrite str_app_cons.
Qed.

Lemma rev_rev (w : string) : String.rev (String.rev w) = w.
Proof. unfold String.rev. rewrite rev_app_rev_app. cbn. apply str_app_nil_r. Qed.

Lemma rev_app_append (a b acc : string) :
  String.rev_app (a +:+ b) acc = String.rev_app b (String.rev_app a acc).
Proof.
  revert acc. induction a as [|x a IH]; intros acc; [done|].
  rewrite str_app_cons. cbn [String.rev_app]. apply IH.
Qed.

Lemma rev_app_acc (a acc : string) : String.rev_app a acc = String.rev a +:+ acc.
Proof.
  unfold String.rev. revert acc. induction a as [|x a IH]; intros acc; [done|].
  cbn [String.rev_app]. rewrite IH, (IH (String x "")).
  by rewrite str_app_assoc.
Qed.

Lemma rev_append (a b : string) : String.rev (a +:+ b) = String.rev b +:+ String.rev a.
Proof. unfold String.rev at 1. rewrite rev_app_append. apply rev_app_acc. Qed.

Lemma rev_eq_nil (a : string) : String.rev a = "" → a = "".
Proof. intros Hr. rewrite <- (rev_rev a), Hr. done. Qed.

Lemma endswith_comma (s : string) : endswith (s +:+ ",") "," = true.
Proof.
  unfold endswith. rewrite rev_append. change (String.rev ",") with ",".
  rewrite str_app_cons, str_app_nil_l. simpl. apply startswith_nil.
Qed.

Lemma endswith_app_r (a d p : string) :
  String.length p ≤ String.length d → endswith (a +:+ d) p = endswith d p.
Proof.
  intros Hlen. unfold endswith. rewrite rev_append.
  apply startswith_app_l.
  assert (Hl : ∀ s acc, String.length (String.rev_app s acc)
                        = String.length s + String.length acc).
  { induction s as [|x s IH]; intros acc; [done|].
    cbn [String.rev_app]. rewrite IH. simpl. lia. }
  unfold String.rev. rewrite !Hl. simpl. lia.
Qed.

Lemma drop_last_comma (s : string) : drop_last (s +:+ ",") = s.
Proof.
  induction s as [|x s IH]; [done|].
  rewrite str_app_cons. cbn [drop_last]. rewrite IH.
  destruct s; reflexivity.
Qed.

Lemma split_go_word_some (w c s : string) :
  no_space w = true →
  split_go (Some c) (w +:+ s) = split_go (Some (String.rev_app w c)) s.
Proof.
  revert c. induction w as [|x w IH]; intros c Hw; [done|].
  cbn [no_space] in Hw. apply andb_true_iff in Hw as [Hx Hw].
  rewrite str_app_cons. cbn [split_go String.rev_app].
  apply negb_true_iff in Hx. rewrite Hx. cbn [default]. by apply IH.
Qed.

Lemma split_go_word (w s : string) :
  is_word w = true → split_go None (w +:+ s) = split_go (Some (String.rev w)) s.
Proof.
  unfold is_word. intros [Hne Hw]%andb_true_iff.
  destruct w as [|x w]; [done|].
  cbn [no_space] in Hw. apply andb_true_iff in Hw as [Hx Hw].
  rewrite str_app_cons. cbn [split_go].
  apply negb_true_iff in Hx. rewrite Hx. cbn [default].
  by rewrite split_go_word_some.
Qed.

Lemma str_split_word (w : string) : is_word w = true → str_split w = [w].
Proof.
  intros Hw. unfold str_split. rewrite <- (str_app_nil_r w) at 1.
  rewrite split_go_word by done. cbn. by rewrite rev_rev.
Qed.

Lemma str_split_word_blank (w s : string) :
  is_word w = true → str_split (w +:+ " " +:+ s) = w :: str_split s.
Proof.
  intros Hw. unfold str_split. rewrite split_go_word by done.
  rewrite str_app_cons, str_app_nil_l. cbn. by rewrite rev_rev.
Qed.

Lemma no_space_app (a b : string) : no_space (a +:+ b) = no_space a && no_space b.
Proof.
  induction a as [|x a IH]; [done|].
  rewrite str_app_cons. cbn [no_space]. rewrite IH. by rewrite andb_assoc.
Qed.

Lemma is_word_comma (d : string) : is_word d = true → is_word (d +:+ ",") = true.
Proof.
  unfold is_word. intros [Hne Hd]%andb_true_iff.
  rewrite no_space_app, Hd. destruct d; done.
Qed.

Lemma str_split_timetable_text (slots : list (string * string)) :
  Forall plain_timeslot slots → str_split (timetable_text slots) = timetable_words slots.
Proof.
  induction 1 as [|[t d] slots (Ht & Hd & _ & _) Hslots IH]; [done|].
  cbn [fst snd] in *.
  destruct slots as [|slot' slots].
  - change (timetable_text [(t, d)]) with (t +:+ " " +:+ d).
    rewrite str_split_word_blank by done. by rewrite str_split_word.
  - change (timetable_text ((t, d) :: slot' :: slots))
      with ((t +:+ " " +:+ d) +:+ ", " +:+ timetable_text (slot' :: slots)).
    replace ((t +:+ " " +:+ d) +:+ ", " +:+ timetable_text (slot' :: slots))
      with (t +:+ " " +:+ (d +:+ ",") +:+ " " +:+ timetable_text (slot' :: slots))
      by (by rewrite !str_app_assoc).
    rewrite str_split_word_blank by done.
    rewrite str_split_word_blank by (by apply is_word_comma).
    by rewrite IH.
Qed.

Section Timeslots.
Context (module_catalogue : list Catalogue.row).

Lemma remaining_timeslots_text (slots : list (string * string)) :
  Forall plain_timeslot slots →
  remaining_timeslots (timetable_words slots) = Return (timeslot_text <$> slots).
Proof.
  induction 1 as [|[t d] slots (Ht & Hd & _ & Hcomma) Hslots IH]; [done|].
  cbn [fst snd] in *.
  assert (Hlen : String.length "," ≤ String.length d).
  { unfold is_word in Hd. destruct d; [done|]. simpl. lia. }
  destruct slots as [|slot' slots].
  - cbn [timetable_words remaining_timeslots fst snd].
    replace (t +:+ " " +:+ d) with ((t +:+ " ") +:+ d) by (by rewrite str_app_assoc).
    rewrite endswith_app_r, Hcomma by done.
    cbn. unfold timeslot_text. cbn [fst snd]. by rewrite str_app_assoc.
  - change (timetable_words ((t, d) :: slot' :: slots))
      with (t :: (d +:+ ",") :: timetable_words (slot' :: slots)).
    cbn [remaining_timeslots]. rewrite IH.
    replace (t +:+ " " +:+ d +:+ ",") with ((t +:+ " " +:+ d) +:+ ",")
      by (by rewrite !str_app_assoc).
    rewrite endswith_comma, drop_last_comma. reflexivity.
Qed.

Lemma str_split_special_timetable :
  str_split "10am Wed (odd weeks), 10am Fri (odd weeks)"
  = ["10am"; "Wed"; "(odd"; "weeks),"; "10am"; "Fri"; "(odd"; "weeks)"].
Proof. vm_compute. reflexivity. Qed.

(** X3.  A timetable entry written as timeslots of a time and a day is read
    back as those timeslots. *)
Theorem get_timeslots_for_module_round_trip (module : string)
    (entry : Catalogue.row) (entries : list Catalogue.row)
    (slots : list (string * string)) :
  catalogue_entry module_catalogue module = entry :: entries →
  Catalogue.Timetable entry = Some (timetable_text slots) →
  slots ≠ [] →
  Forall plain_timeslot slots →
  get_timeslots_for_module module_catalogue module = Return (timeslot_text <$> slots).
Proof.
  intros Hentry Htimetable Hne Hplain.
  unfold get_timeslots_for_module. rewrite Hentry, Htimetable.
  pose proof (str_split_timetable_text slots Hplain) as Hwords.
  pose proof (remaining_timeslots_text slots Hplain) as Hrest.
  destruct slots as [|[t d] slots]; [done|].
  apply Forall_cons in Hplain as [(Ht & Hd & _ & Hcomma) Hplain].
  cbn [fst snd] in *.
  assert (Hlen : String.length "," ≤ String.length d).
  { unfold is_word in Hd. destruct d; [done|]. simpl. lia. }
  destruct (String.eqb_spec (timetable_text ((t, d) :: slots))
              "10am Wed (odd weeks), 10am Fri (odd weeks)") as [Heq|_].
  { exfalso. rewrite Heq, str_split_special_timetable in Hwords.
    destruct slots as [|[t' d'] slots]; [discriminate|].
    apply Forall_cons in Hplain as [(_ & _ & Hopen & _) _]. cbn [fst] in Hopen.
    assert (Ht' : t' = "(odd").
    { change (timetable_words ((t, d) :: (t', d') :: slots))
        with (t :: (d +:+ ",") :: timetable_words ((t', d') :: slots)) in Hwords.
      destruct slots; cbn [timetable_words fst snd] in Hwords; congruence. }
    by rewrite Ht' in Hopen. }
  rewrite Hwords.
  destruct slots as [|[t' d'] slots].
  - cbn [timetable_words fst snd length Nat.ltb Nat.leb andb index lookup list_lookup
         mbind outcome_bind remaining_timeslots].
    replace (t +:+ " " +:+ d) with ((t +:+ " ") +:+ d) by (by rewrite str_app_assoc).
    rewrite endswith_app_r, Hcomma by done.
    unfold timeslot_text. cbn [fst snd fmap list_fmap app]. by rewrite str_app_assoc.
  - apply Forall_cons in Hplain as [(_ & _ & Hopen & _) _]. cbn [fst] in Hopen.
    change (timetable_words ((t, d) :: (t', d') :: slots))
      with (t :: (d +:+ ",") :: timetable_words ((t', d') :: slots)) in *.
    assert (Hthird : (t :: (d +:+ ",") :: timetable_words ((t', d') :: slots)) !! 2%nat
                     = Some t') by (by destruct slots).
    rewrite Hthird. cbn [default from_option id]. rewrite Hopen, andb_false_r.
    cbn [index lookup list_lookup mbind outcome_bind].
    replace (t +:+ " " +:+ d +:+ ",") with ((t +:+ " " +:+ d) +:+ ",")
      by (by rewrite !str_app_assoc).
    rewrite endswith_comma, drop_last_comma.
    assert (Hlong : (2 <? length (t :: (d +:+ ",") :: timetable_words ((t', d') :: slots)))%nat
                    = true).
    { apply Nat.ltb_lt. destruct slots; simpl; lia. }
    rewrite Hlong. cbn [drop]. rewrite drop_0.
    cbn [remaining_timeslots] in Hrest.
    destruct (remaining_timeslots (timetable_words ((t', d') :: slots))) as [rest|];
      [|discriminate].
    cbn [mbind outcome_bind fmap outcome_fmap] in *.
    replace (t +:+ " " +:+ d +:+ ",") with ((t +:+ " " +:+ d) +:+ ",") in Hrest
      by (by rewrite !str_app_assoc).
    rewrite endswith_comma, drop_last_comma in Hrest.
    cbn [fmap list_fmap] in Hrest.
    injection Hrest as Hrest. rewrite Hrest. reflexivity.
Qed.

Lemma remaining_timeslots_parity (remaining_splits : list string) :
  if Nat.odd (length remaining_splits)
  then remaining_timeslots remaining_splits = Raise IndexError
  else ∃ timeslots, remaining_timeslots remaining_splits = Return timeslots ∧
                    length timeslots = Nat.div2 (length remaining_splits).
Proof.
  cut ((if Nat.odd (length remaining_splits)
        then remaining_timeslots remaining_splits = Raise IndexError
        else ∃ timeslots, remaining_timeslots remaining_splits = Return timeslots ∧
                          length timeslots = Nat.div2 (length remaining_splits)) ∧
       ∀ x, if Nat.odd (length (x :: remaining_splits))
            then remaining_timeslots (x :: remaining_splits) = Raise IndexError
            else ∃ timeslots,
                   remaining_timeslots (x :: remaining_splits) = Return timeslots ∧
                   length timeslots = Nat.div2 (length (x :: remaining_splits))).
  { by intros [? _]. }
  induction remaining_splits as [|y l [IH1 IH2]].
  - split; [by exists []|]. intros x. reflexivity.
  - split; [apply IH2|]. intros x.
    change (Nat.odd (length (x :: y :: l))) with (Nat.odd (length l)).
    cbn [remaining_timeslots].
    destruct (Nat.odd (length l)).
    + by rewrite IH1.
    + destruct IH1 as (timeslots & -> & Hlen).
      eexists. split; [reflexivity|]. cbn [length Nat.div2]. by rewrite Hlen.
Qed.

(** X4.  The timetable entries on which [get_timeslots_for_module] raises,
    and the number of timeslots it returns on the others. The one entry that
    the function knows by heart is left aside. *)
Theorem get_timeslots_for_module_malformed (module : string)
    (entry : Catalogue.row) (entries : list Catalogue.row) (timeslot_entry : string) :
  catalogue_entry module_catalogue module = entry :: entries →
  Catalogue.Timetable entry = Some timeslot_entry →
  timeslot_entry ≠ "10am Wed (odd weeks), 10am Fri (odd weeks)" →
  if malformed_timetable (str_split timeslot_entry)
  then get_timeslots_for_module module_catalogue module = Raise IndexError
  else ∃ timeslots,
         get_timeslots_for_module module_catalogue module = Return timeslots ∧
         length timeslots = number_of_timeslots (str_split timeslot_entry).
Proof.
  intros Hentry Htimetable Hspecial.
  unfold get_timeslots_for_module, malformed_timetable, number_of_timeslots.
  rewrite Hentry, Htimetable, (str_eqb_false _ _ Hspecial).
  destruct (str_split timeslot_entry) as [|w0 [|w1 [|w2 rest]]]; [done|done| |].
  { eexists. split; [reflexivity|done]. }
  change (2 <? length (w0 :: w1 :: w2 :: rest))%nat with true.
  cbn [lookup list_lookup default from_option id andb].
  cbn [index lookup list_lookup mbind outcome_bind].
  destruct (startswith w2 "(").
  - destruct rest as [|w3 [|w4 [|w5 rest]]]; [done..|].
    cbn [lookup list_lookup mbind outcome_bind drop].
    change (length (w0 :: w1 :: w2 :: w3 :: w4 :: w5 :: rest) <? 6)%nat with false.
    cbn [orb].
    destruct rest as [|w6 [|w7 rest]].
    + eexists. split; [reflexivity|done].
    + eexists. split; [reflexivity|done].
    + change (7 <? length (w0 :: w1 :: w2 :: w3 :: w4 :: w5 :: w6 :: w7 :: rest))%nat
        with true.
      cbn [andb].
      change (Nat.odd (length (w0 :: w1 :: w2 :: w3 :: w4 :: w5 :: w6 :: w7 :: rest)))
        with (Nat.odd (length (w6 :: w7 :: rest))).
      change (length (w0 :: w1 :: w2 :: w3 :: w4 :: w5 :: w6 :: w7 :: rest) - 6)
        with (length (w6 :: w7 :: rest)).
      cbn [index lookup list_lookup mbind outcome_bind]. rewrite ?drop_0.
      cbn [mbind outcome_bind].
      pose proof (remaining_timeslots_parity (w6 :: w7 :: rest)) as Hparity.
      destruct (Nat.odd (length (w6 :: w7 :: rest))).
      * by rewrite Hparity.
      * destruct Hparity as (timeslots & -> & Hlen).
        eexists. split; [reflexivity|]. cbn [length app]. by rewrite Hlen.
  - cbn [drop]. rewrite ?drop_0. cbn [mbind outcome_bind].
    change (length (w0 :: w1 :: w2 :: rest) =? 0)%nat with false. cbn [orb].
    change (Nat.odd (length (w0 :: w1 :: w2 :: rest)))
      with (Nat.odd (length (w2 :: rest))).
    pose proof (remaining_timeslots_parity (w2 :: rest)) as Hparity.
    destruct (Nat.odd (length (w2 :: rest))).
    + by rewrite Hparity.
    + destruct Hparity as (timeslots & -> & Hlen).
      eexists. split; [reflexivity|]. cbn [length app]. rewrite Hlen. reflexivity.
Qed.

End Timeslots.

(** X3 at MT3501, which meets on Monday at ten and on Tuesday at eleven. *)
Lemma get_timeslots_for_module_round_trip_example :
  get_timeslots_for_module monday_catalogue "MT3501" = Return ["10am Mon"; "11am Tue"].
Proof.
  refine (get_timeslots_for_module_round_trip monday_catalogue "MT3501" _ _
            [("10am", "Mon"); ("11am", "Tue")] _ _ _ _).
  - reflexivity.
  - reflexivity.
  - discriminate.
  - repeat constructor.
Defined.

(** X4 at an entry of three words: the last timeslot has a time and no day. *)
Lemma get_timeslots_for_module_malformed_example :
  get_timeslots_for_module
    [catalogue_row "MT3501" "S1" None None (Some "10am Mon, 11am")] "MT3501"
  = Raise IndexError.
Proof.
  refine (get_timeslots_for_module_malformed
            [catalogue_row "MT3501" "S1" None None (Some "10am Mon, 11am")] "MT3501"
            _ _ "10am Mon, 11am" _ _ _).
  - reflexivity.
  - reflexivity.
  - discriminate.
Defined.

(** ** Modules that are not running *)

Lemma four_digit_years_checked :
  forallb (λ y, (String.length (str_of_int y) =? 4)%nat &&
                match int_of_str (str_of_int y) with
                | Some n => (n =? y)%Z
                | None => false
                end) (seqZ 1000 9000) = true.
Proof. vm_compute. reflexivity. Qed.

(** The years from 1000 to 9999 are written with four digits, and [int]
    reads them back. *)
Lemma four_digit_year (y : Z) :
  (1000 ≤ y ≤ 9999)%Z →
  String.length (str_of_int y) = 4 ∧ int_of_str (str_of_int y) = Some y.
Proof.
  intros Hy. pose proof four_digit_years_checked as Hall.
  rewrite forallb_forall in Hall.
  assert (Hin : In y (seqZ 1000 9000)).
  { apply list_elem_of_In, elem_of_seqZ. lia. }
  specialize (Hall y Hin). apply andb_true_iff in Hall as [Hlen Hint].
  split; [by apply Nat.eqb_eq|].
  destruct (int_of_str (str_of_int y)) as [n|]; [|done].
  apply Z.eqb_eq in Hint. by subst.
Qed.

Lemma take_prefix_app (a s : string) : take_prefix (String.length a) (a +:+ s) = a.
Proof.
  induction a as [|x a IH]; [by destruct s|].
  rewrite str_app_cons. cbn [String.length take_prefix]. by rewrite IH.
Qed.

Lemma take_prefix_academic_year (y : Z) :
  (1000 ≤ y ≤ 9999)%Z → take_prefix 4 (academic_year y) = str_of_int y.
Proof.
  intros Hy. destruct (four_digit_year y Hy) as [Hlen _].
  unfold academic_year. rewrite <- Hlen. apply take_prefix_app.
Qed.

Lemma academic_year_inj (a b : Z) :
  (1000 ≤ a ≤ 9999)%Z → (1000 ≤ b ≤ 9999)%Z →
  academic_year a = academic_year b → a = b.
Proof.
  intros Ha Hb Heq.
  assert (Hs : str_of_int a = str_of_int b).
  { rewrite <- (take_prefix_academic_year a Ha), <- (take_prefix_academic_year b Hb).
    by rewrite Heq. }
  by apply (inj pretty).
Qed.

Lemma mem_academic_year (y : Z) (years : list Z) :
  (1000 ≤ y ≤ 9999)%Z → Forall (λ a, 1000 ≤ a ≤ 9999)%Z years →
  mem (academic_year y) (academic_year <$> years) = bool_decide (y ∈ years).
Proof.
  intros Hy Hyears. unfold mem. apply bool_decide_ext.
  rewrite list_elem_of_fmap. split.
  - intros (a & Heq & Ha).
    rewrite Forall_forall in Hyears.
    by rewrite (academic_year_inj y a Hy (Hyears a Ha) Heq).
  - intros Hin. by exists y.
Qed.

(** Whether a year is in a list of years given by sums: the right-hand
    side is computed, the membership is left to arithmetic. *)
Ltac year_in_list :=
  match goal with
  | |- bool_decide _ = ?b =>
      let b' := eval vm_compute in b in
      change b with b';
      first [ apply bool_decide_eq_true_2; rewrite !elem_of_cons; lia
            | apply bool_decide_eq_false_2; rewrite !elem_of_cons, elem_of_nil; lia ]
  end.

Section NotRunning.
Context (module_catalogue : list Catalogue.row).

(** X5.  The findings that one chosen row adds when its module is in the
    catalogue: one when the semester is neither that of the catalogue nor
    the catalogue says Full Year, and one when the academic year is not
    among the years in which the module is taken to run.  With years of
    four digits, the chosen year [k] years after that of the catalogue, the
    module is taken to run for [k] from 0 to 3, an alternating module for
    [k] among 0, 2, 4 and 6; every other year is reported, the years before
    that of the catalogue among them. *)
Theorem not_running_step_rule (row : Choices.row) (entry : Catalogue.row)
    (entries : list Catalogue.row) (not_running_modules_list : list string)
    (start_year k : Z) (alternating : bool) :
  catalogue_entry module_catalogue (Choices.Module_code row) = entry :: entries →
  Catalogue.Year entry = academic_year start_year →
  Catalogue.Alternate_years entry = (if alternating then "Yes" else "No") →
  Choices.Academic_year row = academic_year (start_year + k) →
  (1000 ≤ start_year ≤ 9990)%Z → (1000 ≤ start_year + k ≤ 9999)%Z →
  not_running_step module_catalogue not_running_modules_list row
  = Return (not_running_modules_list ++
            (if negb (String.eqb (Choices.Semester row) (Catalogue.Semester entry)) &&
                negb (String.eqb (Catalogue.Semester entry) "Full Year")
             then ["Selected module " +:+ Choices.Module_code row +:+ " for Semester " +:+
                   Choices.Semester row +:+ " but it is actually running in " +:+
                   Catalogue.Semester entry]
             else []) ++
            (if outside_running_years alternating k
             then ["Selected module " +:+ Choices.Module_code row +:+
                   " is not running in academic year " +:+ Choices.Academic_year row]
             else [])).
Proof.
  intros Hentry Hyear Halternating Hplanned Hstart Hlast.
  unfold not_running_step. rewrite Hentry, Hyear, Halternating.
  set (findings := if negb _ && negb _ then _ ++ _ else _).
  assert (Hfindings : findings
    = not_running_modules_list ++
      (if negb (String.eqb (Choices.Semester row) (Catalogue.Semester entry)) &&
          negb (String.eqb (Catalogue.Semester entry) "Full Year")
       then ["Selected module " +:+ Choices.Module_code row +:+ " for Semester " +:+
             Choices.Semester row +:+ " but it is actually running in " +:+
             Catalogue.Semester entry]
       else [])).
  { unfold findings. destruct (negb _ && negb _); [done|by rewrite app_nil_r]. }
  clearbody findings. subst findings.
  assert (Halt : (if String.eqb (if alternating then "Yes" else "No") "Yes"
                  then Return true
                  else if String.eqb (if alternating then "Yes" else "No") "No"
                       then Return false else Raise ValueError)
                 = Return alternating) by (by destruct alternating).
  rewrite Halt. cbn [mbind outcome_bind].
  rewrite take_prefix_academic_year by lia.
  destruct (four_digit_year start_year) as [_ ->]; [lia|].
  cbn [mbind outcome_bind]. rewrite Hplanned.
  set (years := if alternating
                then [start_year; start_year + 2 * 0; start_year + 2 * 1;
                      start_year + 2 * 2; start_year + 2 * 3]%Z
                else [start_year; start_year + 0; start_year + 1;
                      start_year + 2; start_year + 3]%Z).
  assert (Hmem : mem (academic_year (start_year + k))
                   (academic_year start_year ::
                    ((λ repeat_index : Z,
                        if alternating
                        then str_of_int (start_year + 2 * repeat_index) +:+ "/" +:+
                             str_of_int (start_year + 2 * repeat_index + 1)
                        else str_of_int (start_year + repeat_index) +:+ "/" +:+
                             str_of_int (start_year + repeat_index + 1))
                     <$> [0; 1; 2; 3]%Z))
                 = bool_decide (start_year + k ∈ years)%Z).
  { rewrite <- mem_academic_year.
    - unfold years. by destruct alternating.
    - lia.
    - unfold years. destruct alternating; repeat constructor; lia. }
  rewrite Hmem.
  assert (Hrule : bool_decide (start_year + k ∈ years)%Z
                  = negb (outside_running_years alternating k)).
  { unfold outside_running_years, years.
    destruct (Z.ltb_spec k 0) as [Hbefore|Hk].
    { cbn [orb negb]. apply bool_decide_eq_false_2.
      destruct alternating; rewrite !elem_of_cons, elem_of_nil; lia. }
    cbn [orb].
    assert (Hcases : (k = 0 ∨ k = 1 ∨ k = 2 ∨ k = 3 ∨ k = 4 ∨ k = 5 ∨ k = 6 ∨ 6 < k)%Z)
      by lia.
    destruct alternating.
    - destruct Hcases as [->|[->|[->|[->|[->|[->|[->|Hbig]]]]]]];
        [year_in_list.. |].
      assert (H6 : (6 <? k)%Z = true) by (apply Z.ltb_lt; lia).
      rewrite H6, orb_true_r. year_in_list.
    - destruct (Z.ltb_spec 3 k) as [Hbig|Hsmall]; year_in_list. }
  rewrite Hrule, negb_involutive.
  destruct (outside_running_years alternating k); [|by rewrite app_nil_r].
  by rewrite <- app_assoc.
Qed.

Lemma for_each_not_running_step_known (rows : list Choices.row) (findings : list string) :
  for_each (not_running_step module_catalogue) rows findings
  = for_each (not_running_step module_catalogue)
      (filter (λ row, catalogue_entry module_catalogue (Choices.Module_code row) ≠ []) rows)
      findings.
Proof.
  revert findings. induction rows as [|row rows IH]; intros findings; [done|].
  destruct (catalogue_entry module_catalogue (Choices.Module_code row)) as [|entry entries]
    eqn:Hentry.
  - rewrite filter_cons_False by (cbv beta; rewrite Hentry; intros Hn; by apply Hn).
    cbn [for_each].
    assert (Hstep : not_running_step module_catalogue findings row = Return findings)
      by (unfold not_running_step; by rewrite Hentry).
    rewrite Hstep. cbn [mbind outcome_bind]. apply IH.
  - rewrite filter_cons_True by (cbv beta; by rewrite Hentry).
    cbn [for_each].
    destruct (not_running_step module_catalogue findings row); cbn [mbind outcome_bind];
      [apply IH|done].
Qed.

(** X6.  Chosen modules that the catalogue does not list are left out of the
    check: two students whose choices agree on the listed modules get the
    same result. *)
Theorem find_not_running_modules_skips_unlisted (student_1 student_2 : Student) :
  filter (λ row, catalogue_entry module_catalogue (Choices.Module_code row) ≠ [])
         (honours_module_choices student_1)
  = filter (λ row, catalogue_entry module_catalogue (Choices.Module_code row) ≠ [])
           (honours_module_choices student_2) →
  find_not_running_modules module_catalogue student_1
  = find_not_running_modules module_catalogue student_2.
Proof.
  intros Hsame. unfold find_not_running_modules.
  rewrite (for_each_not_running_step_known (honours_module_choices student_1)).
  rewrite (for_each_not_running_step_known (honours_module_choices student_2)).
  by rewrite Hsame.
Qed.

End NotRunning.

(** X5 at a module that runs every second year from 2023/2024 and is chosen
    for 2024/2025. *)
Lemma not_running_step_rule_example :
  not_running_step alternating_years_catalogue []
    (choice "Year 2" "2024/2025" "S1" "MT4001")
  = Return ["Selected module MT4001 is not running in academic year 2024/2025"].
Proof.
  refine (not_running_step_rule alternating_years_catalogue
            (choice "Year 2" "2024/2025" "S1" "MT4001") alternating_years_entry []
            [] 2023 1 true _ _ _ _ _ _).
  - reflexivity.
  - by vm_compute.
  - reflexivity.
  - by vm_compute.
  - lia.
  - lia.
Defined.

(** X6 at a student who chooses PH3014, which the catalogue does not list,
    for a year long past. *)
Lemma find_not_running_modules_skips_unlisted_example :
  find_not_running_modules monday_catalogue
    (first_year_student
       [choice "Year 1" "2023/2024" "S2" "MT3501"; choice "Year 1" "2020/2021" "S1" "PH3014"])
  = find_not_running_modules monday_catalogue
      (first_year_student [choice "Year 1" "2023/2024" "S2" "MT3501"]).
Proof.
  apply find_not_running_modules_skips_unlisted. by vm_compute.
Defined.

(** ** Prerequisites and antirequisites *)

Lemma year_number_returns (row : Choices.row) :
  (∃ n, year_number (Choices.Honours_year row) = Return n) →
  year_number (Choices.Honours_year row) = Return (honours_year_number row).
Proof. intros [n Hn]. unfold honours_year_number. by rewrite Hn. Qed.

(** The size of an intersection of two sets made of lists, counted on the
    first list. *)
Lemma size_intersection_filter (l m : list string) :
  NoDup l →
  size (list_to_set l ∩ list_to_set m : gset string) = length (filter (λ x, x ∈ m) l).
Proof.
  intros Hl.
  assert (Hset : (list_to_set l ∩ list_to_set m : gset string)
                 = list_to_set (filter (λ x, x ∈ m) l)).
  { apply set_eq. intros x.
    rewrite elem_of_intersection, !elem_of_list_to_set, list_elem_of_filter. tauto. }
  rewrite Hset. apply size_list_to_set. by apply NoDup_filter.
Qed.

Lemma filter_length_ext (P Q : string → Prop) `{∀ x, Decision (P x)} `{∀ x, Decision (Q x)}
    (l : list string) :
  (∀ x, P x ↔ Q x) → filter P l = filter Q l.
Proof. intros HPQ. apply list_filter_iff. exact HPQ. Qed.

Lemma antirequisite_fold (module : string) (previously simultaneously : list string)
    (codes missed : list string) :
  foldl (λ missed module_code,
           if mem module_code previously || mem module_code simultaneously
           then missed ++ ["Student selected antirequisite " +:+ module_code +:+
                           " for module " +:+ module]
           else missed)
        missed codes
  = missed ++
    ((λ module_code, "Student selected antirequisite " +:+ module_code +:+
                     " for module " +:+ module)
     <$> filter (λ module_code, module_code ∈ previously ∨ module_code ∈ simultaneously)
                codes).
Proof.
  revert missed. induction codes as [|c codes IH]; intros missed; cbn [foldl].
  { by rewrite app_nil_r. }
  rewrite IH. unfold mem.
  destruct (decide (c ∈ previously ∨ c ∈ simultaneously)) as [Hin|Hout].
  - rewrite filter_cons_True by done.
    assert (Hb : bool_decide (c ∈ previously) || bool_decide (c ∈ simultaneously) = true).
    { destruct Hin; [rewrite bool_decide_eq_true_2 by done; done|].
      rewrite (bool_decide_eq_true_2 (c ∈ simultaneously)) by done. apply orb_true_r. }
    rewrite Hb. cbn [fmap list_fmap]. by rewrite <- app_assoc.
  - rewrite filter_cons_False by done.
    rewrite !bool_decide_eq_false_2 by tauto. done.
Qed.

Section Prerequisites.
Context (module_catalogue : list Catalogue.row).
Context (student : Student) (first : Choices.row) (others : list Choices.row).
Context (Hyears : ∀ row, row ∈ honours_module_choices student →
                         ∃ n, year_number (Choices.Honours_year row) = Return n)
        (Hfirst : filter (λ r, Choices.Module_code r = Choices.Module_code first)
                         (honours_module_choices student) = first :: others).

Lemma first_row_chosen : first ∈ honours_module_choices student.
Proof.
  assert (Hin : first ∈ filter (λ r, Choices.Module_code r = Choices.Module_code first)
                          (honours_module_choices student)) by (rewrite Hfirst; left).
  by apply list_elem_of_filter in Hin as [_ ?].
Qed.

Lemma taken_modules_loop (rows : list Choices.row) (previously simultaneously same : list string) :
  (∀ row, row ∈ rows → ∃ n, year_number (Choices.Honours_year row) = Return n) →
  ∃ added same',
    for_each (taken_modules_step (Choices.Module_code first) (Choices.Honours_year first)
                (Choices.Semester first) (honours_year_number first))
             rows (previously, simultaneously, same)
    = Return (previously ++ added, simultaneously ++ chosen_alongside first rows, same') ∧
    ∀ x, x ∈ added ↔ x ∈ chosen_before first rows.
Proof.
  revert previously simultaneously same.
  induction rows as [|row rows IH]; intros previously simultaneously same Hrows.
  { exists [], same. by rewrite !app_nil_r. }
  cbn [for_each].
  set (loop := for_each _ rows).
  unfold taken_modules_step. cbv beta iota zeta.
  rewrite (year_number_returns row) by (apply Hrows; left).
  cbn [mbind outcome_bind]. subst loop.
  set (p1 := if (honours_year_number row <? honours_year_number first)%Z then _ else _).
  set (p2 := if String.eqb (Choices.Semester first) "S2" && _ then _ else _).
  set (s1 := if _ && negb _ then simultaneously ++ _ else _).
  set (y1 := if _ && negb _ then same ++ _ else _).
  destruct (IH p2 s1 y1) as (added & same' & -> & Hadded).
  { intros r Hr. apply Hrows. by right. }
  set (here := (if (honours_year_number row <? honours_year_number first)%Z then [Choices.Module_code row] else []) ++
               (if String.eqb (Choices.Semester first) "S2" &&
                   (String.eqb (Choices.Honours_year row) (Choices.Honours_year first) &&
                    String.eqb (Choices.Semester row) "S1")
                then [Choices.Module_code row] else [])).
  assert (Hp2 : p2 = previously ++ here).
  { unfold p2, p1, here.
    destruct (honours_year_number row <? honours_year_number first)%Z, (String.eqb (Choices.Semester first) "S2" && _);
      by rewrite <- ?app_assoc, ?app_nil_r. }
  assert (Hs1 : s1 ++ chosen_alongside first rows
                = simultaneously ++ chosen_alongside first (row :: rows)).
  { unfold s1, chosen_alongside.
    destruct (String.eqb_spec (Choices.Honours_year row) (Choices.Honours_year first)) as [Hy|Hy];
      destruct (String.eqb_spec (Choices.Semester row) (Choices.Semester first)) as [Hs|Hs];
      destruct (String.eqb_spec (Choices.Module_code row) (Choices.Module_code first)) as [Hm|Hm];
      cbn [andb negb];
      first [ rewrite filter_cons_False by (intros (? & ? & ?); done); done
            | rewrite filter_cons_True by done; by rewrite <- app_assoc ]. }
  exists (here ++ added), same'. split.
  { by rewrite Hp2, Hs1, <- app_assoc. }
  assert (Hhere : ∀ x, x ∈ here ↔
            x = Choices.Module_code row ∧
            ((honours_year_number row < honours_year_number first)%Z ∨
             (Choices.Semester first = "S2" ∧
              Choices.Honours_year row = Choices.Honours_year first ∧
              Choices.Semester row = "S1"))).
  { intros x. unfold here.
    destruct (Z.ltb_spec (honours_year_number row) (honours_year_number first)) as [Hlt|Hge];
      destruct (String.eqb_spec (Choices.Semester first) "S2") as [H2|H2];
      destruct (String.eqb_spec (Choices.Honours_year row) (Choices.Honours_year first))
        as [Hy|Hy];
      destruct (String.eqb_spec (Choices.Semester row) "S1") as [Hs|Hs];
      cbn [andb app]; rewrite ?elem_of_cons, ?elem_of_nil;
      intuition (try lia; try congruence). }
  intros x. rewrite elem_of_app, Hadded. unfold chosen_before.
  rewrite !list_elem_of_fmap. setoid_rewrite list_elem_of_filter.
  setoid_rewrite elem_of_cons. rewrite Hhere.
  split.
  - intros [[-> HP]|(r & -> & Hr & Hin)]; [exists row|exists r]; tauto.
  - intros (r & -> & Hr & [->|Hin]); [by left|].
    right. by exists r.
Qed.

(** What the function does before it looks at the catalogue. *)
Lemma get_missing_prerequisites_for_module_start :
  ∃ previously same,
    (∀ x, x ∈ previously ↔
          x ∈ passed_modules student ++ chosen_before first (honours_module_choices student)) ∧
    index (Choices.Honours_year <$>
             filter (λ r, Choices.Module_code r = Choices.Module_code first)
                    (honours_module_choices student)) 0
    = Return (Choices.Honours_year first) ∧
    year_number (Choices.Honours_year first) = Return (honours_year_number first) ∧
    index (Choices.Semester <$>
             filter (λ r, Choices.Module_code r = Choices.Module_code first)
                    (honours_module_choices student)) 0
    = Return (Choices.Semester first) ∧
    for_each (taken_modules_step (Choices.Module_code first) (Choices.Honours_year first)
                (Choices.Semester first) (honours_year_number first))
             (honours_module_choices student) (passed_modules student, [], [])
    = Return (previously, chosen_alongside first (honours_module_choices student), same).
Proof.
  destruct (taken_modules_loop (honours_module_choices student) (passed_modules student)
              [] [] Hyears) as (added & same & Hloop & Hadded).
  exists (passed_modules student ++ added), same.
  split; [|split; [|split; [|split]]].
  - intros x. rewrite !elem_of_app, Hadded. done.
  - by rewrite Hfirst.
  - apply year_number_returns, Hyears, first_row_chosen.
  - by rewrite Hfirst.
  - exact Hloop.
Qed.

(** X7.  A prerequisite of one word is a module that has to be passed, or
    chosen for an earlier honours year or, by a second-semester module, for
    the first semester of its year. *)
Theorem single_prerequisite_finding (entry : Catalogue.row) (entries : list Catalogue.row)
    (required : string) :
  catalogue_entry module_catalogue (Choices.Module_code first) = entry :: entries →
  Catalogue.Prerequisites entry = Some required →
  Catalogue.Antirequisites entry = None →
  is_word required = true →
  Choices.Module_code first ≠ "MT5867" →
  get_missing_prerequisites_for_module module_catalogue (Choices.Module_code first) student
  = Return (if decide (required ∈ passed_modules student ++
                                  chosen_before first (honours_module_choices student))
            then "None"
            else "Student is missing prerequisite " +:+ required +:+ " for module " +:+
                 Choices.Module_code first,
            "None").
Proof.
  intros Hentry Hprerequisites Hantirequisites Hword Hmodule.
  destruct get_missing_prerequisites_for_module_start
    as (previously & same & Hpreviously & Hyear & Hnumber & Hsemester & Hloop).
  unfold get_missing_prerequisites_for_module.
  rewrite Hyear. cbn [mbind outcome_bind]. rewrite Hnumber. cbn [mbind outcome_bind].
  rewrite Hsemester. cbn [mbind outcome_bind]. rewrite Hloop. cbn [mbind outcome_bind].
  rewrite Hentry, Hprerequisites, Hantirequisites, (str_eqb_false _ _ Hmodule).
  cbn [negb]. unfold check_prerequisite_text. rewrite (str_split_word required Hword).
  cbn [length Nat.eqb index lookup list_lookup mbind outcome_bind].
  unfold mem. rewrite (bool_decide_ext _ _ (Hpreviously required)).
  destruct (decide (required ∈ _)) as [Hin|Hout].
  - by rewrite bool_decide_eq_true_2.
  - rewrite bool_decide_eq_false_2 by done. cbn [negb].
    rewrite merge_list_to_long_string_single; [done| |];
      rewrite str_app_cons; discriminate.
Qed.

(** X8.  For MT5867 the prerequisite text of the catalogue is not read: two
    of seven named modules have to be taken before. *)
Theorem MT5867_prerequisite_finding :
  Choices.Module_code first = "MT5867" →
  match catalogue_entry module_catalogue "MT5867" with
  | entry :: _ => Catalogue.Antirequisites entry
  | [] => None
  end = None →
  get_missing_prerequisites_for_module module_catalogue "MT5867" student
  = Return (if (length (filter (λ module,
                                  module ∈ passed_modules student ++
                                           chosen_before first (honours_module_choices student))
                               MT5867_modules) <? 2)%nat
            then "Student is missing prerequisite " +:+
                 "[two of (MT3505, MT4003, MT4004, MT4512, MT4514, MT4515, MT4526)]" +:+
                 " for module MT5867"
            else "None",
            "None").
Proof.
  intros Hmodule Hantirequisites.
  destruct get_missing_prerequisites_for_module_start
    as (previously & same & Hpreviously & Hyear & Hnumber & Hsemester & Hloop).
  rewrite Hmodule in Hyear, Hsemester, Hloop.
  unfold get_missing_prerequisites_for_module.
  rewrite Hyear. cbn [mbind outcome_bind]. rewrite Hnumber. cbn [mbind outcome_bind].
  rewrite Hsemester. cbn [mbind outcome_bind]. rewrite Hloop. cbn [mbind outcome_bind].
  rewrite Hantirequisites.
  change (String.eqb "MT5867" "MT5867") with true. cbn [negb].
  assert (Hnone : match match catalogue_entry module_catalogue "MT5867" with
                        | [] => None
                        | r :: _ => Catalogue.Prerequisites r
                        end with
                  | Some _ | _ => Return (([] : list string), ([] : list string))
                  end = Return ([], [])).
  { by destruct (match catalogue_entry module_catalogue "MT5867" with
                 | [] => None | r :: _ => Catalogue.Prerequisites r end). }
  rewrite Hnone. cbn [mbind outcome_bind app].
  rewrite size_intersection_filter
    by (apply (bool_decide_unpack _); by vm_compute).
  rewrite (filter_length_ext _ _ _ Hpreviously). fold MT5867_modules.
  destruct (length _ <? 2)%nat; [|done].
  rewrite merge_list_to_long_string_single; done.
Qed.

(** X9.  An antirequisite is reported when it is taken before the module or
    alongside it, in the same honours year and semester, and only then. *)
Theorem antirequisite_finding (entry : Catalogue.row) (entries : list Catalogue.row)
    (antirequisites : string) :
  catalogue_entry module_catalogue (Choices.Module_code first) = entry :: entries →
  Catalogue.Prerequisites entry = None →
  Catalogue.Antirequisites entry = Some antirequisites →
  Choices.Module_code first ≠ "MT5867" →
  get_missing_prerequisites_for_module module_catalogue (Choices.Module_code first) student
  = Return (merge_list_to_long_string
              ((λ module_code, "Student selected antirequisite " +:+ module_code +:+
                               " for module " +:+ Choices.Module_code first)
               <$> filter (λ module_code,
                             module_code ∈ passed_modules student ++
                                           chosen_before first (honours_module_choices student) ∨
                             module_code ∈ chosen_alongside first
                                             (honours_module_choices student))
                          (findall_module_codes antirequisites)),
            "None").
Proof.
  intros Hentry Hprerequisites Hantirequisites Hmodule.
  destruct get_missing_prerequisites_for_module_start
    as (previously & same & Hpreviously & Hyear & Hnumber & Hsemester & Hloop).
  unfold get_missing_prerequisites_for_module.
  rewrite Hyear. cbn [mbind outcome_bind]. rewrite Hnumber. cbn [mbind outcome_bind].
  rewrite Hsemester. cbn [mbind outcome_bind]. rewrite Hloop. cbn [mbind outcome_bind].
  rewrite Hentry, Hprerequisites, Hantirequisites, (str_eqb_false _ _ Hmodule).
  cbn [mbind outcome_bind]. rewrite antirequisite_fold. cbn [app].
  rewrite (list_filter_iff _
             (λ module_code,
                module_code ∈ passed_modules student ++
                              chosen_before first (honours_module_choices student) ∨
                module_code ∈ chosen_alongside first (honours_module_choices student)));
    [done|].
  intros c. by rewrite Hpreviously.
Qed.

End Prerequisites.

(** The honours years of a list of rows can be read. *)
Ltac honours_years_read :=
  let row := fresh "row" in
  let Hrow := fresh "Hrow" in
  intros row Hrow;
  repeat (apply elem_of_cons in Hrow as [->|Hrow]; [eexists; by vm_compute|]);
  by apply elem_of_nil in Hrow.

(** X7 at MT4515, chosen for the second semester, which asks for MT4004,
    chosen for the first. *)
Lemma single_prerequisite_finding_example :
  get_missing_prerequisites_for_module example_catalogue "MT4515" example_student
  = Return ("None", "None").
Proof.
  refine (single_prerequisite_finding example_catalogue example_student
            (choice "Year 2" "2024/2025" "S2" "MT4515") [] _ _
            (catalogue_row "MT4515" "S2" (Some "MT4004") None
               (Some "10am Mon, 10am Wed, 10am Fri"))
            [] "MT4004" _ _ _ _ _).
  - honours_years_read.
  - reflexivity.
  - reflexivity.
  - reflexivity.
  - reflexivity.
  - reflexivity.
  - discriminate.
Defined.

(** X8 at a student who has passed one of the seven modules. *)
Lemma MT5867_prerequisite_finding_example :
  get_missing_prerequisites_for_module example_catalogue "MT5867" MT5867_student
  = Return ("Student is missing prerequisite " +:+
            "[two of (MT3505, MT4003, MT4004, MT4512, MT4514, MT4515, MT4526)]" +:+
            " for module MT5867", "None").
Proof.
  refine (MT5867_prerequisite_finding example_catalogue MT5867_student
            (choice "Year 2" "2024/2025" "S2" "MT5867") [] _ _ _ _).
  - honours_years_read.
  - reflexivity.
  - reflexivity.
  - reflexivity.
Defined.

(** X9 at MT4526 and its antirequisite MT4527, chosen for the same semester. *)
Lemma antirequisite_finding_example :
  get_missing_prerequisites_for_module example_catalogue "MT4526" antirequisite_student
  = Return ("Student selected antirequisite MT4527 for module MT4526", "None").
Proof.
  refine (antirequisite_finding example_catalogue antirequisite_student
            (choice "Year 1" "2023/2024" "S2" "MT4526") [] _ _
            (catalogue_row "MT4526" "S2" None (Some "MT4527") (Some "11am Mon, 11am Wed"))
            [] "MT4527" _ _ _ _).
  - honours_years_read.
  - reflexivity.
  - reflexivity.
  - reflexivity.
  - reflexivity.
  - discriminate.
Defined.

(** ** Programme requirements *)

Lemma size_list_to_set_le (l : list string) :
  size (list_to_set l : gset string) ≤ length l.
Proof.
  induction l as [|x l IH]; [done|].
  cbn [list_to_set foldr length].
  destruct (decide (x ∈ l)) as [Hin|Hout].
  - assert (Hset : ({[x]} ∪ list_to_set l : gset string) = list_to_set l).
    { apply set_eq. intros y. rewrite elem_of_union, elem_of_singleton, elem_of_list_to_set.
      split; [intros [->|?]; done|tauto]. }
    rewrite Hset. lia.
  - rewrite size_union by (apply disjoint_singleton_l; by rewrite elem_of_list_to_set).
    rewrite size_singleton. lia.
Qed.

Lemma size_list_to_set_NoDup (l : list string) :
  size (list_to_set l : gset string) = length l ↔ NoDup l.
Proof.
  split; [|apply size_list_to_set].
  induction l as [|x l IH]; [intros _; apply NoDup_nil_2|].
  cbn [list_to_set foldr length]. intros Hsize.
  destruct (decide (x ∈ l)) as [Hin|Hout].
  - exfalso.
    assert (Hset : ({[x]} ∪ list_to_set l : gset string) = list_to_set l).
    { apply set_eq. intros y. rewrite elem_of_union, elem_of_singleton, elem_of_list_to_set.
      split; [intros [->|?]; done|tauto]. }
    rewrite Hset in Hsize. pose proof (size_list_to_set_le l). lia.
  - rewrite size_union in Hsize
      by (apply disjoint_singleton_l; by rewrite elem_of_list_to_set).
    rewrite size_singleton in Hsize.
    apply NoDup_cons. split; [done|]. apply IH. lia.
Qed.

(** The loop that writes the modules of the warning puts a comma after
    every module but the last, as long as no module is listed twice. *)
Lemma duplicate_warning_fold (last_entry : string) (entries : list string)
    (warning_string : string) :
  NoDup entries →
  (entries ≠ [] → last entries = Some last_entry) →
  foldl (λ warning_string entry,
           let warning_string := warning_string +:+ entry in
           if negb (String.eqb entry last_entry)
           then warning_string +:+ ", " else warning_string)
        warning_string entries
  = warning_string +:+ join ", " entries.
Proof.
  revert warning_string.
  induction entries as [|entry entries IH]; intros warning_string Hnd Hlast.
  { cbn. by rewrite str_app_nil_r. }
  apply NoDup_cons in Hnd as [Hentry Hnd].
  cbn [foldl]. destruct entries as [|next entries].
  - specialize (Hlast ltac:(done)). injection Hlast as <-.
    rewrite String.eqb_refl. reflexivity.
  - assert (Hlast' : last (next :: entries) = Some last_entry)
      by (by specialize (Hlast ltac:(done))).
    assert (Hne : entry ≠ last_entry).
    { intros ->. apply Hentry. by apply last_Some_elem_of. }
    rewrite (str_eqb_false _ _ Hne). cbn [negb].
    rewrite IH by done.
    change (join ", " (entry :: next :: entries))
      with (entry +:+ ", " +:+ join ", " (next :: entries)).
    by rewrite !str_app_assoc.
Qed.

(** X10.  A module that occurs twice among the passed and the chosen modules
    is a finding, and the only finding of this check: the warning names each
    such module once. *)
Theorem duplicate_selection_finding (student : Student) :
  duplicate_selection student
  = if decide (NoDup (full_module_list student)) then []
    else ["Student selected the following modules twice: " +:+
          join ", " (modules_selected_twice student)].
Proof.
  unfold duplicate_selection.
  destruct (decide (NoDup (full_module_list student))) as [Hnd|Hdup].
  - apply size_list_to_set_NoDup in Hnd. rewrite Hnd, Nat.eqb_refl. done.
  - assert (Hsize : size (list_to_set (full_module_list student) : gset string)
                    ≠ length (full_module_list student))
      by (by rewrite size_list_to_set_NoDup).
    apply Nat.eqb_neq in Hsize. rewrite Hsize. cbn [negb].
    fold (modules_selected_twice student).
    rewrite (duplicate_warning_fold (default "" (last (modules_selected_twice student)))).
    + done.
    + apply NoDup_filter, NoDup_unique.
    + intros Hne. destruct (last (modules_selected_twice student)) eqn:Hlast; [done|].
      by apply last_None in Hlast.
Qed.

Lemma size_intersection_filter_r (l m : list string) :
  NoDup m →
  size (list_to_set l ∩ list_to_set m : gset string) = length (filter (λ x, x ∈ l) m).
Proof.
  intros Hnd. rewrite <- size_intersection_filter by done.
  f_equal. apply set_eq. intros x. rewrite !elem_of_intersection. tauto.
Qed.

(** X11.  [get_number_of_modules_in_list] counts the modules of the list
    that the student has passed or chosen, each of them once. *)
Theorem get_number_of_modules_in_list_count (student : Student) (module_list : list string) :
  NoDup module_list →
  get_number_of_modules_in_list student module_list
  = length (filter (λ module, module ∈ full_module_list student) module_list).
Proof.
  intros Hnd. unfold get_number_of_modules_in_list.
  by apply size_intersection_filter_r.
Qed.

(** X11 at a student who chooses MT3502 twice: it is counted once. *)
Lemma get_number_of_modules_in_list_count_example :
  get_number_of_modules_in_list repeating_student ["MT3501"; "MT3502"; "MT3503"] = 1.
Proof.
  refine (get_number_of_modules_in_list_count repeating_student
            ["MT3501"; "MT3502"; "MT3503"] _).
  apply (bool_decide_unpack _). by vm_compute.
Defined.

Lemma filter_none_rows (P : Choices.row → Prop) `{∀ x, Decision (P x)}
    (rows : list Choices.row) :
  (∀ row, row ∈ rows → ¬ P row) → filter P rows = [].
Proof.
  induction rows as [|row rows IH]; intros Hnone; [done|].
  rewrite filter_cons_False by (apply Hnone; left).
  apply IH. intros r Hr. apply Hnone. by right.
Qed.

Section Project.
Context (module_catalogue : list Catalogue.row).

(** X12.  A student of the implemented programme who has one of the two
    project modules on the record and not among the choices: the check of
    the year of the project looks for the project among the choices, and
    raises. *)
Theorem final_year_project_not_chosen (student : Student) :
  programme_name student = "Bachelor of Science (Honours) Mathematics" →
  ("MT4598" ∈ full_module_list student ∧ ("MT4599" ∉ full_module_list student)) ∨
  (("MT4598" ∉ full_module_list student) ∧ "MT4599" ∈ full_module_list student) →
  ("MT4598" ∉ Choices.Module_code <$> honours_module_choices student) →
  ("MT4599" ∉ Choices.Module_code <$> honours_module_choices student) →
  find_missing_programme_requirements module_catalogue student = Raise IndexError.
Proof.
  intros Hprogramme Hone H98 H99.
  assert (Hfilter : ∀ code, code ∉ Choices.Module_code <$> honours_module_choices student →
            filter (λ r, Choices.Module_code r = code) (honours_module_choices student) = []).
  { intros code Hcode. apply filter_none_rows. intros r Hr Heq. apply Hcode.
    apply list_elem_of_fmap. by exists r. }
  assert (Hproject : final_year_project student = Raise IndexError).
  { unfold final_year_project.
    unfold get_number_of_modules_in_list.
    rewrite size_intersection_filter_r
      by (apply (bool_decide_unpack _); by vm_compute).
    rewrite !Hfilter by done. unfold mem.
    destruct Hone as [[Hin Hout]|[Hout Hin]].
    - rewrite filter_cons_True, filter_cons_False, (bool_decide_eq_true_2 _ Hin) by done.
      reflexivity.
    - rewrite filter_cons_False, filter_cons_True, (bool_decide_eq_false_2 _ Hout) by done.
      reflexivity. }
  unfold find_missing_programme_requirements. rewrite Hprogramme.
  change (String.eqb _ _) with true. cbv iota.
  unfold mathematics_requirements.
  destruct (check_for_120_credits_each_year student) as [missed advice].
  rewrite Hproject. reflexivity.
Qed.

End Project.

(** X12 at a student who has passed MT4599 in an earlier year. *)
Lemma final_year_project_not_chosen_example :
  find_missing_programme_requirements example_catalogue project_passed_student
  = Raise IndexError.
Proof.
  refine (final_year_project_not_chosen example_catalogue project_passed_student _ _ _ _).
  - reflexivity.
  - right. split; apply (bool_decide_unpack _); by vm_compute.
  - apply (bool_decide_unpack _). by vm_compute.
  - apply (bool_decide_unpack _). by vm_compute.
Defined.

(** ** Reading the form *)

Lemma for_each_invariant {A S} (P : S → Prop) (body : S → A → outcome S)
    (l : list A) (state result : S) :
  (∀ s x s', P s → x ∈ l → body s x = Return s' → P s') →
  P state → for_each body l state = Return result → P result.
Proof.
  revert state. induction l as [|x l IH]; intros state Hbody Hstate; cbn [for_each].
  { by intros [= <-]. }
  destruct (body state x) as [state'|] eqn:Hstep; cbn [mbind outcome_bind]; [|done].
  apply IH.
  - intros s y s' Hs Hy. apply Hbody; [done|by right].
  - apply (Hbody state x); [done|left|done].
Qed.

(** X13.  The choices of a student read from a form: every row belongs to
    one of the honours years that are left, carries the academic year of
    that honours year, and is in the first or the second semester. *)
Theorem parse_excel_form_rows (sheet : Form) (data_bases : list (list Records.row))
    (student : Student) :
  parse_excel_form sheet data_bases = Return (inl student) →
  Forall (form_row (current_honours_year student) (expected_honours_years student))
         (honours_module_choices student).
Proof.
  unfold parse_excel_form.
  destruct (D5 sheet) as [|student_id| |]; try discriminate.
  destruct (find_student_data_base student_id data_bases) as [rows|]; [|discriminate].
  destruct (module_years rows) as [years|]; cbn [mbind outcome_bind]; [|discriminate].
  destruct (the_only (Records.Programme_name <$> rows)) as [programme|];
    cbn [mbind outcome_bind]; [|discriminate].
  destruct (the_only (Records.Given_names <$> rows)) as [given|];
    cbn [mbind outcome_bind]; [|discriminate].
  destruct (the_only (Records.Family_name <$> rows)) as [family|];
    cbn [mbind outcome_bind]; [|discriminate].
  destruct (the_only (Records.Email <$> rows)) as [mail|];
    cbn [mbind outcome_bind]; [|discriminate].
  destruct (programme_years programme) as [[n expected]|]; [|discriminate].
  set (current := (2023 - _ + 1 - _)%Z).
  destruct (for_each _ (range current (expected + 1)) []) as [module_table|] eqn:Hloop;
    cbn [mbind outcome_bind]; [|discriminate].
  intros [= <-].
  cbn [current_honours_year expected_honours_years honours_module_choices new_Student].
  revert Hloop. apply for_each_invariant; [|by apply Forall_nil].
  intros table k table' Htable Hk.
  apply elem_of_seqZ in Hk.
  apply for_each_invariant; [|done].
  intros inner semester_number inner' Hinner Hsemester.
  destruct (get_modules_under_header _ _) as [semester_modules|];
    cbn [mbind outcome_bind]; [|discriminate].
  intros [= <-]. apply Forall_app. split; [done|].
  apply Forall_fmap, Forall_forall. intros module _.
  exists k, semester_number. cbn.
  split; [lia|]. split; [|done].
  rewrite !elem_of_cons, elem_of_nil in Hsemester. tauto.
Qed.

(** X13 at the example form. *)
Lemma parse_excel_form_rows_example :
  Forall (form_row 2 2) (honours_module_choices example_student).
Proof.
  refine (parse_excel_form_rows example_form [example_data_base] example_student _).
  by vm_compute.
Defined.

(** The loop that looks for the header keeps the row of the last cell
    that is a text with the header in it. *)
Lemma header_row_none (header : string) (row : nat → nat) (cells : list cell)
    (row_number : option nat) :
  (∀ value, value ∈ cells → ¬ is_header header value) →
  foldl (λ row_number '(i, value),
           match value with
           | CStr s => if contains s header then Some (S i) else row_number
           | _ => row_number
           end)
        row_number (imap (λ i value, (row i, value)) cells)
  = row_number.
Proof.
  revert row row_number. induction cells as [|value cells IH]; intros row row_number Hnone;
    [done|].
  cbn [imap foldl].
  assert (Hvalue : match value with
                   | CStr s => if contains s header then Some (S (row 0)) else row_number
                   | _ => row_number
                   end = row_number).
  { destruct value as [| |s|]; try done.
    destruct (contains s header) eqn:Hs; [|done].
    exfalso. apply (Hnone (CStr s)); [left|]. by exists s. }
  rewrite Hvalue. apply (IH (row ∘ S)). intros v Hv. apply Hnone. by right.
Qed.

Lemma header_row_some (header : string) (row : nat → nat) (cells : list cell)
    (row_number : option nat) :
  is_Some row_number ∨ Exists (is_header header) cells →
  is_Some (foldl (λ row_number '(i, value),
                    match value with
                    | CStr s => if contains s header then Some (S i) else row_number
                    | _ => row_number
                    end)
                 row_number (imap (λ i value, (row i, value)) cells)).
Proof.
  revert row row_number.
  induction cells as [|value cells IH]; intros row row_number Hsome.
  { destruct Hsome as [?|Hexists]; [done|]. by apply Exists_nil in Hexists. }
  cbn [imap foldl]. apply (IH (row ∘ S)).
  destruct Hsome as [Hsome|Hexists].
  { left. destruct value as [| |s|]; try done. by destruct (contains s header). }
  apply Exists_cons in Hexists as [(s & -> & Hs)|Hlater]; [|by right].
  left. by rewrite Hs.
Qed.

Lemma read_modules_entries (entries : list (Z + string)) (rest : list cell) :
  rest = [] ∨ (∃ rest', rest = CNone :: rest') →
  read_modules ((module_entry_cell <$> entries) ++ rest)
  = Return (module_entry_code <$> entries).
Proof.
  intros Hrest. induction entries as [|[n|s] entries IH].
  - by destruct Hrest as [->|[rest' ->]].
  - rewrite !fmap_cons. cbn [module_entry_cell app read_modules]. by rewrite IH.
  - rewrite !fmap_cons. cbn [module_entry_cell app read_modules]. by rewrite IH.
Qed.

Lemma read_modules_error (cells : list cell) (e : exception) :
  read_modules cells = Raise e → e = AttributeError.
Proof.
  induction cells as [|[|n|s|] cells IH]; cbn [read_modules]; try discriminate.
  - destruct (read_modules cells); [discriminate|]. intros [= <-]. by apply IH.
  - destruct (read_modules cells); [discriminate|]. intros [= <-]. by apply IH.
  - by intros [= <-].
Qed.

(** X14.  The name of a variable is used before it is bound exactly when no
    text in the second column of the form has the header in it. *)
Theorem get_modules_under_header_unbound (sheet : Form) (header : string) :
  get_modules_under_header sheet header = Raise UnboundLocalError
  ↔ ∀ value, value ∈ column_B sheet → ¬ is_header header value.
Proof.
  unfold get_modules_under_header. split.
  - intros Hraise value Hvalue Hheader.
    assert (Hexists : Exists (is_header header) (column_B sheet))
      by (apply Exists_exists; by exists value).
    destruct (header_row_some header id (column_B sheet) None (or_intror Hexists))
      as [row_number Hrow].
    change (imap (λ i value, (id i, value)) (column_B sheet))
      with (imap pair (column_B sheet)) in Hrow.
    rewrite Hrow in Hraise. by apply read_modules_error in Hraise.
  - intros Hnone.
    change (imap pair (column_B sheet))
      with (imap (λ i value, (id i, value)) (column_B sheet)).
    by rewrite header_row_none.
Qed.

(** X15.  The layout of the form is read back: under the last header come a
    title, the module entries and an empty cell or the end of the sheet. *)
Theorem get_modules_under_header_round_trip (sheet : Form) (header h : string)
    (title : cell) (entries : list (Z + string)) (before rest : list cell) :
  column_B sheet = before ++ CStr h :: title :: (module_entry_cell <$> entries) ++ rest →
  contains h header = true →
  (∀ value, value ∈ title :: (module_entry_cell <$> entries) ++ rest →
            ¬ is_header header value) →
  rest = [] ∨ (∃ rest', rest = CNone :: rest') →
  get_modules_under_header sheet header = Return (module_entry_code <$> entries).
Proof.
  intros Hcolumn Hheader Hlater Hrest.
  unfold get_modules_under_header. rewrite Hcolumn.
  set (tail := title :: (module_entry_cell <$> entries) ++ rest) in *.
  change (imap pair (before ++ CStr h :: tail))
    with (imap (λ i value, (id i, value)) (before ++ CStr h :: tail)).
  rewrite imap_app, foldl_app. cbn [imap foldl]. rewrite Hheader.
  match goal with
  | |- context [imap ?f tail] =>
      change (imap f tail)
        with (imap (λ i value, ((λ i, length before + S i) i, value)) tail)
  end.
  rewrite (header_row_none header) by done.
  unfold id. rewrite Nat.add_0_r.
  replace (S (length before) + 2 - 1) with (length before + 2) by lia.
  rewrite drop_app_add'; [|done].
  subst tail. cbn [drop]. rewrite ?drop_0. by apply read_modules_entries.
Qed.

(** X15 at the first semester of the example form, where one module is
    entered as the number 4111. *)
Lemma get_modules_under_header_round_trip_example :
  get_modules_under_header example_form "Year 2 of Honours: Semester 1"
  = Return ["MT4004"; "MT4111"; "MT4512"; "MT4514"].
Proof.
  refine (get_modules_under_header_round_trip example_form
            "Year 2 of Honours: Semester 1" "Year 2 of Honours: Semester 1"
            (CStr "Module code") [inr "MT4004"; inl 4111%Z; inr " MT4512"; inr "MT4514"]
            [CNone; CStr "Module choices"; CNone]
            [CNone; CStr "Year 2 of Honours: Semester 2"; CStr "Module code";
             CStr "MT4515"; CStr "MT4526"; CStr "MT4606"; CStr "MT4599"] _ _ _ _).
  - reflexivity.
  - by vm_compute.
  - intros value Hvalue (s & -> & Hs).
    repeat (apply elem_of_cons in Hvalue as [Heq|Hvalue];
            [try discriminate; injection Heq as ->; vm_compute in Hs; discriminate|]).
    by apply elem_of_nil in Hvalue.
  - right. by eexists.
Defined.

(** ** The split of the credits over the semesters *)

Lemma even_split_step (student : Student) (this_data_base : list Choices.row)
    (advice : list string) (honours_year : string) :
  "Not taking even credit split in Year 1"
    ∈ credit_split_step student this_data_base advice honours_year
  ↔ "Not taking even credit split in Year 1" ∈ advice ∨
    (honours_year = "Year 1" ∧
     (length (rows_in_semester "S1" this_data_base) ≠ 4 ∨
      length (rows_in_semester "S2" this_data_base) ≠ 4)).
Proof.
  unfold credit_split_step.
  destruct (String.eqb_spec honours_year "Year 1") as [->|H1].
  - cbn [orb foldl].
    destruct (Nat.eqb_spec (length (rows_in_semester "S1" this_data_base)) 4) as [Ha|Ha];
      destruct (Nat.eqb_spec (length (rows_in_semester "S2" this_data_base)) 4) as [Hb|Hb];
      cbn [negb]; rewrite ?elem_of_app, ?list_elem_of_singleton; intuition.
  - cbn [orb].
    assert (Hother : ∀ text : string,
              text ≠ "Not taking even credit split in Year 1" →
              ∀ extra : list string,
                Forall (λ x, x = text) extra →
                ("Not taking even credit split in Year 1" ∈ advice ++ extra
                 ↔ "Not taking even credit split in Year 1" ∈ advice ∨
                   (honours_year = "Year 1" ∧
                    (length (rows_in_semester "S1" this_data_base) ≠ 4 ∨
                     length (rows_in_semester "S2" this_data_base) ≠ 4)))).
    { intros text Htext extra Hextra. rewrite elem_of_app. split; [|tauto].
      intros [?|Hin]; [tauto|]. rewrite Forall_forall in Hextra.
      by rewrite (Hextra _ Hin) in Htext. }
    assert (Hnone : "Not taking even credit split in Year 1" ∈ advice
                    ↔ "Not taking even credit split in Year 1" ∈ advice ∨
                      (honours_year = "Year 1" ∧
                       (length (rows_in_semester "S1" this_data_base) ≠ 4 ∨
                        length (rows_in_semester "S2" this_data_base) ≠ 4))) by tauto.
    destruct (String.eqb_spec honours_year "Year 2") as [->|H2].
    + destruct (expected_honours_years student =? 3)%Z; cbn [andb foldl].
      * change ("Not taking even credit split in " +:+ "Year 2")
          with "Not taking even credit split in Year 2".
        destruct (negb _), (negb _); rewrite <- ?app_assoc;
          first [ exact Hnone
                | apply (Hother "Not taking even credit split in Year 2");
                  [discriminate|repeat constructor] ].
      * destruct (_ || _); [|exact Hnone].
        apply (Hother "Student is taking a high course load in second semester of final honours year");
          [discriminate|repeat constructor].
    + cbn [andb]. destruct (String.eqb_spec honours_year "Year 3") as [->|H3];
        [|exact Hnone].
      destruct (_ || _); [|exact Hnone].
      apply (Hother "Student is taking uneven course load in final honours year");
        [discriminate|repeat constructor].
Qed.

Lemma even_split_fold (student : Student) (this_data_base : list Choices.row)
    (honours_years : list string) (advice : list string) :
  "Not taking even credit split in Year 1"
    ∈ foldl (credit_split_step student this_data_base) advice honours_years
  ↔ "Not taking even credit split in Year 1" ∈ advice ∨
    ("Year 1" ∈ honours_years ∧
     (length (rows_in_semester "S1" this_data_base) ≠ 4 ∨
      length (rows_in_semester "S2" this_data_base) ≠ 4)).
Proof.
  revert advice. induction honours_years as [|y years IH]; intros advice; cbn [foldl].
  - rewrite elem_of_nil. tauto.
  - rewrite IH, even_split_step, elem_of_cons. intuition.
Qed.

(** X16.  The advice on the split of Year 1 is given on the rows of the
    honours year that comes last among the choices: the check of the split
    reads the rows that the check of the totals has left behind. *)
Theorem even_split_reads_last_year (student : Student) (last_year : string) :
  last (unique (Choices.Honours_year <$> honours_module_choices student)) = Some last_year →
  "Not taking even credit split in Year 1" ∈ (credit_findings student).2
  ↔ "Year 1" ∈ Choices.Honours_year <$> honours_module_choices student ∧
    (length (rows_in_semester "S1"
               (rows_of_year last_year (honours_module_choices student))) ≠ 4 ∨
     length (rows_in_semester "S2"
               (rows_of_year last_year (honours_module_choices student))) ≠ 4).
Proof.
  intros Hlast. rewrite credit_findings_snd. cbv zeta.
  rewrite credit_total_fold_snd, Hlast, even_split_fold, elem_of_nil, elem_of_unique.
  tauto.
Qed.

(** X16 at a student with four and four modules in Year 1 and three and five
    in Year 2: the advice on Year 1 is given. *)
Lemma even_split_reads_last_year_example :
  "Not taking even credit split in Year 1" ∈ (credit_findings two_year_student).2 ∧
  length (rows_in_semester "S1"
            (rows_of_year "Year 1" (honours_module_choices two_year_student))) = 4 ∧
  length (rows_in_semester "S2"
            (rows_of_year "Year 1" (honours_module_choices two_year_student))) = 4.
Proof.
  split; [|by vm_compute].
  apply (even_split_reads_last_year two_year_student "Year 2"); [by vm_compute|].
  split; [|left; by vm_compute].
  apply (bool_decide_unpack _). by vm_compute.
Defined.

(** ** The lists that the constructor leaves alone *)

Lemma dom_extend (h : heap) (r : loc) (items : list string) : dom (extend h r items) = dom h.
Proof. unfold extend. apply dom_alter_L. Qed.

Lemma alloc_not_in_dom (h : heap) (items : list string) : (alloc h items).1 ∉ dom h.
Proof. unfold alloc. cbn [fst]. apply is_fresh. Qed.

Lemma dom_alloc (h : heap) (items : list string) :
  dom (alloc h items).2 = {[(alloc h items).1]} ∪ dom h.
Proof. unfold alloc. cbn [fst snd]. apply dom_insert_L. Qed.

(** X17.  [Student.__init__] changes no list that was there before, other
    than the list given as [passed_honours_modules]; the lists
    [full_module_list] and [planned_honours_modules] are two new lists. *)
Theorem Student__init___frame (student_id : Z) (full_name email programme_name : string)
    (year_of_study expected_honours_years current_honours_year : Z)
    (passed_modules passed_honours_modules : loc)
    (honours_module_choices : list Choices.row)
    (h : heap) (passed honours : list string) :
  h !! passed_modules = Some passed →
  h !! passed_honours_modules = Some honours →
  ∃ self h',
    Student__init__ student_id full_name email programme_name year_of_study
      expected_honours_years current_honours_year passed_modules passed_honours_modules
      honours_module_choices h = Some (self, h') ∧
    (∀ r, r ∈ dom h → r ≠ passed_honours_modules → h' !! r = h !! r) ∧
    (self_full_module_list self ∉ dom h) ∧
    (self_planned_honours_modules self ∉ dom h) ∧
    self_full_module_list self ≠ self_planned_honours_modules self.
Proof.
  intros Hpassed Hhonours. unfold Student__init__.
  rewrite Hpassed. cbn [mbind option_bind].
  pose proof (alloc_not_in_dom h passed) as Hfresh.
  pose proof (dom_alloc h passed) as Hdom1.
  destruct (alloc h passed) as [full h1] eqn:Halloc. cbn [fst snd] in Hfresh, Hdom1.
  assert (H1 : ∀ r, r ∈ dom h → h1 !! r = h !! r).
  { intros r Hr. change h1 with ((full, h1).2). rewrite <- Halloc.
    apply alloc_lookup_old. by apply elem_of_dom. }
  set (planned := Choices.Module_code <$> honours_module_choices).
  assert (Hfull : full ≠ passed_honours_modules).
  { intros ->. apply Hfresh, elem_of_dom. by rewrite Hhonours. }
  rewrite extend_lookup_ne, H1, Hhonours by (done || (apply elem_of_dom; by rewrite Hhonours)).
  cbn [mbind option_bind].
  set (h3 := extend (extend h1 full planned) passed_honours_modules planned).
  assert (Hdom3 : dom h3 = {[full]} ∪ dom h).
  { unfold h3. by rewrite !dom_extend. }
  pose proof (alloc_not_in_dom h3 planned) as Hfresh3.
  destruct (alloc h3 planned) as [planned_loc h4] eqn:Halloc4. cbn [fst] in Hfresh3.
  rewrite Hdom3, not_elem_of_union, not_elem_of_singleton in Hfresh3.
  destruct Hfresh3 as [Hne Hout].
  eexists _, _. split; [reflexivity|]. cbn.
  split; [|split; [done|split; [done|by intros ?]]].
  intros r Hr Hr'.
  assert (Hr3 : r ∈ dom h3) by (rewrite Hdom3; apply elem_of_union; by right).
  change h4 with ((planned_loc, h4).2). rewrite <- Halloc4.
  rewrite alloc_lookup_old by (by apply elem_of_dom).
  unfold h3. rewrite !extend_lookup_ne; [by apply H1|by intros ->|done].
Qed.

(** X17 on a heap of two lists. *)
Lemma Student__init___frame_example :
  ∃ self h',
    Student__init__ 190012345 "Ada Lovelace" "al1@st-andrews.ac.uk"
      "Bachelor of Science (Honours) Mathematics" 4 2 2 0 1
      [choice "Year 2" "2024/2025" "S1" "MT4004"] two_lists = Some (self, h') ∧
    (∀ r, r ∈ dom two_lists → r ≠ 1 → h' !! r = two_lists !! r) ∧
    (self_full_module_list self ∉ dom two_lists) ∧
    (self_planned_honours_modules self ∉ dom two_lists) ∧
    self_full_module_list self ≠ self_planned_honours_modules self.
Proof.
  refine (Student__init___frame 190012345 "Ada Lovelace" "al1@st-andrews.ac.uk"
            "Bachelor of Science (Honours) Mathematics" 4 2 2 0 1
            [choice "Year 2" "2024/2025" "S1" "MT4004"] two_lists
            ["MT2501"; "MT3501"] ["MT3501"] _ _).
  - reflexivity.
  - reflexivity.
Defined.

(** ** Forms that cannot be processed, and folders of forms *)

(** The three warnings of [parse_excel_form]. *)
Lemma parse_excel_form_warning (sheet : Form) (data_bases : list (list Records.row))
    (warning : string) :
  parse_excel_form sheet data_bases = Return (inr warning) →
  warning = "No student ID" ∨
  (∃ student_id, warning = "contains invalid student ID " +:+ str_of_int student_id) ∨
  (∃ programme, warning = "Do not recognise student programme for parsing: " +:+ programme).
Proof.
  unfold parse_excel_form.
  destruct (D5 sheet) as [|student_id| |]; try (intros [= <-]; by left).
  destruct (find_student_data_base student_id data_bases) as [rows|].
  2: { intros [= <-]. right. left. by exists student_id. }
  destruct (module_years rows) as [years|]; cbn [mbind outcome_bind]; [|discriminate].
  destruct (the_only (Records.Programme_name <$> rows)) as [programme|];
    cbn [mbind outcome_bind]; [|discriminate].
  destruct (the_only (Records.Given_names <$> rows)) as [given|];
    cbn [mbind outcome_bind]; [|discriminate].
  destruct (the_only (Records.Family_name <$> rows)) as [family|];
    cbn [mbind outcome_bind]; [|discriminate].
  destruct (the_only (Records.Email <$> rows)) as [mail|];
    cbn [mbind outcome_bind]; [|discriminate].
  destruct (programme_years programme) as [[n expected]|].
  - destruct (for_each _ _ _); cbn [mbind outcome_bind]; discriminate.
  - intros [= <-]. right. right. by exists programme.
Qed.

Section Warnings.
Context `{HashOrder} (module_catalogue : list Catalogue.row).

(** Every warning of [parse_excel_form] is one that [process_form_file]
    knows: the message of the summary row is always bound. *)
Lemma warning_sentinel (filename : string) (sheet : Form)
    (data_bases : list (list Records.row)) (warning : string) :
  parse_excel_form sheet data_bases = Return (inr warning) →
  ∃ rest,
    process_form_file module_catalogue filename sheet data_bases
    = Return (sentinel_summary ("Could not process " +:+ filename +:+ ". " +:+ rest)).
Proof.
  intros Hparse. unfold process_form_file. rewrite Hparse. cbn [mbind outcome_bind].
  destruct (parse_excel_form_warning sheet data_bases warning Hparse)
    as [->|[[student_id ->]|[programme ->]]].
  - exists "The file does not contain a valid student ID.".
    cbn [mbind outcome_bind]. reflexivity.
  - exists ("The file " +:+ "contains invalid student ID " +:+ str_of_int student_id).
    change ("contains invalid student ID " +:+ str_of_int student_id)
      with ("contains invalid student ID" +:+ (" " +:+ str_of_int student_id)).
    rewrite startswith_app.
    change (String.eqb _ "No student ID") with false.
    cbn [mbind outcome_bind]. reflexivity.
  - exists ("Do not recognise student programme for parsing: " +:+ programme).
    change ("Do not recognise student programme for parsing: " +:+ programme)
      with ("Do not recognise student programme for parsing:" +:+ (" " +:+ programme)).
    rewrite startswith_app.
    change (String.eqb _ "No student ID") with false.
    change (startswith _ "contains invalid student ID") with false.
    cbn [mbind outcome_bind]. reflexivity.
Qed.

(** X18.  A form on which [parse_excel_form] gives a warning gets a summary
    row, and the saved summary shows that row in red in the four columns of
    findings and in orange in the column of recommendations. *)
Theorem warning_gives_highlighted_row (filename saving_name : string) (sheet : Form)
    (data_bases : list (list Records.row)) (warning : string) :
  parse_excel_form sheet data_bases = Return (inr warning) →
  ∃ row,
    process_form_file module_catalogue filename sheet data_bases = Return row ∧
    Student_ID row = 0%Z ∧ Name row = "Unknown" ∧ Programme row = "Unknown" ∧
    let saved := save_summary_data_frame [row] saving_name in
    style_Unmet_programme_requirements saved = ["background-color: lightcoral;"] ∧
    style_Missing_prerequisites saved = ["background-color: lightcoral;"] ∧
    style_Modules_not_running saved = ["background-color: lightcoral;"] ∧
    style_Timetable_clashes saved = ["background-color: lightcoral;"] ∧
    style_Adviser_recommendations saved = ["background-color: orange;"].
Proof.
  intros Hparse.
  destruct (warning_sentinel filename sheet data_bases warning Hparse) as [rest Hrow].
  eexists. split; [exact Hrow|]. repeat split.
Qed.

End Warnings.

(** X18 at the example form when no student data file lists its student. *)
Lemma warning_gives_highlighted_row_example :
  ∃ row,
    process_form_file (H := elements_order) example_catalogue "b.xlsx" example_form []
    = Return row ∧
    Student_ID row = 0%Z ∧ Name row = "Unknown" ∧ Programme row = "Unknown" ∧
    let saved := save_summary_data_frame [row] "summary_file.xlsx" in
    style_Unmet_programme_requirements saved = ["background-color: lightcoral;"] ∧
    style_Missing_prerequisites saved = ["background-color: lightcoral;"] ∧
    style_Modules_not_running saved = ["background-color: lightcoral;"] ∧
    style_Timetable_clashes saved = ["background-color: lightcoral;"] ∧
    style_Adviser_recommendations saved = ["background-color: orange;"].
Proof.
  refine (@warning_gives_highlighted_row elements_order example_catalogue "b.xlsx"
            "summary_file.xlsx" example_form []
            ("contains invalid student ID " +:+ str_of_int 190012345) _).
  by vm_compute.
Defined.

(** ** The saved summary *)

Lemma endswith_app (s p : string) : endswith (s +:+ p) p = true.
Proof. unfold endswith. rewrite rev_append. apply startswith_app. Qed.

(** X19.  The summary is written to a file whose name ends in [.xlsx]; a
    name that ends so is kept. Each of the five coloured columns gets one
    style for every row. *)
Theorem save_summary_data_frame_name (data_frame : list Summary) (filename : string) :
  let saved := save_summary_data_frame data_frame filename in
  endswith (saved_filename saved) ".xlsx" = true ∧
  (endswith filename ".xlsx" = true → saved_filename saved = filename) ∧
  (endswith filename ".xlsx" = false → saved_filename saved = filename +:+ ".xlsx") ∧
  length (style_Unmet_programme_requirements saved) = length data_frame ∧
  length (style_Missing_prerequisites saved) = length data_frame ∧
  length (style_Modules_not_running saved) = length data_frame ∧
  length (style_Timetable_clashes saved) = length data_frame ∧
  length (style_Adviser_recommendations saved) = length data_frame.
Proof.
  cbv zeta. unfold save_summary_data_frame, colour_code_passes, colour_recommendations.
  cbn [saved_filename style_Unmet_programme_requirements style_Missing_prerequisites
       style_Modules_not_running style_Timetable_clashes style_Adviser_recommendations].
  rewrite !length_fmap.
  destruct (endswith filename ".xlsx") eqn:Hends; cbn [negb].
  - by rewrite Hends.
  - by rewrite endswith_app.
Qed.

(** ** Folders *)

Section Folders.
Context `{HashOrder} (module_catalogue : list Catalogue.row).
Context (folder_name : string) (data_bases : list (list Records.row)).

Lemma process_folder_loop (form_files : list folder_entry) (collected rows : list Summary) :
  Forall (λ entry, is_form_file entry = true) form_files →
  for_each (λ list_of_data_frames (entry : folder_entry),
              match entry.2 with
              | Some sheet =>
                  this_data_frame ←
                    process_form_file module_catalogue
                      (path_join folder_name entry.1) sheet data_bases;
                  Return (list_of_data_frames ++ [this_data_frame])
              | None => Return list_of_data_frames
              end)
           form_files collected = Return rows
  ↔ ∃ added, rows = collected ++ added ∧
             Forall2 (form_file_row module_catalogue folder_name data_bases)
                     form_files added.
Proof.
  intros Hforms. revert collected.
  induction Hforms as [|[name content] form_files Hentry Hforms IH]; intros collected;
    cbn [for_each].
  { split.
    - intros [= <-]. exists []. by rewrite app_nil_r.
    - intros (added & -> & ->%Forall2_nil_inv_l). by rewrite app_nil_r. }
  unfold is_form_file in Hentry. cbn [fst snd] in *.
  destruct content as [sheet|]; [|done].
  destruct (process_form_file module_catalogue (path_join folder_name name) sheet data_bases)
    as [row|e] eqn:Hrow; cbn [mbind outcome_bind].
  - rewrite IH. split.
    + intros (added & -> & Hadded). exists (row :: added).
      split; [by rewrite <- app_assoc|].
      apply Forall2_cons. split; [|done]. by exists sheet.
    + intros (added & -> & Hadded).
      apply Forall2_cons_inv_l in Hadded as (row' & added' & (sheet' & Hsheet & Hrow') & Hadded & ->).
      cbn [fst snd] in *. injection Hsheet as <-. rewrite Hrow in Hrow'.
      injection Hrow' as <-. exists added'. split; [by rewrite <- app_assoc|done].
  - split; [done|].
    intros (added & -> & Hadded).
    apply Forall2_cons_inv_l in Hadded as (row' & added' & (sheet' & Hsheet & Hrow') & Hadded & ->).
    cbn [fst snd] in *. injection Hsheet as <-. rewrite Hrow in Hrow'. discriminate.
Qed.

Lemma process_folder_returns (folder_entries : list folder_entry) (rows : list Summary) :
  process_folder module_catalogue folder_name folder_entries data_bases = Return rows
  ↔ filter (λ entry, is_form_file entry = true) folder_entries ≠ [] ∧
    Forall2 (form_file_row module_catalogue folder_name data_bases)
            (filter (λ entry, is_form_file entry = true) folder_entries) rows.
Proof.
  unfold process_folder.
  destruct (filter (λ entry, is_form_file entry = true) folder_entries)
    as [|entry form_files] eqn:Hforms.
  { split; [done|]. by intros [? _]. }
  change (length (entry :: form_files) =? 0)%nat with false. cbv iota.
  rewrite process_folder_loop.
  - split.
    + intros (added & -> & Hadded). done.
    + intros [_ Hrows]. by exists rows.
  - rewrite <- Hforms. apply Forall_forall. by intros e [? _]%list_elem_of_filter.
Qed.

(** X20.  A folder without a form raises [ValueError]. Otherwise the summary
    of the folder has the rows of its forms, in the order of the listing:
    [process_folder] returns exactly when every form gets a row. *)
Theorem process_folder_rows (folder_entries : list folder_entry) :
  let form_files := filter (λ entry, is_form_file entry = true) folder_entries in
  (form_files = [] →
   process_folder module_catalogue folder_name folder_entries data_bases = Raise ValueError) ∧
  (∀ rows,
     process_folder module_catalogue folder_name folder_entries data_bases = Return rows
     ↔ form_files ≠ [] ∧
       Forall2 (form_file_row module_catalogue folder_name data_bases) form_files rows).
Proof.
  cbv zeta. split; [|apply process_folder_returns].
  intros Hnone. unfold process_folder. by rewrite Hnone.
Qed.

(** X21.  Forms that cannot be processed do not stop the folder: when every
    form of the folder leads to a warning, the summary has a row for each of
    them. *)
Theorem process_folder_of_warnings (folder_entries : list folder_entry) :
  let form_files := filter (λ entry, is_form_file entry = true) folder_entries in
  form_files ≠ [] →
  (∀ entry sheet, entry ∈ form_files → entry.2 = Some sheet →
                  ∃ warning, parse_excel_form sheet data_bases = Return (inr warning)) →
  ∃ rows,
    process_folder module_catalogue folder_name folder_entries data_bases = Return rows ∧
    length rows = length form_files ∧
    Forall (λ row, Student_ID row = 0%Z ∧ Name row = "Unknown" ∧ Programme row = "Unknown")
           rows.
Proof.
  cbv zeta. intros Hforms Hwarnings.
  assert (Hrows : ∃ rows,
            Forall2 (form_file_row module_catalogue folder_name data_bases)
                    (filter (λ entry, is_form_file entry = true) folder_entries) rows ∧
            Forall (λ row, Student_ID row = 0%Z ∧ Name row = "Unknown" ∧
                           Programme row = "Unknown") rows).
  { assert (Hall : Forall (λ entry, is_form_file entry = true)
                     (filter (λ entry, is_form_file entry = true) folder_entries))
      by (apply Forall_forall; by intros e [? _]%list_elem_of_filter).
    revert Hwarnings Hall.
    generalize (filter (λ entry, is_form_file entry = true) folder_entries).
    induction l as [|[name content] l IH]; intros Hwarnings Hall.
    { exists []. split; constructor. }
    apply Forall_cons in Hall as [Hentry Hall].
    destruct IH as (rows & Hrows & Hsentinel); [|done|].
    { intros entry sheet Hin. apply Hwarnings. by right. }
    unfold is_form_file in Hentry. cbn [fst snd] in Hentry.
    destruct content as [sheet|]; [|done].
    destruct (Hwarnings (name, Some sheet) sheet) as [warning Hwarning]; [left|done|].
    destruct (warning_sentinel module_catalogue (path_join folder_name name) sheet
                data_bases warning Hwarning) as [rest Hrow].
    eexists (_ :: rows). split.
    - apply Forall2_cons. split; [|done]. exists sheet. split; [done|exact Hrow].
    - apply Forall_cons. split; [|done]. done. }
  destruct Hrows as (rows & Hrows & Hsentinel).
  exists rows. split; [|split; [|done]].
  - by apply process_folder_returns.
  - symmetry. by eapply Forall2_length.
Qed.

End Folders.

(** X21 at a folder with a directory, a lock file, a text file and two forms
    without a student ID. *)
Lemma process_folder_of_warnings_example :
  ∃ rows,
    @process_folder elements_order example_catalogue "forms" example_folder [] = Return rows ∧
    length rows = 2 ∧
    Forall (λ row, Student_ID row = 0%Z ∧ Name row = "Unknown" ∧ Programme row = "Unknown")
           rows.
Proof.
  refine (@process_folder_of_warnings elements_order example_catalogue "forms" []
            example_folder _ _).
  - intros Heq. vm_compute in Heq. discriminate.
  - intros entry sheet Hin Hsheet. vm_compute in Hin.
    repeat (apply elem_of_cons in Hin as [->|Hin];
            [injection Hsheet as <-; by exists "No student ID"|]).
    by apply elem_of_nil in Hin.
Defined.

(** ** The clash detector never raises *)

Lemma mapM_returns {A B} (f : A → outcome B) (l : list A) :
  (∀ x, x ∈ l → ∃ y, f x = Return y) →
  ∃ ys, mapM f l = Return ys ∧ length ys = length l.
Proof.
  induction l as [|x l IH]; intros Hf.
  { by exists []. }
  destruct (Hf x) as [y Hy]; [left|].
  destruct IH as (ys & Hys & Hlen); [intros z Hz; apply Hf; by right|].
  exists (y :: ys). cbn [mapM]. rewrite Hy. cbn [mbind outcome_bind].
  rewrite Hys. cbn [mbind outcome_bind mret outcome_ret]. split; [done|].
  cbn [length]. by rewrite Hlen.
Qed.

Lemma dict_get_key (module_dictionary : list (string * list string))
    (kv : string * list string) :
  kv ∈ module_dictionary → ∃ timeslots, dict_get module_dictionary kv.1 = Return timeslots.
Proof.
  intros Hin. unfold dict_get.
  destruct (list_find_elem_of (λ kv' : string * list string, kv'.1 = kv.1)
              module_dictionary kv Hin eq_refl) as [[i kv'] Hfind].
  rewrite Hfind. by eexists.
Qed.

Lemma count_elem_pos (t : string) (l : list string) : t ∈ l → 0 < count t l.
Proof.
  intros Hin. unfold count.
  assert (Hf : t ∈ filter (λ y, y = t) l) by (by apply list_elem_of_filter).
  destruct (filter (λ y, y = t) l); [by apply elem_of_nil in Hf|simpl; lia].
Qed.

Lemma count_cons_le (t x : string) (l : list string) : count t l ≤ count t (x :: l).
Proof.
  unfold count. destruct (decide (x = t)) as [Hx|Hx].
  - rewrite filter_cons_True by done. simpl. lia.
  - by rewrite filter_cons_False.
Qed.

Lemma NoDup_count (l : list string) : (∀ t, count t l ≤ 1) → NoDup l.
Proof.
  induction l as [|x l IH]; intros Hcount; [apply NoDup_nil_2|].
  apply NoDup_cons. split.
  - intros Hin. apply count_elem_pos in Hin.
    specialize (Hcount x). unfold count in Hcount, Hin.
    rewrite filter_cons_True in Hcount by done. simpl in Hcount. lia.
  - apply IH. intros t. pose proof (count_cons_le t x l). specialize (Hcount t). lia.
Qed.

Lemma elem_of_concat (x : string) (ls : list (list string)) :
  x ∈ concat ls ↔ ∃ l, x ∈ l ∧ l ∈ ls.
Proof.
  induction ls as [|l ls IH]; cbn [concat].
  - rewrite elem_of_nil. split; [done|]. by intros (l & _ & ?%elem_of_nil).
  - rewrite elem_of_app, IH. split.
    + intros [Hx|(l' & Hx & Hl')]; [exists l; split; [done|left]|].
      exists l'. split; [done|by right].
    + intros (l' & Hx & [->|Hl']%elem_of_cons); [by left|]. right. by exists l'.
Qed.

Section Detector.
Context `{HashOrder}.

Lemma elem_of_set_iter {A} `{Countable A} (X : gset A) (x : A) : x ∈ set_iter X ↔ x ∈ X.
Proof. by rewrite set_iter_elements, elem_of_elements. Qed.

Lemma set_iter_nil {A} `{Countable A} (X : gset A) : set_iter X = [] ↔ X = ∅.
Proof.
  split.
  - intros Hnil. apply leibniz_equiv, elements_empty_inv, Permutation_nil_r.
    by rewrite <- set_iter_elements, Hnil.
  - intros ->. apply set_iter_empty.
Qed.

Lemma clash_warning_returns (module_dictionary : list (string * list string))
    (honours_year semester : string) (module_combination : gset string) :
  module_combination ≠ ∅ →
  (∀ module, module ∈ module_combination →
             ∃ kv, kv ∈ module_dictionary ∧ kv.1 = module) →
  ∃ warning,
    clash_warning module_dictionary honours_year semester module_combination
    = Return warning.
Proof.
  intros Hne Hkeys. unfold clash_warning.
  destruct (mapM_returns
              (λ module, list_to_set (C := gset string) <$> dict_get module_dictionary module)
              (set_iter module_combination)) as (sets & -> & Hlen).
  { intros module Hmodule. apply elem_of_set_iter in Hmodule.
    destruct (Hkeys module Hmodule) as (kv & Hkv & <-).
    destruct (dict_get_key module_dictionary kv Hkv) as [timeslots ->]. by eexists. }
  cbn [mbind outcome_bind].
  destruct sets as [|X sets].
  { exfalso. apply Hne, set_iter_nil. symmetry in Hlen.
    by apply length_zero_iff_nil in Hlen. }
  cbn [set_intersection mbind outcome_bind]. by eexists.
Qed.

(** One warning for every set of modules that share a timeslot. *)
Lemma find_clashing_warnings (module_dictionary : list (string * list string))
    (honours_year semester : string) :
  ∃ warnings,
    find_clashing_timeslots_and_modules module_dictionary honours_year semester
    = Return warnings ∧
    length warnings
    = length (set_iter (list_to_set (C := gset (gset string))
                (list_to_set (C := gset string) <$>
                   ((λ timeslot,
                       merge_sort String.le
                         (fst <$> filter (λ kv : string * list string, timeslot ∈ kv.2)
                                         module_dictionary))
                    <$> filter (λ timeslot,
                                  1 < count timeslot (concat (snd <$> module_dictionary)))
                               (unique (concat (snd <$> module_dictionary))))))).
Proof.
  unfold find_clashing_timeslots_and_modules.
  apply mapM_returns.
  intros combination Hcombination.
  apply elem_of_set_iter, elem_of_list_to_set, list_elem_of_fmap in Hcombination
    as (codes & -> & Hcodes).
  apply list_elem_of_fmap in Hcodes as (timeslot & -> & Htimeslot).
  apply list_elem_of_filter in Htimeslot as [_ Htimeslot].
  apply (proj1 (elem_of_unique _ _)) in Htimeslot.
  apply clash_warning_returns.
  - apply elem_of_concat in Htimeslot as (timeslots & Hin & Htimeslots).
    apply list_elem_of_fmap in Htimeslots as (kv & -> & Hkv).
    intros Hempty.
    assert (Hmember : kv.1 ∈ (list_to_set (merge_sort String.le
              (fst <$> filter (λ kv : string * list string, timeslot ∈ kv.2)
                              module_dictionary)) : gset string)).
    { rewrite elem_of_list_to_set, merge_sort_Permutation.
      apply list_elem_of_fmap. exists kv. split; [done|].
      by apply list_elem_of_filter. }
    rewrite Hempty in Hmember. by apply not_elem_of_empty in Hmember.
  - intros module Hmodule.
    rewrite elem_of_list_to_set, merge_sort_Permutation in Hmodule.
    apply list_elem_of_fmap in Hmodule as (kv & -> & Hkv).
    apply list_elem_of_filter in Hkv as [_ Hkv]. by exists kv.
Qed.

(** X22.  [find_clashing_timeslots_and_modules] returns on every dictionary:
    no lookup fails and no intersection is taken of no set. It returns no
    warning exactly when no timeslot occurs twice in the lists of the
    dictionary. *)
Theorem find_clashing_timeslots_and_modules_returns
    (module_dictionary : list (string * list string)) (honours_year semester : string) :
  ∃ warnings,
    find_clashing_timeslots_and_modules module_dictionary honours_year semester
    = Return warnings ∧
    (warnings = [] ↔ NoDup (concat (snd <$> module_dictionary))).
Proof.
  destruct (find_clashing_warnings module_dictionary honours_year semester)
    as (warnings & Hwarnings & Hlen).
  exists warnings. split; [exact Hwarnings|].
  set (all_timeslots := concat (snd <$> module_dictionary)) in *.
  set (duplicate_entries :=
         filter (λ timeslot, 1 < count timeslot all_timeslots) (unique all_timeslots)) in *.
  assert (Hdup : duplicate_entries = [] ↔ NoDup all_timeslots).
  { unfold duplicate_entries. split.
    - intros Hnil. apply NoDup_count. intros t.
      destruct (decide (1 < count t all_timeslots)) as [Hmany|]; [|lia].
      exfalso.
      assert (Hin : t ∈ filter (λ timeslot, 1 < count timeslot all_timeslots)
                        (unique all_timeslots)).
      { apply list_elem_of_filter. split; [done|].
        apply elem_of_unique, count_pos_elem. lia. }
      rewrite Hnil in Hin. by apply elem_of_nil in Hin.
    - intros Hnd. apply filter_none. intros t _ Hmany.
      pose proof (count_NoDup t _ Hnd). lia. }
  clearbody duplicate_entries.
  rewrite <- Hdup. split.
  - intros ->. cbn [length] in Hlen. symmetry in Hlen.
    apply length_zero_iff_nil, set_iter_nil in Hlen.
    destruct duplicate_entries as [|timeslot rest]; [done|].
    exfalso. cbn [fmap list_fmap list_to_set foldr] in Hlen.
    eapply (not_elem_of_empty (C := gset (gset string))).
    rewrite <- Hlen. apply elem_of_union. left. by apply elem_of_singleton.
  - intros Heq. rewrite Heq in Hlen. cbn [fmap list_fmap list_to_set foldr] in Hlen.
    rewrite set_iter_empty in Hlen. by apply length_zero_iff_nil in Hlen.
Qed.

End Detector.

(** ** Weekly qualifiers *)

Lemma append_separated_prefix (warning_string : string) (items : list string) :
  ∃ s, append_separated warning_string items = warning_string +:+ s.
Proof.
  unfold append_separated. generalize (length items - 1). generalize (imap pair items).
  intros l n. revert warning_string.
  induction l as [|[i item] l IH]; intros w.
  - exists "". by rewrite str_app_nil_r.
  - cbn [foldl]. destruct (i <? n)%nat.
    + destruct (IH ((w +:+ item) +:+ " and ")) as [s ->].
      exists (item +:+ " and " +:+ s). by rewrite !str_app_assoc.
    + destruct (IH (w +:+ item)) as [s ->].
      exists (item +:+ s). by rewrite !str_app_assoc.
Qed.

Lemma mapM_elem {A B} (f : A → outcome B) (l : list A) (ys : list B) (y : B) :
  mapM f l = Return ys → y ∈ ys → ∃ x, x ∈ l ∧ f x = Return y.
Proof.
  revert ys. induction l as [|x l IH]; intros ys; cbn [mapM].
  - intros [= <-] Hy. by apply elem_of_nil in Hy.
  - destruct (f x) as [y'|] eqn:Hx; cbn [mbind outcome_bind]; [|discriminate].
    destruct (mapM f l) as [ys'|]; cbn [mbind outcome_bind mret outcome_ret];
      [|discriminate].
    intros [= <-] [->|Hy]%elem_of_cons.
    + exists x. split; [left|done].
    + destruct (IH ys' eq_refl Hy) as (x' & Hin & Hx'). exists x'. split; [by right|done].
Qed.

Section Qualifiers.
Context `{HashOrder}.

(** Every warning of the detector starts with the same words. *)
Lemma clash_warning_text (module_dictionary : list (string * list string))
    (honours_year semester : string) (module_combination : gset string) (warning : string) :
  clash_warning module_dictionary honours_year semester module_combination = Return warning →
  ∃ rest, warning = "Clash for " +:+ rest.
Proof.
  unfold clash_warning.
  destruct (mapM _ _) as [sets|]; cbn [mbind outcome_bind]; [|discriminate].
  destruct (set_intersection sets) as [affected|]; cbn [mbind outcome_bind]; [|discriminate].
  intros [= <-].
  destruct (append_separated_prefix
              ("Clash for " +:+ honours_year +:+ " " +:+ semester +:+ " between modules ")
              (set_iter module_combination)) as [modules ->].
  destruct (append_separated_prefix
              ((("Clash for " +:+ honours_year +:+ " " +:+ semester +:+ " between modules ")
                +:+ modules) +:+ " at ")
              (set_iter affected)) as [timeslots ->].
  eexists. rewrite !str_app_assoc. reflexivity.
Qed.

Lemma find_clashing_warning_text (module_dictionary : list (string * list string))
    (honours_year semester : string) (warnings : list string) (warning : string) :
  find_clashing_timeslots_and_modules module_dictionary honours_year semester
  = Return warnings →
  warning ∈ warnings → warning ≠ "None" ∧ warning ≠ "".
Proof.
  unfold find_clashing_timeslots_and_modules. intros Hrun Hin.
  destruct (mapM_elem _ _ _ _ Hrun Hin) as (combination & _ & Hwarning).
  apply clash_warning_text in Hwarning as [rest ->].
  rewrite str_app_cons. split; discriminate.
Qed.

(** A timeslot that the lists of the dictionary name twice, in one list or
    in two, gives a warning. *)
Lemma find_clashing_nil_inv (module_dictionary : list (string * list string))
    (honours_year semester : string) :
  find_clashing_timeslots_and_modules module_dictionary honours_year semester = Return [] →
  NoDup (concat (snd <$> module_dictionary)).
Proof.
  intros Hrun.
  destruct (find_clashing_warnings module_dictionary honours_year semester)
    as (warnings & Hwarnings & Hlen).
  rewrite Hrun in Hwarnings. injection Hwarnings as <-.
  cbn [length] in Hlen. symmetry in Hlen.
  apply length_zero_iff_nil, set_iter_nil in Hlen.
  set (all_timeslots := concat (snd <$> module_dictionary)) in *.
  apply NoDup_count. intros t.
  destruct (decide (1 < count t all_timeslots)) as [Hmany|]; [|lia].
  exfalso.
  assert (Hin : t ∈ filter (λ timeslot, 1 < count timeslot all_timeslots)
                    (unique all_timeslots)).
  { apply list_elem_of_filter. split; [done|].
    apply elem_of_unique, count_pos_elem. lia. }
  destruct (filter (λ timeslot, 1 < count timeslot all_timeslots) (unique all_timeslots))
    as [|timeslot rest]; [by apply elem_of_nil in Hin|].
  cbn [fmap list_fmap list_to_set foldr] in Hlen.
  eapply (not_elem_of_empty (C := gset (gset string))).
  rewrite <- Hlen. apply elem_of_union. left. by apply elem_of_singleton.
Qed.

(** C6 (as amended).  Timeslots are compared as whole texts, the week
    qualifier included, and the loops that strip a qualifier leave the
    dictionary as it was.  So for two modules of one honours year and
    semester, one on "10am Mon (odd weeks)" and the other on "10am Mon
    (even weeks)", whose lists have no text in common, the detector
    returns, and no clash is reported when neither list names a timeslot
    twice, and only then: the occurrences of a timeslot are counted over
    the lists put together, so a list that names a timeslot twice gives a
    clash text. *)
Theorem odd_and_even_weeks_no_clash
    (module_catalogue : list Catalogue.row) (student : Student)
    (honours_year semester year_a year_b module_a module_b : string)
    (slots_a slots_b : list string) :
  semester = "S1" ∨ semester = "S2" →
  module_a ≠ module_b →
  get_timeslots_for_module module_catalogue module_a = Return slots_a →
  get_timeslots_for_module module_catalogue module_b = Return slots_b →
  "10am Mon (odd weeks)" ∈ slots_a →
  "10am Mon (even weeks)" ∈ slots_b →
  (∀ timeslot, timeslot ∈ slots_a → timeslot ∉ slots_b) →
  honours_module_choices student
  = [choice honours_year year_a semester module_a;
     choice honours_year year_b semester module_b] →
  (∀ old, replace_and_drop [(module_a, slots_a); (module_b, slots_b)] old
          = [(module_a, slots_a); (module_b, slots_b)]) ∧
  (∃ warnings,
     find_clashing_timeslots_and_modules
       [(module_a, slots_a); (module_b, slots_b)] honours_year semester = Return warnings ∧
     (warnings = [] ↔ NoDup slots_a ∧ NoDup slots_b)) ∧
  (∃ timetable_clashes,
     find_timetable_clashes module_catalogue student = Return (timetable_clashes, "None") ∧
     (timetable_clashes = "None" ↔ NoDup slots_a ∧ NoDup slots_b)).
Proof.
  intros Hsem Hab Ha Hb _ _ Hdisjoint Hchoices.
  set (timeslot_dictionary := [(module_a, slots_a); (module_b, slots_b)]).
  assert (Hconcat : concat (snd <$> timeslot_dictionary) = slots_a ++ slots_b).
  { unfold timeslot_dictionary. cbn [fmap list_fmap concat snd]. by rewrite app_nil_r. }
  assert (Hnodup : NoDup (concat (snd <$> timeslot_dictionary))
                   ↔ NoDup slots_a ∧ NoDup slots_b).
  { rewrite Hconcat, NoDup_app. split; [intros (? & _ & ?)|intros [? ?]]; done. }
  destruct (find_clashing_warnings timeslot_dictionary honours_year semester)
    as (warnings & Hwarnings & _).
  assert (Hgroup : find_timetable_clashes module_catalogue student
                   = Return (merge_list_to_long_string
                               (set_iter (list_to_set (warnings ++ warnings ++ warnings)
                                          : gset string)),
                             "None")).
  { apply (find_timetable_clashes_group module_catalogue student honours_year semester
             timeslot_dictionary warnings Hsem).
    - by rewrite Hchoices.
    - rewrite Hchoices. intros r Hr.
      rewrite !elem_of_cons, elem_of_nil in Hr. destruct Hr as [->|[->|[]]]; done.
    - rewrite Hchoices. cbn [fmap list_fmap choice Choices.Module_code].
      by apply timeslot_dictionary_of_two.
    - exact Hwarnings. }
  assert (Hnil : warnings = [] ↔ NoDup slots_a ∧ NoDup slots_b).
  { rewrite <- Hnodup. split.
    - intros ->. by apply (find_clashing_nil_inv _ honours_year semester).
    - intros Hnd. apply (find_clashing_no_repeat _ honours_year semester) in Hnd.
      rewrite Hnd in Hwarnings. by injection Hwarnings. }
  split; [done|]. split.
  - by exists warnings.
  - eexists. split; [exact Hgroup|]. rewrite <- Hnil. split.
    + intros Hnone. destruct warnings as [|warning rest]; [done|]. exfalso.
      destruct (find_clashing_warning_text _ _ _ _ warning Hwarnings) as [H1 H2]; [left|].
      eapply merge_list_to_long_string_finding; [|exact H1|exact H2|exact Hnone].
      apply elem_of_set_iter, elem_of_list_to_set. left.
    + intros ->. cbn [app list_to_set foldr]. by rewrite set_iter_empty.
Qed.

End Qualifiers.

(** C6 at MT4001 (Monday at ten in odd weeks) and MT4002 (Monday at ten in
    even weeks): neither names a timeslot twice, and no clash is
    reported. *)
Lemma odd_and_even_weeks_example :
  let slots_a := ["10am Mon (odd weeks)"; "10am Wed"; "10am Fri"] in
  let slots_b := ["10am Mon (even weeks)"; "10am Tue"; "10am Thu"] in
  ("S1" = "S1" ∨ "S1" = "S2") ∧ "MT4001" ≠ "MT4002" ∧
  get_timeslots_for_module alternating_catalogue "MT4001" = Return slots_a ∧
  get_timeslots_for_module alternating_catalogue "MT4002" = Return slots_b ∧
  "10am Mon (odd weeks)" ∈ slots_a ∧ "10am Mon (even weeks)" ∈ slots_b ∧
  (∀ timeslot, timeslot ∈ slots_a → timeslot ∉ slots_b) ∧
  (∀ old, replace_and_drop [("MT4001", slots_a); ("MT4002", slots_b)] old
          = [("MT4001", slots_a); ("MT4002", slots_b)]) ∧
  (∃ warnings,
     @find_clashing_timeslots_and_modules elements_order
       [("MT4001", slots_a); ("MT4002", slots_b)] "Year 1" "S1" = Return warnings ∧
     (warnings = [] ↔ NoDup slots_a ∧ NoDup slots_b)) ∧
  (∃ timetable_clashes,
     @find_timetable_clashes elements_order alternating_catalogue alternating_student
     = Return (timetable_clashes, "None") ∧
     (timetable_clashes = "None" ↔ NoDup slots_a ∧ NoDup slots_b)).
Proof.
  intros slots_a slots_b.
  assert (Hsem : "S1" = "S1" ∨ "S1" = "S2") by (by left).
  assert (Hab : "MT4001" ≠ "MT4002") by discriminate.
  assert (Ha : get_timeslots_for_module alternating_catalogue "MT4001" = Return slots_a)
    by reflexivity.
  assert (Hb : get_timeslots_for_module alternating_catalogue "MT4002" = Return slots_b)
    by reflexivity.
  assert (Hin_a : "10am Mon (odd weeks)" ∈ slots_a) by left.
  assert (Hin_b : "10am Mon (even weeks)" ∈ slots_b) by left.
  assert (Hdisjoint : ∀ timeslot, timeslot ∈ slots_a → timeslot ∉ slots_b).
  { apply Forall_forall. apply (bool_decide_unpack _). by vm_compute. }
  refine (conj Hsem (conj Hab (conj Ha (conj Hb (conj Hin_a (conj Hin_b
            (conj Hdisjoint _))))))).
  exact (@odd_and_even_weeks_no_clash elements_order alternating_catalogue
           alternating_student "Year 1" "S1" "2023/2024" "2023/2024" "MT4001" "MT4002"
           slots_a slots_b Hsem Hab Ha Hb Hin_a Hin_b Hdisjoint eq_refl).
Defined.

(** ** When the timetable check returns *)

Lemma for_each_returns {A S} (body : S → A → outcome S) (good : A → Prop) :
  (∀ s x, (∃ s', body s x = Return s') ↔ good x) →
  ∀ l s, (∃ s', for_each body l s = Return s') ↔ Forall good l.
Proof.
  intros Hbody. induction l as [|x l IH]; intros s; cbn [for_each].
  { split; [by constructor|]. by eexists. }
  rewrite Forall_cons, <- (Hbody s x). split.
  - intros [s' Hrun].
    destruct (body s x) as [s1|] eqn:Hstep; cbn [mbind outcome_bind] in Hrun; [|done].
    split; [by eexists|]. apply (IH s1). by eexists.
  - intros [[s1 Hstep] Hrest]. rewrite Hstep. cbn [mbind outcome_bind]. by apply IH.
Qed.

Section TimetableCheck.
Context `{HashOrder} (module_catalogue : list Catalogue.row).

Lemma timeslot_dictionary_of_returns (semester_modules : list string) :
  (∃ timeslot_dictionary,
     timeslot_dictionary_of module_catalogue semester_modules = Return timeslot_dictionary)
  ↔ Forall (λ module, ∃ timeslots,
                        get_timeslots_for_module module_catalogue module = Return timeslots)
           semester_modules.
Proof.
  unfold timeslot_dictionary_of. apply for_each_returns.
  intros d module. split.
  - intros [d' Hrun].
    destruct (get_timeslots_for_module module_catalogue module); [by eexists|done].
  - intros [timeslots ->]. by eexists.
Qed.

Lemma semester_clashes_returns (student : Student) (honours_year semester : string)
    (collected : list string) :
  (∃ clashes,
     semester_clashes module_catalogue student honours_year semester collected
     = Return clashes)
  ↔ Forall (λ module, ∃ timeslots,
                        get_timeslots_for_module module_catalogue module = Return timeslots)
           (Choices.Module_code <$>
              filter (λ r, Choices.Semester r = semester ∧
                           Choices.Honours_year r = honours_year)
                     (honours_module_choices student)).
Proof.
  rewrite <- timeslot_dictionary_of_returns. unfold semester_clashes.
  destruct (timeslot_dictionary_of module_catalogue _) as [d|]; cbn [mbind outcome_bind].
  - destruct (find_clashing_warnings d honours_year semester) as (warnings & -> & _).
    cbn [mbind outcome_bind]. split; intros _; by eexists.
  - split; intros [? ?]; done.
Qed.

(** X23.  [find_timetable_clashes] returns exactly when the timetable entry
    can be read for every module that is chosen for a first or a second
    semester; it never has a recommendation for the adviser. *)
Theorem find_timetable_clashes_returns (student : Student) :
  ((∃ result, find_timetable_clashes module_catalogue student = Return result)
   ↔ ∀ row, row ∈ honours_module_choices student →
            Choices.Semester row = "S1" ∨ Choices.Semester row = "S2" →
            ∃ timeslots,
              get_timeslots_for_module module_catalogue (Choices.Module_code row)
              = Return timeslots) ∧
  (∀ result, find_timetable_clashes module_catalogue student = Return result →
             result.2 = "None").
Proof.
  split.
  2: { intros result. unfold find_timetable_clashes.
       destruct (all_semester_clashes module_catalogue student); cbn [mbind outcome_bind];
         [|done].
       by intros [= <-]. }
  assert (Hloops :
    (∃ clashes, all_semester_clashes module_catalogue student = Return clashes)
    ↔ Forall (λ honours_year,
                Forall (λ semester,
                          Forall (λ module, ∃ timeslots,
                                    get_timeslots_for_module module_catalogue module
                                    = Return timeslots)
                                 (Choices.Module_code <$>
                                    filter (λ r, Choices.Semester r = semester ∧
                                                 Choices.Honours_year r = honours_year)
                                           (honours_module_choices student)))
                       ["S1"; "S2"])
             (unique (Choices.Honours_year <$> honours_module_choices student))).
  { unfold all_semester_clashes. apply for_each_returns.
    intros clashes honours_year. apply for_each_returns.
    intros clashes' semester. apply semester_clashes_returns. }
  assert (Hrun : (∃ result, find_timetable_clashes module_catalogue student = Return result)
                 ↔ ∃ clashes, all_semester_clashes module_catalogue student = Return clashes).
  { unfold find_timetable_clashes.
    destruct (all_semester_clashes module_catalogue student); cbn [mbind outcome_bind];
      [split; intros [? ?]; by eexists|split; intros [? ?]; done]. }
  rewrite Hrun, Hloops. clear Hrun Hloops.
  split.
  - intros Hall row Hrow Hsemester.
    rewrite Forall_forall in Hall.
    assert (Hyear : Choices.Honours_year row
                    ∈ unique (Choices.Honours_year <$> honours_module_choices student)).
    { apply elem_of_unique, list_elem_of_fmap. by exists row. }
    specialize (Hall _ Hyear). rewrite Forall_forall in Hall.
    assert (Hin : Choices.Semester row ∈ ["S1"; "S2"]).
    { rewrite !elem_of_cons. tauto. }
    specialize (Hall _ Hin). rewrite Forall_forall in Hall. apply Hall.
    apply list_elem_of_fmap. exists row. split; [done|].
    by apply list_elem_of_filter.
  - intros Hall. apply Forall_forall. intros honours_year _.
    apply Forall_forall. intros semester Hsemester.
    apply Forall_forall. intros module Hmodule.
    apply list_elem_of_fmap in Hmodule as (row & -> & Hrow).
    apply list_elem_of_filter in Hrow as [[<- _] Hrow].
    apply Hall; [done|]. rewrite !elem_of_cons, elem_of_nil in Hsemester. tauto.
Qed.

End TimetableCheck.

(** ** The dictionary of timeslots *)

Lemma dict_set_keys (module_dictionary : list (string * list string)) (module : string)
    (value : list string) :
  fst <$> dict_set module_dictionary module value
  = if mem module (fst <$> module_dictionary) then fst <$> module_dictionary
    else (fst <$> module_dictionary) ++ [module].
Proof.
  induction module_dictionary as [|kv d IH]; [done|].
  cbn [dict_set]. unfold mem in *. rewrite fmap_cons.
  destruct (String.eqb_spec kv.1 module) as [Heq|Hne].
  - rewrite bool_decide_eq_true_2 by (rewrite Heq; left). by rewrite fmap_cons, Heq.
  - rewrite fmap_cons, IH.
    case_bool_decide as Hin.
    + rewrite bool_decide_eq_true_2 by (by right). done.
    + rewrite bool_decide_eq_false_2; [done|].
      intros [?|?]%elem_of_cons; [by apply Hne|done].
Qed.

Lemma dict_set_Forall (P : string * list string → Prop)
    (module_dictionary : list (string * list string)) (module : string)
    (value : list string) :
  Forall P module_dictionary → P (module, value) →
  Forall P (dict_set module_dictionary module value).
Proof.
  intros Hd Hnew. induction Hd as [|kv d Hkv Hd IH]; cbn [dict_set].
  - by repeat constructor.
  - destruct (String.eqb kv.1 module); by constructor.
Qed.

Section Dictionary.
Context (module_catalogue : list Catalogue.row).

Lemma timeslot_dictionary_loop (semester_modules : list string)
    (start result : list (string * list string)) :
  Forall (λ kv, get_timeslots_for_module module_catalogue kv.1 = Return kv.2) start →
  for_each (λ d module,
              these_timeslots ← get_timeslots_for_module module_catalogue module;
              Return (dict_set d module these_timeslots))
           semester_modules start = Return result →
  fst <$> result
  = foldl (λ seen x, if mem x seen then seen else seen ++ [x]) (fst <$> start)
          semester_modules ∧
  Forall (λ kv, get_timeslots_for_module module_catalogue kv.1 = Return kv.2) result.
Proof.
  revert start. induction semester_modules as [|module modules IH]; intros start Hstart;
    cbn [for_each foldl].
  { by intros [= <-]. }
  destruct (get_timeslots_for_module module_catalogue module) as [timeslots|] eqn:Hget;
    cbn [mbind outcome_bind]; [|done].
  intros Hrun. apply IH in Hrun as [Hkeys Hvalues].
  - split; [|done]. by rewrite Hkeys, dict_set_keys.
  - by apply dict_set_Forall.
Qed.

(** X24.  The dictionary of a semester has one entry for every chosen
    module, in the order of the choices, however often the module is chosen,
    and the entry holds the timeslots of the module. *)
Theorem timeslot_dictionary_entries (semester_modules : list string)
    (timeslot_dictionary : list (string * list string)) :
  timeslot_dictionary_of module_catalogue semester_modules = Return timeslot_dictionary →
  fst <$> timeslot_dictionary = unique semester_modules ∧
  NoDup (fst <$> timeslot_dictionary) ∧
  ∀ module timeslots,
    (module, timeslots) ∈ timeslot_dictionary →
    get_timeslots_for_module module_catalogue module = Return timeslots ∧
    dict_get timeslot_dictionary module = Return timeslots.
Proof.
  intros Hrun. unfold timeslot_dictionary_of in Hrun.
  apply timeslot_dictionary_loop in Hrun as [Hkeys Hvalues]; [|by constructor].
  assert (Hnd : NoDup (fst <$> timeslot_dictionary)).
  { rewrite Hkeys. apply NoDup_unique. }
  split; [exact Hkeys|]. split; [exact Hnd|].
  intros module timeslots Hin. rewrite Forall_forall in Hvalues.
  split; [exact (Hvalues _ Hin)|].
  unfold dict_get.
  destruct (list_find_elem_of (λ kv : string * list string, kv.1 = module)
              timeslot_dictionary (module, timeslots) Hin eq_refl) as [[i kv] Hfind].
  rewrite Hfind. f_equal.
  apply list_find_Some in Hfind as (Hlookup & Hkey & _).
  apply list_elem_of_lookup_2 in Hlookup. cbn [snd fst] in *.
  destruct kv as [key value]. cbn [fst snd] in *. subst key.
  clear -Hnd Hin Hlookup.
  induction timeslot_dictionary as [|[k v] d IH]; [by apply elem_of_nil in Hin|].
  rewrite fmap_cons in Hnd. apply NoDup_cons in Hnd as [Hk Hnd]. cbn [fst] in Hk.
  apply elem_of_cons in Hin as [Hin|Hin]; apply elem_of_cons in Hlookup as [Hl|Hl].
  - congruence.
  - exfalso. injection Hin as <- <-. apply Hk, list_elem_of_fmap. by exists (module, value).
  - exfalso. injection Hl as <- <-. apply Hk, list_elem_of_fmap. by exists (module, timeslots).
  - by apply IH.
Qed.

End Dictionary.

(** X24 at a semester in which MT3501 is chosen twice. *)
Lemma timeslot_dictionary_entries_example :
  fst <$> [("MT3501", ["10am Mon"; "11am Tue"]); ("MT3503", ["9am Fri"])]
  = unique ["MT3501"; "MT3503"; "MT3501"] ∧
  NoDup (fst <$> [("MT3501", ["10am Mon"; "11am Tue"]); ("MT3503", ["9am Fri"])]) ∧
  ∀ module timeslots,
    (module, timeslots) ∈ [("MT3501", ["10am Mon"; "11am Tue"]); ("MT3503", ["9am Fri"])] →
    get_timeslots_for_module monday_catalogue module = Return timeslots ∧
    dict_get [("MT3501", ["10am Mon"; "11am Tue"]); ("MT3503", ["9am Fri"])] module
    = Return timeslots.
Proof.
  refine (timeslot_dictionary_entries monday_catalogue ["MT3501"; "MT3503"; "MT3501"]
            [("MT3501", ["10am Mon"; "11am Tue"]); ("MT3503", ["9am Fri"])] _).
  by vm_compute.
Defined.

(** ** No form without a remark *)

(** X25.  No form is summarised with ["None"] both as programme findings
    and as recommendations to the adviser, so none with ["None"] in all
    five columns.  The remark comes from the programme check alone: for
    every student that is read from a form, the programme findings are not
    ["None"], or the advice of the programme check keeps the merged
    recommendations from being ["None"], whatever the other three checks
    add to them. *)
Theorem no_form_without_remark `{HashOrder} (module_catalogue : list Catalogue.row)
    (filename : string) (sheet : Form) (data_bases : list (list Records.row)) :
  (∀ summary,
     process_form_file module_catalogue filename sheet data_bases = Return summary →
     Unmet_programme_requirements summary ≠ "None" ∨
     Adviser_recommendations summary ≠ "None") ∧
  (∀ student missed advice,
     parse_excel_form sheet data_bases = Return (inl student) →
     find_missing_programme_requirements module_catalogue student = Return (missed, advice) →
     missed ≠ "None" ∨
     ∀ a2 b2 c2, merge_list_to_long_string [advice; a2; b2; c2] ≠ "None").
Proof.
  split.
  - intros summary Hrun.
    destruct (parse_excel_form sheet data_bases) as [[student|warning]|] eqn:Hparse.
    + destruct (decide (Unmet_programme_requirements summary = "None")) as [Hunmet|];
        [right|by left].
      destruct (decide (Programme summary = "Bachelor of Science (Honours) Mathematics"))
        as [Hprog|Hprog].
      { by apply (processed_form_still_advised module_catalogue filename sheet data_bases
                    summary Hrun Hprog Hunmet). }
      exfalso. unfold process_form_file in Hrun. rewrite Hparse in Hrun.
      cbn [mbind outcome_bind] in Hrun. unfold process_student in Hrun.
      destruct (find_missing_programme_requirements module_catalogue student)
        as [[missed advice]|] eqn:Hfind; cbn [mbind outcome_bind] in Hrun; [|discriminate].
      destruct (find_missing_prerequisites module_catalogue student) as [[a1 a2]|];
        cbn [mbind outcome_bind] in Hrun; [|discriminate].
      destruct (find_not_running_modules module_catalogue student) as [[b1 b2]|];
        cbn [mbind outcome_bind] in Hrun; [|discriminate].
      destruct (find_timetable_clashes module_catalogue student) as [[c1 c2]|];
        cbn [mbind outcome_bind] in Hrun; [|discriminate].
      injection Hrun as <-.
      cbn [Unmet_programme_requirements Programme] in *.
      by apply (other_programme_finding module_catalogue student missed advice Hprog Hfind).
    + destruct (warning_sentinel module_catalogue filename sheet data_bases warning Hparse)
        as [rest Hsentinel].
      rewrite Hsentinel in Hrun. injection Hrun as <-. left.
      cbn [Unmet_programme_requirements sentinel_summary]. rewrite str_app_cons.
      discriminate.
    + unfold process_form_file in Hrun. rewrite Hparse in Hrun. discriminate.
  - intros student missed advice Hparse Hfind.
    destruct (decide (programme_name student = "Bachelor of Science (Honours) Mathematics"))
      as [Hprog|Hprog].
    + destruct (decide (missed = "None")) as [Hnone|]; [right|by left].
      intros a2 b2 c2.
      apply (programme_advice_not_None module_catalogue student missed advice a2 b2 c2
               Hprog); [|done..].
      rewrite (parse_excel_form_mathematics sheet data_bases student Hparse Hprog). lia.
    + left. by apply (other_programme_finding module_catalogue student missed advice Hprog).
Qed.

(** X25 at the example form: its summary has a recommendation. *)
Lemma no_form_without_remark_example :
  ∃ summary,
    process_form_file (H := elements_order) example_catalogue "a.xlsx" example_form
      [example_data_base] = Return summary ∧
    (Unmet_programme_requirements summary ≠ "None" ∨
     Adviser_recommendations summary ≠ "None").
Proof.
  eexists. split; [by vm_compute|].
  apply (proj1 (@no_form_without_remark elements_order example_catalogue "a.xlsx"
                  example_form [example_data_base])).
  by vm_compute.
Defined.

(** ** Prerequisites that join three or more modules *)

Lemma upper_or_digit_no_space (x : ascii) :
  is_upper x || is_digit x = true → is_space x = false.
Proof. destruct x as [[] [] [] [] [] [] [] []]; done. Qed.

Lemma module_code_chars (c : string) :
  match_module_code c = Some c →
  ∃ a b d1 d2 d3 d4,
    c = String a (String b (String d1 (String d2 (String d3 (String d4 ""))))) ∧
    is_upper a = true ∧ is_upper b = true ∧ is_digit d1 = true ∧ is_digit d2 = true ∧
    is_digit d3 = true ∧ is_digit d4 = true.
Proof.
  unfold match_module_code.
  destruct c as [|a [|b [|d1 [|d2 [|d3 [|d4 rest]]]]]]; try discriminate.
  destruct (is_upper a && is_upper b && is_digit d1 && is_digit d2 && is_digit d3
            && is_digit d4) eqn:Hshape; [|discriminate].
  intros [= <-].
  apply andb_true_iff in Hshape as [Hshape H4].
  apply andb_true_iff in Hshape as [Hshape H3].
  apply andb_true_iff in Hshape as [Hshape H2].
  apply andb_true_iff in Hshape as [Hshape H1].
  apply andb_true_iff in Hshape as [Ha Hb].
  by exists a, b, d1, d2, d3, d4.
Qed.

Lemma module_code_is_word (c : string) : match_module_code c = Some c → is_word c = true.
Proof.
  intros (a & b & d1 & d2 & d3 & d4 & -> & Ha & Hb & H1 & H2 & H3 & H4)%module_code_chars.
  unfold is_word. cbn [no_space].
  rewrite !upper_or_digit_no_space by (rewrite ?Ha, ?Hb, ?H1, ?H2, ?H3, ?H4, ?orb_true_r; done).
  done.
Qed.

Lemma connective_word_is_word (op : connective) : is_word (connective_word op) = true.
Proof. by destruct op. Qed.

Lemma joined_codes_cons (op : connective) (c c' : string) (codes : list string) :
  joined_codes op (c :: c' :: codes)
  = c +:+ " " +:+ connective_word op +:+ " " +:+ joined_codes op (c' :: codes).
Proof.
  unfold joined_codes.
  change (join ?sep (c :: c' :: codes)) with (c +:+ sep +:+ join sep (c' :: codes)).
  by rewrite !str_app_assoc.
Qed.

Lemma str_split_joined_codes (op : connective) (codes : list string) :
  Forall (λ c, match_module_code c = Some c) codes →
  str_split (joined_codes op codes) = joined_words op codes.
Proof.
  induction 1 as [|c codes Hc Hcodes IH]; [done|].
  destruct codes as [|c' codes].
  - apply str_split_word. by apply module_code_is_word.
  - rewrite joined_codes_cons.
    rewrite str_split_word_blank by (by apply module_code_is_word).
    rewrite str_split_word_blank by apply connective_word_is_word.
    by rewrite IH.
Qed.

Lemma length_joined_words (op : connective) (codes : list string) :
  codes ≠ [] → length (joined_words op codes) = 2 * length codes - 1.
Proof.
  induction codes as [|c codes IH]; [done|]. intros _.
  destruct codes as [|c' codes]; [done|].
  change (joined_words op (c :: c' :: codes))
    with (c :: connective_word op :: joined_words op (c' :: codes)).
  cbn [length] in *. rewrite IH by done. lia.
Qed.

(** The word before a module code is the connective. *)
Lemma joined_words_before (op : connective) (codes : list string) (i : nat) (c : string) :
  joined_words op codes !! S i = Some c →
  match_module_code c = Some c →
  joined_words op codes !! i = Some (connective_word op).
Proof.
  revert i. induction codes as [|c0 codes IH]; intros i; [done|].
  destruct codes as [|c' codes]; [done|].
  change (joined_words op (c0 :: c' :: codes))
    with (c0 :: connective_word op :: joined_words op (c' :: codes)).
  destruct i as [|[|i]].
  - cbn. intros [= <-]. by destruct op.
  - done.
  - cbn [lookup list_lookup]. apply IH.
Qed.

Lemma match_module_code_not_upper (x : ascii) (s : string) :
  is_upper x = false → match_module_code (String x s) = None.
Proof.
  intros Hx. unfold match_module_code.
  destruct s as [|b [|d1 [|d2 [|d3 [|d4 rest]]]]]; try done.
  by rewrite Hx.
Qed.

Lemma findall_go_skip (u s : string) :
  findall_go (String.length u) (u +:+ s) = findall_go 0 s.
Proof.
  induction u as [|x u IH]; [done|].
  rewrite str_app_cons. cbn [String.length findall_go]. exact IH.
Qed.

Lemma findall_go_code (c s : string) :
  match_module_code c = Some c → findall_go 0 (c +:+ s) = c :: findall_go 0 s.
Proof.
  intros Hcode.
  destruct (module_code_chars c Hcode)
    as (a & b & d1 & d2 & d3 & d4 & -> & Ha & Hb & H1 & H2 & H3 & H4).
  rewrite !str_app_cons, str_app_nil_l. cbn [findall_go match_module_code].
  rewrite Ha, Hb, H1, H2, H3, H4. cbn [andb]. done.
Qed.

Lemma findall_go_separator (op : connective) (s : string) :
  findall_go 0 ((" " +:+ connective_word op +:+ " ") +:+ s) = findall_go 0 s.
Proof.
  destruct op; cbn [connective_word];
    rewrite !str_app_cons, !str_app_nil_l, ?str_app_cons, ?str_app_nil_l;
    repeat (cbn [findall_go]; rewrite match_module_code_not_upper by done); done.
Qed.

Lemma findall_joined_codes (op : connective) (codes : list string) :
  Forall (λ c, match_module_code c = Some c) codes →
  findall_module_codes (joined_codes op codes) = codes.
Proof.
  unfold findall_module_codes.
  induction 1 as [|c codes Hc Hcodes IH]; [done|].
  destruct codes as [|c' codes].
  - unfold joined_codes. cbn [join]. rewrite <- (str_app_nil_r c) at 1.
    by rewrite findall_go_code.
  - unfold joined_codes in *.
    change (join ?sep (c :: c' :: codes)) with (c +:+ sep +:+ join sep (c' :: codes)).
    by rewrite findall_go_code, findall_go_separator, IH.
Qed.

Lemma replace_go_skip (old new u s : string) :
  replace_go old new (String.length u) (u +:+ s) = replace_go old new 0 s.
Proof.
  induction u as [|x u IH]; [done|].
  rewrite str_app_cons. cbn [String.length replace_go]. exact IH.
Qed.

Lemma replace_go_keep (c new w s : string) :
  (∀ pre w', w = pre +:+ w' → w' ≠ "" → startswith (w' +:+ s) c = false) →
  replace_go c new 0 (w +:+ s) = w +:+ replace_go c new 0 s.
Proof.
  induction w as [|x w IH]; intros Hw; [done|].
  rewrite !str_app_cons. cbn [replace_go].
  rewrite <- str_app_cons, (Hw "" (String x w)) by done.
  rewrite IH; [done|].
  intros pre w' -> Hw'. by apply (Hw (String x pre)).
Qed.

Lemma upper_not_digit (x : ascii) : is_upper x = true → is_digit x = false.
Proof. destruct x as [[] [] [] [] [] [] [] []]; done. Qed.

Section ReplaceAtoms.
Context (c : string) (b : bool) (Hcode : match_module_code c = Some c).

Lemma replace_go_code_here (s : string) :
  replace_go c (str_of_bool b) 0 (c +:+ s)
  = str_of_bool b +:+ replace_go c (str_of_bool b) 0 s.
Proof.
  destruct (module_code_shape c Hcode) as (a & c' & Hc & _).
  assert (Hcs : c +:+ s = String a (c' +:+ s)).
  { rewrite Hc at 1. apply str_app_cons. }
  assert (Hlen : String.length c - 1 = String.length c').
  { rewrite Hc at 1. cbn [String.length]. lia. }
  rewrite Hcs. cbn [replace_go]. rewrite <- Hcs, startswith_app, Hlen.
  by rewrite replace_go_skip.
Qed.

Lemma replace_go_not_upper (x : ascii) (s : string) :
  is_upper x = false →
  replace_go c (str_of_bool b) 0 (String x s)
  = String x (replace_go c (str_of_bool b) 0 s).
Proof.
  intros Hx. cbn [replace_go].
  destruct (module_code_chars c Hcode) as (a & ? & ? & ? & ? & ? & Hc & Ha & _).
  rewrite Hc at 1. rewrite startswith_cons.
  destruct (Ascii.eqb_spec a x) as [->|]; [congruence|done].
Qed.

Lemma replace_go_separator (op : connective) (s : string) :
  replace_go c (str_of_bool b) 0 ((" " +:+ connective_word op +:+ " ") +:+ s)
  = (" " +:+ connective_word op +:+ " ") +:+ replace_go c (str_of_bool b) 0 s.
Proof.
  destruct op; cbn [connective_word];
    rewrite !str_app_cons, !str_app_nil_l, ?str_app_cons, ?str_app_nil_l;
    rewrite !replace_go_not_upper by done; done.
Qed.

(** No occurrence of the code begins within another code. *)
Lemma other_code_no_match (c' pre w' r : string) :
  match_module_code c' = Some c' → c' ≠ c →
  c' = pre +:+ w' → w' ≠ "" → startswith (w' +:+ r) c = false.
Proof.
  intros Hcode' Hne Hpre Hw'.
  destruct (module_code_chars c Hcode)
    as (a & b0 & d1 & d2 & d3 & d4 & Hc & Ha & Hb & H1 & H2 & H3 & H4).
  destruct (module_code_chars c' Hcode')
    as (a' & b' & e1 & e2 & e3 & e4 & Hc' & Ha' & Hb' & H1' & H2' & H3' & H4').
  assert (Hdigit : ∀ (x : ascii) (s : string),
            is_digit x = true → startswith (String x s) c = false).
  { intros x s Hx. rewrite Hc, startswith_cons.
    destruct (Ascii.eqb_spec a x) as [->|]; [|done].
    apply upper_not_digit in Ha. congruence. }
  rewrite Hc' in Hpre.
  destruct pre as [|p0 pre].
  { rewrite str_app_nil_l in Hpre. subst w'.
    rewrite !str_app_cons, str_app_nil_l, Hc, !startswith_cons.
    destruct (Ascii.eqb_spec a a') as [->|]; [|done].
    destruct (Ascii.eqb_spec b0 b') as [->|]; [|done].
    destruct (Ascii.eqb_spec d1 e1) as [->|]; [|done].
    destruct (Ascii.eqb_spec d2 e2) as [->|]; [|done].
    destruct (Ascii.eqb_spec d3 e3) as [->|]; [|done].
    destruct (Ascii.eqb_spec d4 e4) as [->|]; [|done].
    congruence. }
  rewrite str_app_cons in Hpre. injection Hpre as _ Hpre.
  destruct pre as [|p1 pre].
  { rewrite str_app_nil_l in Hpre. subst w'.
    rewrite !str_app_cons, str_app_nil_l, Hc, !startswith_cons.
    destruct (Ascii.eqb a b'); [|done].
    destruct (Ascii.eqb_spec b0 e1) as [->|]; [|done].
    apply upper_not_digit in Hb. congruence. }
  rewrite str_app_cons in Hpre. injection Hpre as _ Hpre.
  do 4 (destruct pre as [|? pre];
        [rewrite str_app_nil_l in Hpre; subst w'; rewrite !str_app_cons; by apply Hdigit|];
        rewrite str_app_cons in Hpre; injection Hpre as _ Hpre).
  symmetry in Hpre. by apply str_app_eq_nil in Hpre as [_ ?].
Qed.

Lemma replace_go_atom (a s : string) :
  is_atom a →
  replace_go c (str_of_bool b) 0 (a +:+ s)
  = (if decide (a = c) then str_of_bool b else a) +:+ replace_go c (str_of_bool b) 0 s.
Proof.
  intros Hatom. destruct (decide (a = c)) as [->|Hne]; [apply replace_go_code_here|].
  apply replace_go_keep. intros pre w' Hpre Hw'.
  destruct (module_code_shape c Hcode) as (? & ? & _ & _ & Hlike & _).
  destruct Hatom as [Hcode'|[->| ->]].
  - by apply (other_code_no_match a pre).
  - apply (code_like_not_in_bool true); [done|by exists pre|done].
  - apply (code_like_not_in_bool false); [done|by exists pre|done].
Qed.

(** Replacing a code in a text of atoms replaces the atoms that are the
    code. *)
Lemma replace_atoms (op : connective) (atoms : list string) :
  Forall is_atom atoms →
  replace (joined_codes op atoms) c (str_of_bool b)
  = joined_codes op ((λ a, if decide (a = c) then str_of_bool b else a) <$> atoms).
Proof.
  intros Hatoms. unfold replace.
  rewrite (str_eqb_false _ _ (module_code_nonempty c Hcode)).
  induction Hatoms as [|a atoms Ha Hatoms IH]; [done|].
  destruct atoms as [|a' atoms].
  - unfold joined_codes. cbn [fmap list_fmap join].
    rewrite <- (str_app_nil_r a) at 1. rewrite replace_go_atom by done.
    cbn [replace_go]. by rewrite str_app_nil_r.
  - unfold joined_codes in *. rewrite !fmap_cons in *.
    change (join ?sep (?x :: ?y :: ?l)) with (x +:+ sep +:+ join sep (y :: l)).
    by rewrite replace_go_atom, replace_go_separator, IH.
Qed.

End ReplaceAtoms.

Lemma substitute_module_code_plain (words previously simultaneously : list string)
    (parsed c : string) :
  match_module_code c = Some c →
  (∀ i, list_index c words = Some (S i) → words !! i ≠ Some "co-requisite") →
  substitute_module_code words previously simultaneously parsed c
  = replace parsed c (str_of_bool (mem c previously)).
Proof.
  intros Hcode Hbefore. unfold substitute_module_code.
  destruct (list_index c words) as [[|i]|] eqn:Hindex.
  - cbn [Nat.ltb Nat.leb]. apply replace_str_of_bool.
  - change (0 <? S i)%nat with true. cbv iota.
    replace (S i - 1) with i by lia.
    assert (Hword : String.eqb (default "" (words !! i)) "co-requisite" = false).
    { apply String.eqb_neq. intros Heq. apply (Hbefore i eq_refl).
      destruct (words !! i); cbn in Heq; [by subst|discriminate]. }
    rewrite Hword, !replace_str_of_bool. by apply replace_code_twice.
  - apply replace_str_of_bool.
Qed.

Lemma joined_words_plain (op : connective) (codes : list string) (c : string) (i : nat) :
  match_module_code c = Some c →
  list_index c (joined_words op codes) = Some (S i) →
  joined_words op codes !! i ≠ Some "co-requisite".
Proof.
  intros Hcode Hindex. unfold list_index in Hindex.
  destruct (list_find (λ y, y = c) (joined_words op codes)) as [[j y]|] eqn:Hfind;
    [|discriminate].
  injection Hindex as ->.
  apply list_find_Some in Hfind as (Hlookup & Hy & _). rewrite Hy in Hlookup.
  rewrite (joined_words_before op codes i c Hlookup Hcode). by destruct op.
Qed.

Lemma not_code_True : match_module_code "True" ≠ Some "True".
Proof. discriminate. Qed.

Lemma not_code_False : match_module_code "False" ≠ Some "False".
Proof. discriminate. Qed.

(** The loop over the codes of the text turns every code into its truth
    value. *)
Lemma substitute_fold (op : connective) (words previously simultaneously : list string)
    (codes atoms : list string) :
  Forall (λ c, match_module_code c = Some c) codes →
  (∀ c i, c ∈ codes → list_index c words = Some (S i) →
          words !! i ≠ Some "co-requisite") →
  Forall is_atom atoms →
  foldl (substitute_module_code words previously simultaneously)
        (joined_codes op atoms) codes
  = joined_codes op
      ((λ a, if decide (a ∈ codes) then str_of_bool (mem a previously) else a) <$> atoms).
Proof.
  intros Hcodes. revert atoms.
  induction Hcodes as [|c codes Hc Hcodes IH]; intros atoms Hwords Hatoms; cbn [foldl].
  { f_equal. rewrite <- (list_fmap_id atoms) at 1. apply list_fmap_ext.
    intros i a _. destruct (decide (a ∈ [])) as [Hin|]; [by apply elem_of_nil in Hin|done]. }
  rewrite substitute_module_code_plain; [|done|intros i; apply Hwords; left].
  rewrite replace_atoms by done.
  rewrite IH.
  - f_equal. rewrite <- list_fmap_compose. apply list_fmap_ext.
    intros i a _. cbn.
    destruct (decide (a = c)) as [->|Hne].
    + rewrite (decide_True (P := c ∈ c :: codes)) by left.
      destruct (decide (str_of_bool (mem c previously) ∈ codes)) as [Hin|]; [|done].
      exfalso. rewrite Forall_forall in Hcodes. specialize (Hcodes _ Hin).
      destruct (mem c previously); [by apply not_code_True|by apply not_code_False].
    + destruct (decide (a ∈ codes)) as [Hin|Hout].
      * by rewrite decide_True by (by right).
      * rewrite decide_False; [done|]. by intros [?|?]%elem_of_cons.
  - intros c' i Hc'. apply Hwords. by right.
  - apply Forall_fmap. eapply Forall_impl; [exact Hatoms|].
    intros a Ha. cbn. destruct (decide (a = c)); [|done].
    right. destruct (mem c previously); [by left|by right].
Qed.

Lemma parse_prerequisites_joined (op : connective) (codes previously simultaneously : list string) :
  Forall (λ c, match_module_code c = Some c) codes →
  parse_prerequisites (joined_codes op codes) previously simultaneously
  = joined_codes op ((λ c, str_of_bool (mem c previously)) <$> codes).
Proof.
  intros Hcodes. unfold parse_prerequisites.
  rewrite str_split_joined_codes, findall_joined_codes by done.
  rewrite (substitute_fold op); [| done | | ].
  - f_equal. apply list_fmap_ext. intros i c Hc.
    apply list_elem_of_lookup_2 in Hc. by rewrite decide_True.
  - intros c i Hc. apply joined_words_plain.
    rewrite Forall_forall in Hcodes. by apply Hcodes.
  - eapply Forall_impl; [exact Hcodes|]. intros c Hc. by left.
Qed.

(** *** Evaluating the truth values *)

Lemma tokenize_value (b : bool) :
  tokenize "" (str_of_bool b) = Some [if b then TTrue else TFalse].
Proof. by destruct b. Qed.

Lemma tokenize_value_separator (b : bool) (op : connective) (r : string) :
  tokenize "" (str_of_bool b +:+ (" " +:+ connective_word op +:+ " ") +:+ r)
  = ((if b then TTrue else TFalse) ::.) ∘ (connective_token op ::.) <$> tokenize "" r.
Proof.
  destruct b, op; cbn [str_of_bool connective_word connective_token];
    rewrite !str_app_cons, !str_app_nil_l, ?str_app_cons, ?str_app_nil_l;
    cbn; by destruct (tokenize "" r).
Qed.

Lemma tokenize_joined (op : connective) (values : list bool) :
  values ≠ [] →
  tokenize "" (joined_codes op (str_of_bool <$> values)) = Some (joined_tokens op values).
Proof.
  induction values as [|b values IH]; [done|]. intros _.
  destruct values as [|b' values].
  - apply tokenize_value.
  - unfold joined_codes in *. rewrite !fmap_cons in *.
    change (join ?sep (?x :: ?y :: ?l)) with (x +:+ sep +:+ join sep (y :: l)).
    rewrite tokenize_value_separator, IH by done. reflexivity.
Qed.

Lemma parse_value (fuel : nat) (b : bool) (ts : list token) :
  parse (S fuel) LNot ((if b then TTrue else TFalse) :: ts) = Some (b, ts).
Proof. by destruct b. Qed.

Lemma parse_and_step (fuel : nat) (ts : list token) :
  parse (S fuel) LAnd ts
  = '(b, ts) ← parse fuel LNot ts;
    match ts with
    | TAnd :: ts => '(b', ts) ← parse fuel LAnd ts; Some (b && b', ts)
    | _ => Some (b, ts)
    end.
Proof. reflexivity. Qed.

Lemma parse_or_step (fuel : nat) (ts : list token) :
  parse (S fuel) LOr ts
  = '(b, ts) ← parse fuel LAnd ts;
    match ts with
    | TOr :: ts => '(b', ts) ← parse fuel LOr ts; Some (b || b', ts)
    | _ => Some (b, ts)
    end.
Proof. reflexivity. Qed.

Lemma parse_conjunction (values : list bool) (fuel : nat) :
  values ≠ [] → length values + 1 ≤ fuel →
  parse fuel LAnd (joined_tokens And values) = Some (forallb id values, []).
Proof.
  revert fuel. induction values as [|b values IH]; [done|]. intros fuel _ Hfuel.
  destruct fuel as [|[|fuel]]; [cbn in Hfuel; lia..|].
  rewrite parse_and_step.
  destruct values as [|b' values].
  - cbn [joined_tokens]. rewrite parse_value. cbn. by rewrite andb_true_r.
  - change (joined_tokens And (b :: b' :: values))
      with ((if b then TTrue else TFalse) :: TAnd :: joined_tokens And (b' :: values)).
    rewrite parse_value. cbn [mbind option_bind].
    rewrite IH by (done || (cbn [length] in *; lia)).
    reflexivity.
Qed.

Lemma parse_disjunction (values : list bool) (fuel : nat) :
  values ≠ [] → length values + 2 ≤ fuel →
  parse fuel LOr (joined_tokens Or values) = Some (existsb id values, []).
Proof.
  revert fuel. induction values as [|b values IH]; [done|]. intros fuel _ Hfuel.
  destruct fuel as [|[|[|fuel]]]; [cbn in Hfuel; lia..|].
  rewrite parse_or_step, parse_and_step.
  destruct values as [|b' values].
  - cbn [joined_tokens]. rewrite parse_value. cbn. by rewrite orb_false_r.
  - change (joined_tokens Or (b :: b' :: values))
      with ((if b then TTrue else TFalse) :: TOr :: joined_tokens Or (b' :: values)).
    rewrite parse_value. cbn [mbind option_bind].
    rewrite IH by (done || (cbn [length] in *; lia)).
    reflexivity.
Qed.

Lemma length_joined_tokens (op : connective) (values : list bool) :
  values ≠ [] → length (joined_tokens op values) = 2 * length values - 1.
Proof.
  induction values as [|b values IH]; [done|]. intros _.
  destruct values as [|b' values]; [done|].
  change (joined_tokens op (b :: b' :: values))
    with ((if b then TTrue else TFalse) :: connective_token op ::
          joined_tokens op (b' :: values)).
  cbn [length] in *. rewrite IH by done. lia.
Qed.

Lemma eval_bool_joined (op : connective) (values : list bool) :
  values ≠ [] →
  eval_bool (joined_codes op (str_of_bool <$> values))
  = Some (connective_holds op id values).
Proof.
  intros Hne. unfold eval_bool. rewrite tokenize_joined by done.
  cbn [mbind option_bind].
  assert (Hlen : length values ≠ 0) by (by destruct values).
  pose proof (length_joined_tokens op values Hne) as Htokens.
  destruct op.
  - set (fuel := 3 * length (joined_tokens And values) + 3).
    assert (Hfuel : length values + 2 ≤ fuel) by (unfold fuel; lia).
    destruct fuel as [|fuel]; [lia|]. rewrite parse_or_step.
    rewrite parse_conjunction by (done || lia). reflexivity.
  - rewrite parse_disjunction by (done || lia). reflexivity.
Qed.

Lemma connective_holds_fmap {A} (op : connective) (taken : A → bool) (l : list A) :
  connective_holds op id (taken <$> l) = connective_holds op taken l.
Proof.
  destruct op; cbn [connective_holds]; induction l as [|x l IH]; cbn; congruence.
Qed.

Lemma joined_codes_not_MSc (op : connective) (codes : list string) :
  Forall (λ c, match_module_code c = Some c) codes →
  joined_codes op codes ≠ "Students must have gained admission onto an MSc programme".
Proof.
  intros Hcodes Heq. destruct Hcodes as [|c codes Hc Hcodes]; [discriminate|].
  destruct (module_code_chars c Hc) as (a & b & d1 & d2 & d3 & d4 & -> & _ & Hb & _).
  assert (Hsecond : ∃ rest, joined_codes op (String a (String b
                      (String d1 (String d2 (String d3 (String d4 ""))))) :: codes)
                    = String a (String b rest)).
  { destruct codes as [|c' codes].
    - by eexists.
    - rewrite joined_codes_cons. rewrite !str_app_cons. by eexists. }
  destruct Hsecond as [rest Hrest]. rewrite Hrest in Heq.
  injection Heq as _ -> _. discriminate.
Qed.

(** X26.  A prerequisite text that joins three or more module codes by
    "and", or by "or", is checked as it reads: the finding is emitted
    exactly when not all, or none, of the modules are among those taken
    before, and it shows the text and the truth values of the modules. *)
Theorem joined_prerequisites_checked (op : connective) (module : string)
    (codes previously_taken_modules simultaneously_taken_modules : list string) :
  Forall (λ c, match_module_code c = Some c) codes →
  3 ≤ length codes →
  check_prerequisite_text module (joined_codes op codes) previously_taken_modules
    simultaneously_taken_modules
  = Return (if connective_holds op (λ c, mem c previously_taken_modules) codes then []
            else ["Student is missing prerequisite [" +:+ joined_codes op codes +:+
                  "] for module " +:+ module +:+ " ([" +:+
                  joined_codes op
                    ((λ c, str_of_bool (mem c previously_taken_modules)) <$> codes) +:+
                  "])"],
            []).
Proof.
  intros Hcodes Hlen. unfold check_prerequisite_text.
  assert (Hne : codes ≠ []) by (intros ->; cbn in Hlen; lia).
  rewrite str_split_joined_codes, length_joined_words by done.
  assert (H1 : (2 * length codes - 1 =? 1)%nat = false) by (apply Nat.eqb_neq; lia).
  assert (H3 : (2 * length codes - 1 =? 3)%nat = false) by (apply Nat.eqb_neq; lia).
  rewrite H1, H3, (str_eqb_false _ _ (joined_codes_not_MSc op codes Hcodes)).
  rewrite parse_prerequisites_joined by done.
  rewrite (list_fmap_compose (λ c, mem c previously_taken_modules) str_of_bool).
  rewrite eval_bool_joined by (by destruct codes).
  rewrite connective_holds_fmap.
  by destruct (connective_holds op _ codes).
Qed.

(** X26 at MT3501 and MT3502 and MT3503, for a student who has taken the
    first and the third. *)
Lemma joined_prerequisites_checked_example :
  check_prerequisite_text "MT4512" "MT3501 and MT3502 and MT3503" ["MT3501"; "MT3503"] []
  = Return (["Student is missing prerequisite [MT3501 and MT3502 and MT3503] " +:+
             "for module MT4512 ([True and False and True])"], []).
Proof.
  refine (joined_prerequisites_checked And "MT4512" ["MT3501"; "MT3502"; "MT3503"]
            ["MT3501"; "MT3503"] [] _ _).
  - repeat constructor.
  - cbn. lia.
Defined.

(** ** The findings of all modules *)

Lemma merge_list_to_long_string_all_None (l : list string) :
  (∀ x, x ∈ l → x ≠ "") →
  merge_list_to_long_string l = "None" ↔ ∀ x, x ∈ l → x = "None".
Proof.
  intros Hne. split.
  - intros Hmerge x Hx.
    destruct (merge_list_to_long_string_None_inv l x Hmerge Hx) as [?|Hempty]; [done|].
    by destruct (Hne x Hx).
  - intros Hall. rewrite merge_list_to_long_string_eq. unfold joined_findings.
    rewrite filter_none; [done|]. intros x Hx Hx'. by apply Hx', Hall.
Qed.

Section AllModules.
Context (module_catalogue : list Catalogue.row) (student : Student).

Lemma get_missing_prerequisites_for_module_texts (module missed advice : string) :
  get_missing_prerequisites_for_module module_catalogue module student
  = Return (missed, advice) →
  missed ≠ "" ∧ advice ≠ "".
Proof.
  unfold get_missing_prerequisites_for_module.
  destruct (index (Choices.Honours_year <$> _) 0) as [year|];
    cbn [mbind outcome_bind]; [|discriminate].
  destruct (year_number year) as [number|]; cbn [mbind outcome_bind]; [|discriminate].
  destruct (index (Choices.Semester <$> _) 0) as [semester|];
    cbn [mbind outcome_bind]; [|discriminate].
  destruct (for_each _ _ _) as [[[previously simultaneously] same]|];
    cbn [mbind outcome_bind]; [|discriminate].
  destruct (match match catalogue_entry module_catalogue module with
                  | [] => None
                  | r :: _ => Catalogue.Prerequisites r
                  end with
            | Some _ => _
            | None => _
            end) as [[found recommended]|]; cbn [mbind outcome_bind]; [|discriminate].
  intros [= <- <-]. split; apply merge_list_to_long_string_nonempty.
Qed.

Lemma find_missing_prerequisites_loop (modules : list string)
    (missed recommended missed' recommended' : list string) :
  for_each (λ '(missed, recommendations) module,
              '(these_missing_prerequisites, these_adviser_recommendations) ←
                get_missing_prerequisites_for_module module_catalogue module student;
              Return (missed ++ [these_missing_prerequisites],
                      recommendations ++ [these_adviser_recommendations]))
           modules (missed, recommended) = Return (missed', recommended') →
  ∃ results,
    Forall2 (λ module result,
               get_missing_prerequisites_for_module module_catalogue module student
               = Return result) modules results ∧
    missed' = missed ++ results.*1 ∧ recommended' = recommended ++ results.*2.
Proof.
  revert missed recommended.
  induction modules as [|module modules IH]; intros missed recommended; cbn [for_each].
  { intros [= <- <-]. exists []. by rewrite !app_nil_r. }
  destruct (get_missing_prerequisites_for_module module_catalogue module student)
    as [[a b]|] eqn:Hmodule; cbn [mbind outcome_bind]; [|done].
  intros Hrun. apply IH in Hrun as (results & Hresults & -> & ->).
  exists ((a, b) :: results). rewrite !fmap_cons, <- !app_assoc.
  split; [|done]. by constructor.
Qed.

(** X27.  The findings of all modules are ["None"] exactly when the findings
    of each chosen module are, and likewise the recommendations. *)
Theorem find_missing_prerequisites_None (missed_prerequisites adviser_recommendations : string) :
  find_missing_prerequisites module_catalogue student
  = Return (missed_prerequisites, adviser_recommendations) →
  (missed_prerequisites = "None"
   ↔ ∀ module, module ∈ planned_honours_modules student →
               ∃ advice, get_missing_prerequisites_for_module module_catalogue module student
                         = Return ("None", advice)) ∧
  (adviser_recommendations = "None"
   ↔ ∀ module, module ∈ planned_honours_modules student →
               ∃ missed, get_missing_prerequisites_for_module module_catalogue module student
                         = Return (missed, "None")).
Proof.
  unfold find_missing_prerequisites.
  destruct (for_each _ _ _) as [[missed recommended]|] eqn:Hloop;
    cbn [mbind outcome_bind]; [|done].
  intros [= <- <-].
  apply find_missing_prerequisites_loop in Hloop as (results & Hresults & -> & ->).
  rewrite !app_nil_l.
  assert (Htexts : ∀ result, result ∈ results → result.1 ≠ "" ∧ result.2 ≠ "").
  { intros [a b] Hin.
    apply list_elem_of_lookup_1 in Hin as [i Hi].
    destruct (Forall2_lookup_r _ _ _ _ _ Hresults Hi) as (module & _ & Hmodule).
    by apply get_missing_prerequisites_for_module_texts in Hmodule. }
  split.
  - rewrite merge_list_to_long_string_all_None.
    2: { intros x (result & -> & Hin)%list_elem_of_fmap. by apply Htexts. }
    split.
    + intros Hall module Hmodule.
      apply list_elem_of_lookup_1 in Hmodule as [i Hi].
      destruct (Forall2_lookup_l _ _ _ _ _ Hresults Hi) as ([a b] & Hresult & Hrun).
      exists b. rewrite Hrun. do 2 f_equal.
      apply (Hall a). apply list_elem_of_fmap. exists (a, b). split; [done|].
      by eapply list_elem_of_lookup_2.
    + intros Hall x (result & -> & Hin)%list_elem_of_fmap.
      apply list_elem_of_lookup_1 in Hin as [i Hi].
      destruct (Forall2_lookup_r _ _ _ _ _ Hresults Hi) as (module & Hmodule & Hrun).
      destruct (Hall module) as [advice Hnone]; [by eapply list_elem_of_lookup_2|].
      rewrite Hrun in Hnone. by injection Hnone as ->.
  - rewrite merge_list_to_long_string_all_None.
    2: { intros x (result & -> & Hin)%list_elem_of_fmap. by apply Htexts. }
    split.
    + intros Hall module Hmodule.
      apply list_elem_of_lookup_1 in Hmodule as [i Hi].
      destruct (Forall2_lookup_l _ _ _ _ _ Hresults Hi) as ([a b] & Hresult & Hrun).
      exists a. rewrite Hrun. do 2 f_equal.
      apply (Hall b). apply list_elem_of_fmap. exists (a, b). split; [done|].
      by eapply list_elem_of_lookup_2.
    + intros Hall x (result & -> & Hin)%list_elem_of_fmap.
      apply list_elem_of_lookup_1 in Hin as [i Hi].
      destruct (Forall2_lookup_r _ _ _ _ _ Hresults Hi) as (module & Hmodule & Hrun).
      destruct (Hall module) as [missed Hnone]; [by eapply list_elem_of_lookup_2|].
      rewrite Hrun in Hnone. by injection Hnone as ->.
Qed.

End AllModules.

(** X27 at the example student, whose findings are None: so are those of
    every chosen module. *)
Lemma find_missing_prerequisites_None_example :
  Forall (λ module, ∃ advice, get_missing_prerequisites_for_module example_catalogue module
                                example_student = Return ("None", advice))
         (planned_honours_modules example_student).
Proof.
  apply Forall_forall.
  refine (proj1 (proj1 (find_missing_prerequisites_None example_catalogue example_student
                          "None" "None" _)) eq_refl).
  by vm_compute.
Defined.
